(** * Double-entry accounting core of the construction ERP backend

    A shallow embedding of the journal-entry model (models/JournalEntry.js),
    the general-ledger model (models/GeneralLedger.js), the chart of
    accounts (models/ChartOfAccount.js) and the accounting service
    (services/accountingService.js).

    Conventions of the embedding.
    - A JS [Number] holding an amount is a rational [Q]; sums and
      differences are exact.
    - A [Date] is represented by its local calendar decomposition: the
      year ([getFullYear]), the month ([getMonth], 0..11) and the
      milliseconds elapsed since the start of that month. Dates compare
      lexicographically, which is the order of the underlying instants.
    - An [ObjectId] is a natural number drawn from a counter of the
      database.
    - A MongoDB collection is the list of its documents in insertion
      (natural) order.
    - Operations that throw return [inl error]; the clock ([now]) and the
      availability of the ledger collection for writes ([ledgerUp]) are
      explicit arguments.
    - Document validation is part of the embedding where the accounting
      core writes: the [required] paths, the [min] validators and the
      line-count validator of the journal entry, general ledger and chart
      of accounts schemas run before the pre-save hooks of [create] and
      [save] and before the write of [insertMany]. An [enum] is the type
      of its field. Strings are taken as free of leading and trailing
      white space, so that the [trim] setters leave them as they are. *)

From Stdlib Require Import List String Ascii Bool ZArith QArith Qabs Lia Lqa.
From Stdlib Require Import DecimalString Permutation.
From Stdlib Require Import Qround Sorted.
Import ListNotations.

Open Scope string_scope.
Open Scope Q_scope.

(** ** Values shared by the schemas *)

Definition ObjectId := nat.

Record Date := mkDate {
  getFullYear : Z;
  getMonth : Z;
  sinceMonthStart : Z
}.

Module DateOrder.

Definition compare (a b : Date) : comparison :=
  match Z.compare (getFullYear a) (getFullYear b) with
  | Eq =>
      match Z.compare (getMonth a) (getMonth b) with
      | Eq => Z.compare (sinceMonthStart a) (sinceMonthStart b)
      | c => c
      end
  | c => c
  end.

(** [a <= b], the [$lte] of a query. *)
Definition leb (a b : Date) : bool :=
  match compare a b with Gt => false | _ => true end.

(** [a >= b], the [$gte] of a query. *)
Definition geb (a b : Date) : bool := leb b a.

Definition ltb (a b : Date) : bool :=
  match compare a b with Lt => true | _ => false end.

End DateOrder.

(** [new Date(year, 0, 1)]: midnight of January 1st of [year], where the
    years 0 to 99 stand for 1900 to 1999. *)
Definition january1 (year : Z) : Date :=
  mkDate (if (0 <=? year)%Z && (year <=? 99)%Z then (1900 + year)%Z else year)
         0 0.

Inductive AccountType := Asset | Liability | Equity | Revenue | Expense.

Inductive TransactionType :=
  Sale | Purchase | Payment | Receipt | Journal | OpeningBalance
| Adjustment | Booking.

Inductive SourceModel :=
  SalesInvoice | PurchaseDoc | BankPayment | CashPayment | Plot | Manual.

Record SourceTransaction := mkSource {
  model : option SourceModel;
  id : option ObjectId;
  reference : option string
}.

Inductive EntryStatus := Draft | Posted | EntryReversed | EntryCancelled.

Inductive LedgerStatus := Active | Reversed | Cancelled.

Definition AccountType_eqb (a b : AccountType) : bool :=
  match a, b with
  | Asset, Asset | Liability, Liability | Equity, Equity
  | Revenue, Revenue | Expense, Expense => true
  | _, _ => false
  end.

Definition EntryStatus_eqb (a b : EntryStatus) : bool :=
  match a, b with
  | Draft, Draft | Posted, Posted | EntryReversed, EntryReversed
  | EntryCancelled, EntryCancelled => true
  | _, _ => false
  end.

Definition LedgerStatus_eqb (a b : LedgerStatus) : bool :=
  match a, b with
  | Active, Active | Reversed, Reversed | Cancelled, Cancelled => true
  | _, _ => false
  end.

(** ** JS helpers *)

(** [x || 0] on a possibly missing number. *)
Definition orZero (x : option Q) : Q :=
  match x with Some q => q | None => 0 end.

(** [a > 0] on numbers. *)
Definition isPositive (a : Q) : bool := negb (Qle_bool a 0).

(** [a === 0] on numbers. *)
Definition isZero (a : Q) : bool := Qeq_bool a 0.

(** [s || d] on a possibly missing string: the empty string is falsy. *)
Definition orString (s : option string) (d : string) : string :=
  match s with
  | Some EmptyString | None => d
  | Some v => v
  end.

(** Template-literal rendering of a possibly missing string. *)
Definition render (s : option string) : string :=
  match s with Some v => v | None => "undefined" end.

(** A required string path holds a value: a missing value and the empty
    string both fail the [required] validator. *)
Definition nonEmpty (s : string) : bool :=
  match s with EmptyString => false | _ => true end.

Definition presentString (s : option string) : bool :=
  match s with Some v => nonEmpty v | None => false end.

Definition isSome {A : Type} (x : option A) : bool :=
  match x with Some _ => true | None => false end.

(** [min: 0] on a number. *)
Definition atLeastZero (a : Q) : bool := Qle_bool 0 a.

(** [String(n)] for a non-negative integer. *)
Definition stringOfNat (n : nat) : string :=
  NilEmpty.string_of_uint (Nat.to_uint n).

(** [String(z)] for an integer. *)
Definition stringOfZ (z : Z) : string :=
  NilZero.string_of_int (Z.to_int z).

Fixpoint repeatChar (c : ascii) (n : nat) : string :=
  match n with
  | O => EmptyString
  | S k => String c (repeatChar c k)
  end.

(** [s.padStart(n, c)] with a one-character filler. *)
Definition padStart (n : nat) (c : ascii) (s : string) : string :=
  repeatChar c (n - String.length s) ++ s.

(** ** Errors *)

Inductive Error :=
| NotBalanced (totalDebit totalCredit : Q)
| BothDebitAndCredit (accountName : string)
| NeitherDebitNorCredit (accountName : string)
| EntryNotFound
| OnlyPostedCanBeReversed
| ValidationError
| CastError
| StorageError.

Definition Result (A : Type) : Type := (Error + A)%type.

Definition bind {A B : Type} (c : Result A) (k : A -> Result B) : Result B :=
  match c with
  | inl e => inl e
  | inr a => k a
  end.

Notation "x <- c ;; k" := (bind c (fun x => k))
  (at level 61, c at next level, right associativity).

Definition isBalanceError (e : Error) : bool :=
  match e with NotBalanced _ _ => true | _ => false end.

(** ** Schemas *)

(** A line as it arrives in [entryData.lines]: amounts may be missing. *)
Module LineObject.
Record t := mk {
  account : ObjectId;
  accountCode : string;
  accountName : string;
  accountType : AccountType;
  debit : option Q;
  credit : option Q;
  description : option string
}.
End LineObject.

(** JournalEntryLineSchema: a stored line; [debit] and [credit] default
    to 0. *)
Module JournalEntryLineSchema.
Record t := mk {
  account : ObjectId;
  accountCode : string;
  accountName : string;
  accountType : AccountType;
  debit : Q;
  credit : Q;
  description : option string
}.

Definition cast (l : LineObject.t) : t :=
  mk (LineObject.account l) (LineObject.accountCode l)
     (LineObject.accountName l) (LineObject.accountType l)
     (orZero (LineObject.debit l)) (orZero (LineObject.credit l))
     (LineObject.description l).

(** The validators of a line: [accountCode] and [accountName] are
    required, [debit] and [credit] have [min: 0]. *)
Definition validate (l : t) : bool :=
  nonEmpty (accountCode l) && nonEmpty (accountName l)
  && atLeastZero (debit l) && atLeastZero (credit l).
End JournalEntryLineSchema.

(** The plain object handed to [JournalEntry.create]. *)
Module EntryObject.
Record t := mk {
  tenantId : option string;
  entryNumber : option string;
  date : option Date;
  transactionType : TransactionType;
  sourceTransaction : option SourceTransaction;
  project : option ObjectId;
  description : string;
  lines : list LineObject.t;
  totalDebit : option Q;
  totalCredit : option Q;
  status : option EntryStatus;
  isPosted : option bool;
  postedAt : option Date;
  reversedBy : option ObjectId;
  reversalOf : option ObjectId;
  createdBy : option ObjectId
}.
End EntryObject.

(** JournalEntrySchema: a journal entry document. *)
Module JournalEntrySchema.
Record t := mk {
  _id : ObjectId;
  tenantId : option string;
  entryNumber : option string;
  date : Date;
  transactionType : TransactionType;
  sourceTransaction : option SourceTransaction;
  project : option ObjectId;
  description : string;
  lines : list JournalEntryLineSchema.t;
  totalDebit : Q;
  totalCredit : Q;
  status : EntryStatus;
  isPosted : bool;
  postedAt : option Date;
  reversedBy : option ObjectId;
  reversalOf : option ObjectId;
  createdBy : option ObjectId;
  createdAt : Date
}.
End JournalEntrySchema.

(** The plain object pushed to [ledgerEntries] by the poster. *)
Module LedgerObject.
Record t := mk {
  tenantId : option string;
  account : ObjectId;
  accountCode : string;
  accountName : string;
  accountType : AccountType;
  date : Date;
  journalEntry : ObjectId;
  entryNumber : option string;
  description : string;
  transactionType : TransactionType;
  project : option ObjectId;
  debit : Q;
  credit : Q;
  balance : Q;
  sourceTransaction : option SourceTransaction;
  fiscalYear : option Z;
  fiscalPeriod : option Z;
  status : LedgerStatus
}.
End LedgerObject.

(** GeneralLedgerSchema: a general ledger row. *)
Module GeneralLedgerSchema.
Record t := mk {
  _id : ObjectId;
  tenantId : option string;
  account : ObjectId;
  accountCode : string;
  accountName : string;
  accountType : AccountType;
  date : Date;
  journalEntry : ObjectId;
  entryNumber : option string;
  description : string;
  transactionType : TransactionType;
  project : option ObjectId;
  debit : Q;
  credit : Q;
  balance : Q;
  sourceTransaction : option SourceTransaction;
  fiscalYear : option Z;
  fiscalPeriod : option Z;
  status : LedgerStatus;
  createdAt : Date
}.

Definition cast (newId : ObjectId) (now : Date) (o : LedgerObject.t) : t :=
  mk newId (LedgerObject.tenantId o) (LedgerObject.account o)
     (LedgerObject.accountCode o) (LedgerObject.accountName o)
     (LedgerObject.accountType o) (LedgerObject.date o)
     (LedgerObject.journalEntry o) (LedgerObject.entryNumber o)
     (LedgerObject.description o) (LedgerObject.transactionType o)
     (LedgerObject.project o) (LedgerObject.debit o)
     (LedgerObject.credit o) (LedgerObject.balance o)
     (LedgerObject.sourceTransaction o) (LedgerObject.fiscalYear o)
     (LedgerObject.fiscalPeriod o) (LedgerObject.status o) now.

Definition setStatus (s : LedgerStatus) (r : t) : t :=
  mk (_id r) (tenantId r) (account r) (accountCode r) (accountName r)
     (accountType r) (date r) (journalEntry r) (entryNumber r)
     (description r) (transactionType r) (project r) (debit r) (credit r)
     (balance r) (sourceTransaction r) (fiscalYear r) (fiscalPeriod r)
     s (createdAt r).

Definition setFiscal (y p : option Z) (r : t) : t :=
  mk (_id r) (tenantId r) (account r) (accountCode r) (accountName r)
     (accountType r) (date r) (journalEntry r) (entryNumber r)
     (description r) (transactionType r) (project r) (debit r) (credit r)
     (balance r) (sourceTransaction r) y p (status r) (createdAt r).
End GeneralLedgerSchema.

(** ChartOfAccountSchema with its sub-account and list-account
    sub-documents. *)
Module ChartOfAccountSchema.
Record SubAccount := mkSub { subCode : string; subType : string }.
Record ListAccount := mkList { listCode : string; listName : string }.

Record t := mk {
  _id : ObjectId;
  tenantId : option string;
  code : option string;
  name : option string;
  accountType : option AccountType;
  mainAccountType : option ObjectId;
  mainTypeCode : option string;
  mainAccountTypeText : option string;
  financialComponent : option string;
  subAccounts : list SubAccount;
  listAccounts : list ListAccount
}.
End ChartOfAccountSchema.

(** The plain object handed to [ChartOfAccount.create]. *)
Module AccountObject.
Record t := mk {
  tenantId : option string;
  code : option string;
  name : option string;
  accountType : option AccountType;
  mainAccountType : option ObjectId;
  mainTypeCode : option string;
  mainAccountTypeText : option string;
  financialComponent : option string;
  subAccounts : list ChartOfAccountSchema.SubAccount;
  listAccounts : list ChartOfAccountSchema.ListAccount
}.
End AccountObject.

(** ** The database *)

Record Db := mkDb {
  journalEntries : list JournalEntrySchema.t;
  generalLedger : list GeneralLedgerSchema.t;
  chartOfAccounts : list ChartOfAccountSchema.t;
  nextId : ObjectId
}.

Definition emptyDb : Db := mkDb [] [] [] 0%nat.

(** A call that reads and writes the database and may throw: it returns
    the database as it leaves it together with its result or error. *)
Definition Action (A : Type) : Type := Db -> Db * Result A.

Definition andThen {A B : Type} (c : Action A) (k : A -> Action B)
  : Action B :=
  fun db =>
    match c db with
    | (db1, inl error) => (db1, inl error)
    | (db1, inr a) => k a db1
    end.

Notation "x <~ c ;; k" := (andThen c (fun x => k))
  (at level 61, c at next level, right associativity).

(** ** models/JournalEntry.js *)

Module JournalEntry.
Import JournalEntrySchema.

Definition tolerance : Q := 1 # 100.

(** [a > b] on numbers. *)
Definition exceeds (a b : Q) : bool := negb (Qle_bool a b).

Definition sumDebit (ls : list JournalEntryLineSchema.t) : Q :=
  fold_left (fun sum line => sum + JournalEntryLineSchema.debit line) ls 0.

Definition sumCredit (ls : list JournalEntryLineSchema.t) : Q :=
  fold_left (fun sum line => sum + JournalEntryLineSchema.credit line) ls 0.

Definition setTotals (td tc : Q) (postedAt' : option Date) (d : t) : t :=
  mk (_id d) (tenantId d) (entryNumber d) (date d) (transactionType d)
     (sourceTransaction d) (project d) (description d) (lines d) td tc
     (status d) (isPosted d) postedAt' (reversedBy d) (reversalOf d)
     (createdBy d) (createdAt d).

Definition setEntryNumber (n : option string) (d : t) : t :=
  mk (_id d) (tenantId d) n (date d) (transactionType d)
     (sourceTransaction d) (project d) (description d) (lines d)
     (totalDebit d) (totalCredit d) (status d) (isPosted d) (postedAt d)
     (reversedBy d) (reversalOf d) (createdBy d) (createdAt d).

Definition setReversed (by_ : ObjectId) (d : t) : t :=
  mk (_id d) (tenantId d) (entryNumber d) (date d) (transactionType d)
     (sourceTransaction d) (project d) (description d) (lines d)
     (totalDebit d) (totalCredit d) EntryReversed (isPosted d) (postedAt d)
     (Some by_) (reversalOf d) (createdBy d) (createdAt d).

(** The loop over [this.lines] of the first pre-save hook. *)
Fixpoint checkLines (ls : list JournalEntryLineSchema.t) : Result unit :=
  match ls with
  | [] => inr tt
  | line :: rest =>
      if isPositive (JournalEntryLineSchema.debit line)
         && isPositive (JournalEntryLineSchema.credit line)
      then inl (BothDebitAndCredit (JournalEntryLineSchema.accountName line))
      else if isZero (JournalEntryLineSchema.debit line)
              && isZero (JournalEntryLineSchema.credit line)
      then inl (NeitherDebitNorCredit
                  (JournalEntryLineSchema.accountName line))
      else checkLines rest
  end.

(** First pre-save hook: totals, double-entry rule, line rule, posting
    timestamp. *)
Definition preSaveValidate (now : Date) (d : t) : Result t :=
  let td := sumDebit (lines d) in
  let tc := sumCredit (lines d) in
  let difference := Qabs (td - tc) in
  if exceeds difference tolerance then inl (NotBalanced td tc)
  else
    _ <- checkLines (lines d) ;;
    inr (setTotals td tc
           (if isPosted d && EntryStatus_eqb (status d) Posted
            then match postedAt d with
                 | None => Some now
                 | Some p => Some p
                 end
            else postedAt d) d).

(** [countDocuments({ date: { $gte: from } })]. *)
Definition countDocumentsFrom (coll : list t) (from : Date) : nat :=
  List.length (filter (fun e => DateOrder.geb (date e) from) coll).

Definition formatEntryNumber (year : Z) (count : nat) : string :=
  "JE-" ++ stringOfZ year ++ "-"
    ++ padStart 6 "0"%char (stringOfNat (count + 1)).

(** Second pre-save hook: entry number generation. *)
Definition preSaveEntryNumber (coll : list t) (d : t) : t :=
  match entryNumber d with
  | None | Some EmptyString =>
      let year := getFullYear (date d) in
      let count := countDocumentsFrom coll (january1 year) in
      setEntryNumber (Some (formatEntryNumber year count)) d
  | Some _ => d
  end.

Definition preSave (coll : list t) (now : Date) (d : t) : Result t :=
  d1 <- preSaveValidate now d ;;
  inr (preSaveEntryNumber coll d1).

(** Document validation: [tenantId], [description] and [createdBy] are
    required, [lines] holds at least two valid lines, the totals have
    [min: 0]. *)
Definition validate (d : t) : bool :=
  presentString (tenantId d) && nonEmpty (description d)
  && (2 <=? List.length (lines d))%nat
  && forallb JournalEntryLineSchema.validate (lines d)
  && atLeastZero (totalDebit d) && atLeastZero (totalCredit d)
  && isSome (createdBy d).

(** [new JournalEntry(o)]: casting with the schema defaults. A total that
    the object lacks is a required path without value, which [create]
    checks on the object. *)
Definition cast (newId : ObjectId) (now : Date) (o : EntryObject.t) : t :=
  mk newId (EntryObject.tenantId o) (EntryObject.entryNumber o)
     (match EntryObject.date o with Some d => d | None => now end)
     (EntryObject.transactionType o) (EntryObject.sourceTransaction o)
     (EntryObject.project o) (EntryObject.description o)
     (map JournalEntryLineSchema.cast (EntryObject.lines o))
     (orZero (EntryObject.totalDebit o)) (orZero (EntryObject.totalCredit o))
     (match EntryObject.status o with Some s => s | None => Posted end)
     (match EntryObject.isPosted o with Some b => b | None => true end)
     (EntryObject.postedAt o) (EntryObject.reversedBy o)
     (EntryObject.reversalOf o) (EntryObject.createdBy o) now.

(** [JournalEntry.create(o)]: the new document is validated, then the
    pre-save hooks run, then it is written. *)
Definition create (db : Db) (now : Date) (o : EntryObject.t)
  : Result (Db * t) :=
  let d := cast (nextId db) now o in
  if isSome (EntryObject.totalDebit o) && isSome (EntryObject.totalCredit o)
     && validate d
  then
    d' <- preSave (journalEntries db) now d ;;
    inr (mkDb (journalEntries db ++ [d']) (generalLedger db)
              (chartOfAccounts db) (S (nextId db)), d')
  else inl ValidationError.

(** [doc.save()] on a stored document: validation, hooks, write. *)
Definition save (db : Db) (now : Date) (d : t) : Result (Db * t) :=
  if validate d
  then
    d' <- preSave (journalEntries db) now d ;;
    inr (mkDb (map (fun e => if Nat.eqb (_id e) (_id d') then d' else e)
                   (journalEntries db))
              (generalLedger db) (chartOfAccounts db) (nextId db), d')
  else inl ValidationError.

Definition findById (coll : list t) (i : ObjectId) : option t :=
  find (fun e => Nat.eqb (_id e) i) coll.

Definition reversalLine (line : JournalEntryLineSchema.t) : LineObject.t :=
  LineObject.mk
    (JournalEntryLineSchema.account line)
    (JournalEntryLineSchema.accountCode line)
    (JournalEntryLineSchema.accountName line)
    (JournalEntryLineSchema.accountType line)
    (Some (JournalEntryLineSchema.credit line))
    (Some (JournalEntryLineSchema.debit line))
    (Some ("Reversal of "
             ++ render (JournalEntryLineSchema.description line))).

Definition reversalObject (now : Date) (this : t) (userId : ObjectId)
    (reason : option string) : EntryObject.t :=
  EntryObject.mk
    None None (Some now) Adjustment
    (Some (mkSource (Some Manual) None
             (Some ("Reversal of " ++ render (entryNumber this)))))
    (project this)
    ("Reversal: " ++ orString reason (description this))
    (map reversalLine (lines this))
    None None (Some Posted) (Some true) None None (Some (_id this))
    (Some userId).

(** [entry.reverse(userId, reason)]: two separate writes, the creation
    of the reversal entry and the save of the original. The database
    after the call is returned together with the outcome. The object
    handed to [create] has no [tenantId] and no totals. *)
Definition reverse (db : Db) (now : Date) (this : t) (userId : ObjectId)
    (reason : option string) : Db * Result t :=
  if negb (EntryStatus_eqb (status this) Posted)
  then (db, inl OnlyPostedCanBeReversed)
  else
    match create db now (reversalObject now this userId reason) with
    | inl e => (db, inl e)
    | inr (db1, reversalEntry) =>
        match save db1 now (setReversed (_id reversalEntry) this) with
        | inl e => (db1, inl e)
        | inr (db2, _) => (db2, inr reversalEntry)
        end
    end.

End JournalEntry.

(** ** models/GeneralLedger.js *)

Module GeneralLedger.
Import GeneralLedgerSchema.

(** Pre-save hook of the ledger schema: fiscal year and period. *)
Definition preSave (r : t) : t :=
  setFiscal (Some (getFullYear (date r))) (Some (getMonth (date r) + 1)%Z) r.

Fixpoint castFrom (n : ObjectId) (now : Date) (os : list LedgerObject.t)
  : list t :=
  match os with
  | [] => []
  | o :: rest => cast n now o :: castFrom (S n) now rest
  end.

(** Document validation of a ledger row: [tenantId], [accountCode],
    [accountName], [entryNumber] and [description] are required, [debit]
    and [credit] have [min: 0], [fiscalPeriod] lies between 1 and 12
    when it is set. *)
Definition validate (r : t) : bool :=
  presentString (tenantId r)
  && nonEmpty (accountCode r) && nonEmpty (accountName r)
  && presentString (entryNumber r) && nonEmpty (description r)
  && atLeastZero (debit r) && atLeastZero (credit r)
  && match fiscalPeriod r with
     | Some p => (1 <=? p)%Z && (p <=? 12)%Z
     | None => true
     end.

(** [GeneralLedger.insertMany(docs)]: the documents are cast and
    validated; one invalid document rejects the batch before anything is
    written. The valid batch is written at once, and nothing is sent for
    an empty one. Save hooks are not document middleware of [insertMany]
    and do not run. *)
Definition insertMany (db : Db) (now : Date) (ledgerUp : bool)
    (os : list LedgerObject.t) : Result Db :=
  let docs := castFrom (nextId db) now os in
  if negb (forallb validate docs) then inl ValidationError
  else
    match os with
    | [] => inr db
    | _ :: _ =>
        if ledgerUp
        then inr (mkDb (journalEntries db) (generalLedger db ++ docs)
                       (chartOfAccounts db) (nextId db + List.length os)%nat)
        else inl StorageError
    end.

(** [updateMany({ journalEntry: entryId }, { status: s })]. *)
Definition updateManyStatus (db : Db) (ledgerUp : bool) (entryId : ObjectId)
    (s : LedgerStatus) : Result Db :=
  if ledgerUp
  then inr (mkDb (journalEntries db)
                 (map (fun r => if Nat.eqb (journalEntry r) entryId
                                then setStatus s r else r)
                      (generalLedger db))
                 (chartOfAccounts db) (nextId db))
  else inl StorageError.

(** [a] sorts strictly after [b] under [{ date: 1, createdAt: 1 }]. *)
Definition after (a b : t) : bool :=
  match DateOrder.compare (date a) (date b) with
  | Gt => true
  | Lt => false
  | Eq => DateOrder.ltb (createdAt b) (createdAt a)
  end.

(** One step of the scan that keeps a latest matching row. *)
Definition keepLatest (code : string) (best : option t) (r : t) : option t :=
  if String.eqb (accountCode r) code && LedgerStatus_eqb (status r) Active
  then match best with
       | None => Some r
       | Some b => if after r b then Some r else Some b
       end
  else best.

(** [findOne({ accountCode, status: "Active" })
      .sort({ date: -1, createdAt: -1 })]:
    a latest matching row; among equally late rows the first in
    natural order. *)
Definition findOneLatestActive (coll : list t) (code : string) : option t :=
  fold_left (keepLatest code) coll None.

Fixpoint insertSorted {A : Type} (le : A -> A -> bool) (x : A) (l : list A)
  : list A :=
  match l with
  | [] => [x]
  | y :: rest => if le x y then x :: l else y :: insertSorted le x rest
  end.

(** A stable sort, for [.sort(...)] and [$sort]. *)
Definition sortBy {A : Type} (le : A -> A -> bool) (l : list A) : list A :=
  fold_right (insertSorted le) [] l.

(** ** Aggregation: [$group] with [$sum] and [$first] accumulators *)

Record Group (K : Type) := mkGroup {
  key : K;
  firstName : string;
  firstType : AccountType;
  totalDebit : Q;
  totalCredit : Q
}.
Arguments mkGroup {K}.
Arguments key {K}.
Arguments firstName {K}.
Arguments firstType {K}.
Arguments totalDebit {K}.
Arguments totalCredit {K}.

Fixpoint groupAdd {K : Type} (eqb : K -> K -> bool) (k : K) (r : t)
    (gs : list (Group K)) : list (Group K) :=
  match gs with
  | [] => [mkGroup k (accountName r) (accountType r)
                   (0 + debit r) (0 + credit r)]
  | g :: rest =>
      if eqb (key g) k
      then mkGroup (key g) (firstName g) (firstType g)
                   (totalDebit g + debit r) (totalCredit g + credit r)
             :: rest
      else g :: groupAdd eqb k r rest
  end.

Definition group {K : Type} (eqb : K -> K -> bool) (keyOf : t -> K)
    (rows : list t) : list (Group K) :=
  fold_left (fun gs r => groupAdd eqb (keyOf r) r gs) rows [].

(** ** getAccountBalance *)

Record AccountBalance := mkBalance {
  abName : option string;
  abType : option AccountType;
  abTotalDebit : Q;
  abTotalCredit : Q;
  abBalance : Q
}.

Definition matchAccountAsOf (code : string) (asOfDate : Date) (r : t) : bool :=
  String.eqb (accountCode r) code
  && DateOrder.leb (date r) asOfDate
  && LedgerStatus_eqb (status r) Active.

Definition getAccountBalance (coll : list t) (code : string)
    (asOfDate : Date) : AccountBalance :=
  let result :=
    map (fun g => mkBalance (Some (firstName g)) (Some (firstType g))
                    (totalDebit g) (totalCredit g)
                    (totalDebit g - totalCredit g))
        (group String.eqb accountCode
           (filter (matchAccountAsOf code asOfDate) coll)) in
  match result with
  | first :: _ => first
  | [] => mkBalance None None 0 0 0
  end.

(** ** getAccountLedger *)

Record AccountLedger := mkLedger {
  alAccountCode : string;
  openingBalance : Q;
  closingBalance : Q;
  entries : list (t * Q)
}.

Definition inRange (startDate endDate : option Date) (d : Date) : bool :=
  match startDate with Some s => DateOrder.geb d s | None => true end
  && match endDate with Some e => DateOrder.leb d e | None => true end.

Definition byDateThenCreation (a b : t) : bool := negb (after a b).

(** The [entries.map] that threads [runningBalance]. *)
Fixpoint walk (runningBalance : Q) (es : list t) : list (t * Q) * Q :=
  match es with
  | [] => ([], runningBalance)
  | entry :: rest =>
      let runningBalance' := runningBalance + (debit entry - credit entry) in
      let (out, final) := walk runningBalance' rest in
      ((entry, runningBalance') :: out, final)
  end.

Definition getAccountLedger (coll : list t) (code : string)
    (startDate endDate : option Date) : AccountLedger :=
  let opening :=
    match startDate with
    | Some s => abBalance (getAccountBalance coll code s)
    | None => 0
    end in
  let found :=
    sortBy byDateThenCreation
      (filter (fun r => String.eqb (accountCode r) code
                        && LedgerStatus_eqb (status r) Active
                        && inRange startDate endDate (date r)) coll) in
  let (ledgerWithBalance, runningBalance) := walk opening found in
  mkLedger code opening runningBalance ledgerWithBalance.

(** ** getTrialBalance *)

Record TrialAccount := mkTrial {
  taCode : string;
  taName : string;
  taType : AccountType;
  taDebit : Q;
  taCredit : Q
}.

Record TrialBalance := mkTrialBalance {
  tbAccounts : list TrialAccount;
  tbTotalDebit : Q;
  tbTotalCredit : Q;
  isBalanced : bool
}.

Definition byCode (a b : TrialAccount) : bool :=
  String.leb (taCode a) (taCode b).

(** [a < b] on numbers. *)
Definition below (a b : Q) : bool := negb (Qle_bool b a).

(** The aggregation pipeline of [getTrialBalance]. *)
Definition trialPipeline (coll : list t) (asOfDate : Date)
  : list TrialAccount :=
  sortBy byCode
    (filter (fun a => isPositive (taDebit a) || isPositive (taCredit a))
       (map (fun g => mkTrial (key g) (firstName g) (firstType g)
                        (totalDebit g - totalCredit g)
                        (totalCredit g - totalDebit g))
          (group String.eqb accountCode
             (filter (fun r => DateOrder.leb (date r) asOfDate
                               && LedgerStatus_eqb (status r) Active)
                     coll)))).

Definition getTrialBalance (coll : list t) (asOfDate : Date) : TrialBalance :=
  let trialBalance :=
    map (fun a => mkTrial (taCode a) (taName a) (taType a)
                    (if isPositive (taDebit a) then taDebit a else 0)
                    (if isPositive (taCredit a) then taCredit a else 0))
        (trialPipeline coll asOfDate) in
  let totals :=
    fold_left (fun acc a => (fst acc + taDebit a, snd acc + taCredit a))
              trialBalance (0, 0) in
  mkTrialBalance trialBalance (fst totals) (snd totals)
    (below (Qabs (fst totals - snd totals)) (1 # 100)).

(** ** getBalanceSheet *)

Record StatementAccount := mkStatement {
  saCode : string;
  saName : string;
  saType : AccountType;
  saBalance : Q
}.

Record Section_ (A : Type) := mkSection {
  accounts : list A;
  total : Q
}.
Arguments mkSection {A}.
Arguments accounts {A}.
Arguments total {A}.

Record BalanceSheet := mkBalanceSheet {
  assets : Section_ StatementAccount;
  liabilities : Section_ StatementAccount;
  equity : Section_ StatementAccount;
  totalLiabilitiesAndEquity : Q;
  bsIsBalanced : bool
}.

Definition pairKey_eqb (a b : string * AccountType) : bool :=
  String.eqb (fst a) (fst b) && AccountType_eqb (snd a) (snd b).

Definition byStatementCode (a b : StatementAccount) : bool :=
  String.leb (saCode a) (saCode b).

(** The [$group], [$project] and [$sort] stages shared by the balance
    sheet and the profit and loss statement. *)
Definition statementPipeline (rows : list t) : list StatementAccount :=
  sortBy byStatementCode
    (map (fun g => mkStatement (fst (key g)) (firstName g) (snd (key g))
                     (totalDebit g - totalCredit g))
       (group pairKey_eqb (fun r => (accountCode r, accountType r)) rows)).

Definition withAbs (a : StatementAccount) : StatementAccount :=
  mkStatement (saCode a) (saName a) (saType a) (Qabs (saBalance a)).

Definition getBalanceSheet (coll : list t) (asOfDate : Date) : BalanceSheet :=
  let result :=
    statementPipeline
      (filter (fun r => DateOrder.leb (date r) asOfDate
                        && LedgerStatus_eqb (status r) Active
                        && (AccountType_eqb (accountType r) Asset
                            || AccountType_eqb (accountType r) Liability
                            || AccountType_eqb (accountType r) Equity))
              coll) in
  let ofType ty :=
    filter (fun a => AccountType_eqb (saType a) ty
                     && negb (isZero (saBalance a))) result in
  let assets := ofType Asset in
  let liabilities := ofType Liability in
  let equity := ofType Equity in
  let totalAssets := fold_left (fun sum a => sum + saBalance a) assets 0 in
  let totalLiabilities :=
    fold_left (fun sum a => sum + Qabs (saBalance a)) liabilities 0 in
  let totalEquity :=
    fold_left (fun sum a => sum + Qabs (saBalance a)) equity 0 in
  mkBalanceSheet
    (mkSection assets totalAssets)
    (mkSection (map withAbs liabilities) totalLiabilities)
    (mkSection (map withAbs equity) totalEquity)
    (totalLiabilities + totalEquity)
    (below (Qabs (totalAssets - (totalLiabilities + totalEquity))) (1 # 100)).

(** ** getProfitAndLoss *)

(** [{ ...a, amount: Math.abs(a.balance) }]: the account with its signed
    balance and the amount shown. *)
Record AmountAccount := mkAmount {
  aaCode : string;
  aaName : string;
  aaType : AccountType;
  aaBalance : Q;
  amount : Q
}.

Definition withAmount (a : StatementAccount) : AmountAccount :=
  mkAmount (saCode a) (saName a) (saType a) (saBalance a)
    (Qabs (saBalance a)).

Record ProfitAndLoss := mkProfitAndLoss {
  revenue : Section_ AmountAccount;
  expenses : Section_ AmountAccount;
  netProfit : Q;
  netProfitMargin : Q
}.

Definition getProfitAndLoss (coll : list t) (startDate endDate : option Date)
  : ProfitAndLoss :=
  let result :=
    statementPipeline
      (filter (fun r => LedgerStatus_eqb (status r) Active
                        && (AccountType_eqb (accountType r) Revenue
                            || AccountType_eqb (accountType r) Expense)
                        && inRange startDate endDate (date r))
              coll) in
  let revenue := filter (fun a => AccountType_eqb (saType a) Revenue) result in
  let expenses := filter (fun a => AccountType_eqb (saType a) Expense) result in
  let totalRevenue :=
    fold_left (fun sum a => sum + Qabs (saBalance a)) revenue 0 in
  let totalExpenses :=
    fold_left (fun sum a => sum + Qabs (saBalance a)) expenses 0 in
  let netProfit := totalRevenue - totalExpenses in
  mkProfitAndLoss
    (mkSection (map withAmount revenue) totalRevenue)
    (mkSection (map withAmount expenses) totalExpenses)
    netProfit
    (if isPositive totalRevenue then (netProfit / totalRevenue) * 100 else 0).

End GeneralLedger.

(** ** models/ChartOfAccount.js *)

Module ChartOfAccount.
Import ChartOfAccountSchema.

Definition codeIs (c : string) (o : option string) : bool :=
  match o with Some v => String.eqb v c | None => false end.

(** [findOne({ code: code })]. *)
Definition findOneByCode (coll : list t) (c : string) : option t :=
  find (fun a => codeIs c (code a)) coll.

(** [findOne({ $or: [{ "subAccounts.code": code },
                     { "listAccounts.code": code }] })]. *)
Definition findOneByNestedCode (coll : list t) (c : string) : option t :=
  find (fun a => existsb (fun s => String.eqb (subCode s) c) (subAccounts a)
                 || existsb (fun l => String.eqb (listCode l) c)
                      (listAccounts a))
       coll.

Definition cast (newId : ObjectId) (o : AccountObject.t) : t :=
  mk newId (AccountObject.tenantId o) (AccountObject.code o)
     (AccountObject.name o) (AccountObject.accountType o)
     (AccountObject.mainAccountType o) (AccountObject.mainTypeCode o)
     (AccountObject.mainAccountTypeText o)
     (AccountObject.financialComponent o)
     (AccountObject.subAccounts o) (AccountObject.listAccounts o).

(** Document validation: [tenantId] is required, and so are both fields
    of every sub-account and list account. *)
Definition validate (a : t) : bool :=
  presentString (tenantId a)
  && forallb (fun s => nonEmpty (subCode s) && nonEmpty (subType s))
       (subAccounts a)
  && forallb (fun l => nonEmpty (listCode l) && nonEmpty (listName l))
       (listAccounts a).

(** [ChartOfAccount.create(o)]. *)
Definition create (db : Db) (o : AccountObject.t) : Result (Db * t) :=
  let a := cast (nextId db) o in
  if validate a
  then inr (mkDb (journalEntries db) (generalLedger db)
                 (chartOfAccounts db ++ [a]) (S (nextId db)), a)
  else inl ValidationError.

End ChartOfAccount.

(** ** Documents of the other models *)

(** [a || b] on numbers: 0 and a missing value are falsy. *)
Definition orNumber (a : option Q) (b : Q) : Q :=
  match a with
  | Some q => if isZero q then b else q
  | None => b
  end.

(** salesInvoiceSchema, with the fields its hooks and the accounting
    service read or write. *)
Module SalesInvoiceSchema.
Inductive ItemType := Inventory | Plot.
Inductive Status := pending | partial | paid | cancelled.

Record Item := mkItem {
  itemType : ItemType;
  quantity : Q;
  rate : Q;
  grossAmount : Q;
  discountPercent : Q;
  discount : Q;
  netAmount : Q
}.

Record t := mk {
  _id : ObjectId;
  serialNo : option string;
  date : Date;
  customerName : string;
  items : list Item;
  project : option ObjectId;
  additionalDiscount : Q;
  carriageFreight : Q;
  netTotal : Q;
  amountReceived : Q;
  balance : Q;
  status : Status
}.
End SalesInvoiceSchema.

(** purchaseSchema. *)
Module PurchaseSchema.
Inductive Status := pending | approved | completed | cancelled.
Inductive PaymentStatus := unpaid | partial | paid.

Record t := mk {
  _id : ObjectId;
  date : Date;
  purchaseOrderNo : string;
  vendorName : string;
  itemName : string;
  project : option ObjectId;
  quantity : Q;
  rate : Q;
  grossAmount : Q;
  discount : Q;
  netAmount : Q;
  status : Status;
  createdBy : option ObjectId;
  amountPaid : Q;
  paymentStatus : PaymentStatus
}.
End PurchaseSchema.

(** PaymentLineSchema of bank payments; CashPaymentLineSchema has the
    same fields. *)
Module PaymentLineSchema.
Record t := mk {
  accountCode : string;
  accountName : string;
  description : option string;
  amount : Q
}.
End PaymentLineSchema.

Module BankPaymentSchema.
Record t := mk {
  _id : ObjectId;
  serialNo : option string;
  cancel : bool;
  date : Date;
  project : option ObjectId;
  bankAccount : string;
  paymentLines : list PaymentLineSchema.t;
  totalAmount : Q;
  createdBy : option ObjectId
}.
End BankPaymentSchema.

Module CashPaymentSchema.
Record t := mk {
  _id : ObjectId;
  serialNo : option string;
  cancel : bool;
  date : Date;
  project : option ObjectId;
  paymentLines : list PaymentLineSchema.t;
  totalAmount : Q;
  createdBy : option ObjectId
}.
End CashPaymentSchema.

Module PlotSchema.
Inductive Status := Available | Booked | Sold | UnderConstruction | Hold.

Record t := mk {
  _id : ObjectId;
  plotNumber : string;
  project : option ObjectId;
  status : Status;
  basePrice : option Q;
  grossAmount : option Q;
  customer : option ObjectId;
  bookingDate : option Date;
  saleDate : option Date;
  finalPrice : option Q;
  bookingAmount : option Q;
  amountReceived : option Q;
  isActive : bool;
  createdBy : option ObjectId
}.
End PlotSchema.

(** The fields of customerSchema that the plot hooks update. *)
Module CustomerSchema.
Record t := mk {
  _id : ObjectId;
  totalPurchase : Q;
  balance : Q
}.
End CustomerSchema.

(** ** models/Item.js and the inventory report *)

Module ItemSchema.
Record t := mk {
  categoryCode : option string;
  categoryName : option string;
  subCategoryName : option string;
  itemCode : string;
  name : string;
  measurement : string;
  purchasePrice : Q;
  sellingPrice : Q;
  quantity : Q;
  currentStock : Q;
  minStockLevel : Q;
  isActive : bool
}.
End ItemSchema.

Module InventoryReport.

Inductive StockStatus := LowStock | OutOfStock | InStock.

Definition StockStatus_eqb (a b : StockStatus) : bool :=
  match a, b with
  | LowStock, LowStock | OutOfStock, OutOfStock | InStock, InStock => true
  | _, _ => false
  end.

Record Line := mkLine {
  itemCode : string;
  name : string;
  category : option string;
  subCategory : option string;
  currentStock : Q;
  unit : string;
  purchasePrice : Q;
  sellingPrice : Q;
  stockValue : Q;
  minStockLevel : Q;
  stockStatus : StockStatus
}.

Record t := mk {
  items : list Line;
  totalItems : nat;
  totalStockValue : Q;
  lowStockCount : nat;
  outOfStockCount : nat;
  lowStock : list Line;
  outOfStock : list Line
}.

(** [.sort({ categoryCode: 1, itemCode: 1 })]: a missing category code
    sorts first. *)
Definition byCategoryThenCode (a b : ItemSchema.t) : bool :=
  match ItemSchema.categoryCode a, ItemSchema.categoryCode b with
  | None, None => String.leb (ItemSchema.itemCode a) (ItemSchema.itemCode b)
  | None, Some _ => true
  | Some _, None => false
  | Some x, Some y =>
      if String.eqb x y
      then String.leb (ItemSchema.itemCode a) (ItemSchema.itemCode b)
      else String.leb x y
  end.

Definition lineOf (item : ItemSchema.t) : Line :=
  mkLine (ItemSchema.itemCode item) (ItemSchema.name item)
    (ItemSchema.categoryName item) (ItemSchema.subCategoryName item)
    (ItemSchema.currentStock item) (ItemSchema.measurement item)
    (ItemSchema.purchasePrice item) (ItemSchema.sellingPrice item)
    (ItemSchema.currentStock item * ItemSchema.purchasePrice item)
    (ItemSchema.minStockLevel item)
    (if Qle_bool (ItemSchema.currentStock item) (ItemSchema.minStockLevel item)
     then LowStock
     else if isZero (ItemSchema.currentStock item) then OutOfStock
     else InStock).

End InventoryReport.

(** ** services/accountingService.js *)

Module AccountingService.

(** The running-balance step of the poster: debit-normal for Asset and
    Expense lines, credit-normal for the others. *)
Definition newBalance (previousBalance : Q) (line : JournalEntryLineSchema.t)
  : Q :=
  match JournalEntryLineSchema.accountType line with
  | Asset | Expense =>
      previousBalance + JournalEntryLineSchema.debit line
        - JournalEntryLineSchema.credit line
  | Liability | Equity | Revenue =>
      previousBalance + JournalEntryLineSchema.credit line
        - JournalEntryLineSchema.debit line
  end.

Definition previousBalance (ledger : list GeneralLedgerSchema.t)
    (code : string) : Q :=
  match GeneralLedger.findOneLatestActive ledger code with
  | Some previousEntry => GeneralLedgerSchema.balance previousEntry
  | None => 0
  end.

(** The body of the loop over [journalEntry.lines]. *)
Definition ledgerEntry (ledger : list GeneralLedgerSchema.t)
    (journalEntry : JournalEntrySchema.t) (line : JournalEntryLineSchema.t)
  : LedgerObject.t :=
  LedgerObject.mk
    None
    (JournalEntryLineSchema.account line)
    (JournalEntryLineSchema.accountCode line)
    (JournalEntryLineSchema.accountName line)
    (JournalEntryLineSchema.accountType line)
    (JournalEntrySchema.date journalEntry)
    (JournalEntrySchema._id journalEntry)
    (JournalEntrySchema.entryNumber journalEntry)
    (orString (JournalEntryLineSchema.description line)
       (JournalEntrySchema.description journalEntry))
    (JournalEntrySchema.transactionType journalEntry)
    (JournalEntrySchema.project journalEntry)
    (JournalEntryLineSchema.debit line)
    (JournalEntryLineSchema.credit line)
    (newBalance
       (previousBalance ledger (JournalEntryLineSchema.accountCode line))
       line)
    (JournalEntrySchema.sourceTransaction journalEntry)
    None None
    Active.

(** The rows are collected first, every previous-balance lookup reading
    the ledger as it is before the batch, and written in one
    [insertMany]. *)
Definition ledgerEntries (ledger : list GeneralLedgerSchema.t)
    (journalEntry : JournalEntrySchema.t) : list LedgerObject.t :=
  map (ledgerEntry ledger journalEntry) (JournalEntrySchema.lines journalEntry).

Definition postToGeneralLedger (db : Db) (now : Date) (ledgerUp : bool)
    (journalEntry : JournalEntrySchema.t) : Result Db :=
  GeneralLedger.insertMany db now ledgerUp
    (ledgerEntries (generalLedger db) journalEntry).

Definition rawDebit (ls : list LineObject.t) : Q :=
  fold_left (fun sum line => sum + orZero (LineObject.debit line)) ls 0.

Definition rawCredit (ls : list LineObject.t) : Q :=
  fold_left (fun sum line => sum + orZero (LineObject.credit line)) ls 0.

(** [{ ...entryData, totalDebit, totalCredit, createdBy: userId,
       isPosted: true, status: "Posted" }]. *)
Definition withTotals (entryData : EntryObject.t) (td tc : Q)
    (userId : ObjectId) : EntryObject.t :=
  EntryObject.mk
    (EntryObject.tenantId entryData) (EntryObject.entryNumber entryData)
    (EntryObject.date entryData) (EntryObject.transactionType entryData)
    (EntryObject.sourceTransaction entryData) (EntryObject.project entryData)
    (EntryObject.description entryData) (EntryObject.lines entryData)
    (Some td) (Some tc) (Some Posted) (Some true)
    (EntryObject.postedAt entryData) (EntryObject.reversedBy entryData)
    (EntryObject.reversalOf entryData) (Some userId).

(** The [try] block of [createJournalEntry], run inside the session. *)
Definition createJournalEntryBody (db : Db) (now : Date) (ledgerUp : bool)
    (entryData : EntryObject.t) (userId : ObjectId)
  : Result (Db * JournalEntrySchema.t) :=
  let totalDebit := rawDebit (EntryObject.lines entryData) in
  let totalCredit := rawCredit (EntryObject.lines entryData) in
  if JournalEntry.exceeds (Qabs (totalDebit - totalCredit))
       JournalEntry.tolerance
  then inl (NotBalanced totalDebit totalCredit)
  else
    created <- JournalEntry.create db now
                 (withTotals entryData totalDebit totalCredit userId) ;;
    let journalEntry := snd created in
    db2 <- (if JournalEntrySchema.isPosted journalEntry
            then postToGeneralLedger (fst created) now ledgerUp journalEntry
            else inr (fst created)) ;;
    inr (db2, journalEntry).

(** [createJournalEntry]: the body commits as a whole or is aborted,
    leaving the database as it was. *)
Definition createJournalEntry (db : Db) (now : Date) (ledgerUp : bool)
    (entryData : EntryObject.t) (userId : ObjectId)
  : Db * Result JournalEntrySchema.t :=
  match createJournalEntryBody db now ledgerUp entryData userId with
  | inl error => (db, inl error)
  | inr (db', journalEntry) => (db', inr journalEntry)
  end.

Definition getFinancialComponent (accountType : AccountType) : string :=
  match accountType with
  | Asset => "Assets"
  | Liability => "Liabilities"
  | Equity => "Equity"
  | Revenue => "Operating Income"
  | Expense => "Operating Expenses"
  end.

(** The object that [getOrCreateAccount] hands to
    [ChartOfAccount.create]; it has no [tenantId]. *)
Definition newAccount (code name : string) (type : AccountType)
  : AccountObject.t :=
  AccountObject.mk None (Some code) (Some name) (Some type) None (Some code)
    (Some name) (Some (getFinancialComponent type)) [] [].

Definition getOrCreateAccount (db : Db) (code name : string)
    (type : AccountType) : Db * Result ChartOfAccountSchema.t :=
  match ChartOfAccount.findOneByCode (chartOfAccounts db) code with
  | Some account => (db, inr account)
  | None =>
      match ChartOfAccount.findOneByNestedCode (chartOfAccounts db) code with
      | Some parentAccount => (db, inr parentAccount)
      | None =>
          match ChartOfAccount.create db (newAccount code name type) with
          | inl error => (db, inl error)
          | inr (db1, account) => (db1, inr account)
          end
      end
  end.

Definition getAccountBalance (db : Db) (accountCode : string) (asOfDate : Date)
  : GeneralLedger.AccountBalance :=
  GeneralLedger.getAccountBalance (generalLedger db) accountCode asOfDate.

Definition getAccountLedger (db : Db) (accountCode : string)
    (startDate endDate : option Date) : GeneralLedger.AccountLedger :=
  GeneralLedger.getAccountLedger (generalLedger db) accountCode
    startDate endDate.

Definition getTrialBalance (db : Db) (asOfDate : Date)
  : GeneralLedger.TrialBalance :=
  GeneralLedger.getTrialBalance (generalLedger db) asOfDate.

Definition getBalanceSheet (db : Db) (asOfDate : Date)
  : GeneralLedger.BalanceSheet :=
  GeneralLedger.getBalanceSheet (generalLedger db) asOfDate.

Definition getProfitAndLoss (db : Db) (startDate endDate : option Date)
  : GeneralLedger.ProfitAndLoss :=
  GeneralLedger.getProfitAndLoss (generalLedger db) startDate endDate.

(** The [try] block of [reverseJournalEntry], run inside the session:
    the reversal rows are posted and the rows of the original entry are
    marked Reversed. *)
Definition reverseJournalEntryBody (db : Db) (now : Date) (ledgerUp : bool)
    (entryId : ObjectId) (reversalEntry : JournalEntrySchema.t) : Result Db :=
  db1 <- postToGeneralLedger db now ledgerUp reversalEntry ;;
  GeneralLedger.updateManyStatus db1 ledgerUp entryId Reversed.

(** [reverseJournalEntry]: [entry.reverse] runs before the session is
    started; only the ledger writes are inside the transaction. *)
Definition reverseJournalEntry (db : Db) (now : Date) (ledgerUp : bool)
    (entryId userId : ObjectId) (reason : option string)
  : Db * Result JournalEntrySchema.t :=
  match JournalEntry.findById (journalEntries db) entryId with
  | None => (db, inl EntryNotFound)
  | Some entry =>
      match JournalEntry.reverse db now entry userId reason with
      | (db1, inl error) => (db1, inl error)
      | (db1, inr reversalEntry) =>
          match reverseJournalEntryBody db1 now ledgerUp entryId
                  reversalEntry with
          | inl error => (db1, inl error)
          | inr db2 => (db2, inr reversalEntry)
          end
      end
  end.

(** *** Entries of the business documents *)

(** [await this.getOrCreateAccount(code, name, type)] inside an adapter:
    an error of the lookup ends the adapter. *)
Definition account (code name : string) (type : AccountType)
  : Action ChartOfAccountSchema.t :=
  fun db => getOrCreateAccount db code name type.

(** [{ account, accountCode: account.code || code, accountName:
      account.name || name, accountType, debit, credit, description }]. *)
Definition lineOn (account : ChartOfAccountSchema.t) (code name : string)
    (type : AccountType) (debit credit : Q) (description : string)
  : LineObject.t :=
  LineObject.mk (ChartOfAccountSchema._id account)
    (orString (ChartOfAccountSchema.code account) code)
    (orString (ChartOfAccountSchema.name account) name)
    type (Some debit) (Some credit) (Some description).

(** The entry data of an adapter: date, type, source, project,
    description and lines, and nothing else; in particular no
    [tenantId]. *)
Definition entryDataOf (date : Date) (transactionType : TransactionType)
    (model : SourceModel) (id : ObjectId) (reference : option string)
    (project : option ObjectId) (description : string)
    (lines : list LineObject.t) : EntryObject.t :=
  EntryObject.mk None None (Some date) transactionType
    (Some (mkSource (Some model) (Some id) reference))
    project description lines
    None None None None None None None None.

Definition salesLines (salesInvoice : SalesInvoiceSchema.t)
    (revenueAccount receivableAccount cashAccount : ChartOfAccountSchema.t)
  : list LineObject.t :=
  let customerName := SalesInvoiceSchema.customerName salesInvoice in
  ((if isPositive (SalesInvoiceSchema.amountReceived salesInvoice)
    then [lineOn cashAccount "1000" "Cash Account" Asset
            (SalesInvoiceSchema.amountReceived salesInvoice) 0
            ("Cash received from " ++ customerName)]
    else [])
   ++ (if isPositive (SalesInvoiceSchema.balance salesInvoice)
       then [lineOn receivableAccount "1200" "Accounts Receivable" Asset
               (SalesInvoiceSchema.balance salesInvoice) 0
               ("Balance due from " ++ customerName)]
       else [])
   ++ [lineOn revenueAccount "4000" "Sales Revenue" Revenue
         0 (SalesInvoiceSchema.netTotal salesInvoice)
         ("Sales revenue from Invoice "
            ++ render (SalesInvoiceSchema.serialNo salesInvoice))])%list.

Definition createSalesJournalEntry (db : Db) (now : Date) (ledgerUp : bool)
    (salesInvoice : SalesInvoiceSchema.t) (userId : ObjectId)
  : Db * Result JournalEntrySchema.t :=
  (revenueAccount <~ account "4000" "Sales Revenue" Revenue ;;
   receivableAccount <~ account "1200" "Accounts Receivable" Asset ;;
   cashAccount <~ account "1000" "Cash Account" Asset ;;
   let entryData :=
     entryDataOf (SalesInvoiceSchema.date salesInvoice) Sale SalesInvoice
       (SalesInvoiceSchema._id salesInvoice)
       (SalesInvoiceSchema.serialNo salesInvoice)
       (SalesInvoiceSchema.project salesInvoice)
       ("Sales Invoice " ++ render (SalesInvoiceSchema.serialNo salesInvoice)
          ++ " - " ++ SalesInvoiceSchema.customerName salesInvoice)
       (salesLines salesInvoice revenueAccount receivableAccount
          cashAccount) in
   fun db3 => createJournalEntry db3 now ledgerUp entryData userId) db.

Definition purchaseLines (purchase : PurchaseSchema.t)
    (inventoryAccount payableAccount : ChartOfAccountSchema.t)
  : list LineObject.t :=
  [lineOn inventoryAccount "1300" "Inventory" Asset
     (PurchaseSchema.netAmount purchase) 0
     ("Purchase of " ++ PurchaseSchema.itemName purchase);
   lineOn payableAccount "2000" "Accounts Payable" Liability
     0 (PurchaseSchema.netAmount purchase)
     ("Purchase from " ++ PurchaseSchema.vendorName purchase)].

Definition createPurchaseJournalEntry (db : Db) (now : Date) (ledgerUp : bool)
    (purchase : PurchaseSchema.t) (userId : ObjectId)
  : Db * Result JournalEntrySchema.t :=
  (inventoryAccount <~ account "1300" "Inventory" Asset ;;
   payableAccount <~ account "2000" "Accounts Payable" Liability ;;
   let entryData :=
     entryDataOf (PurchaseSchema.date purchase) Purchase PurchaseDoc
       (PurchaseSchema._id purchase)
       (Some (PurchaseSchema.purchaseOrderNo purchase))
       (PurchaseSchema.project purchase)
       ("Purchase Order " ++ PurchaseSchema.purchaseOrderNo purchase
          ++ " - " ++ PurchaseSchema.vendorName purchase)
       (purchaseLines purchase inventoryAccount payableAccount) in
   fun db2 => createJournalEntry db2 now ledgerUp entryData userId) db.

(** The account of a payment line. The [try] block takes the main
    account with the line's code or, when there is none, what
    [getOrCreateAccount] gives; the [catch] block calls
    [getOrCreateAccount] once more. *)
Definition expenseAccountOf (paymentLine : PaymentLineSchema.t)
  : Action ChartOfAccountSchema.t :=
  fun db =>
    let code := PaymentLineSchema.accountCode paymentLine in
    let name := PaymentLineSchema.accountName paymentLine in
    let tried :=
      match ChartOfAccount.findOneByCode (chartOfAccounts db) code with
      | Some expenseAccount => (db, inr expenseAccount)
      | None => getOrCreateAccount db code name Expense
      end in
    match tried with
    | (db1, inl _) => getOrCreateAccount db1 code name Expense
    | (db1, inr expenseAccount) => (db1, inr expenseAccount)
    end.

(** The loop over [paymentLines] of the two payment adapters. *)
Fixpoint expenseLines (paymentLines : list PaymentLineSchema.t)
  : Action (list LineObject.t) :=
  match paymentLines with
  | [] => fun db => (db, inr [])
  | paymentLine :: rest =>
      expenseAccount <~ expenseAccountOf paymentLine ;;
      lines <~ expenseLines rest ;;
      fun db =>
        (db,
         inr (LineObject.mk (ChartOfAccountSchema._id expenseAccount)
                (PaymentLineSchema.accountCode paymentLine)
                (PaymentLineSchema.accountName paymentLine)
                Expense (Some (PaymentLineSchema.amount paymentLine))
                (Some 0)
                (Some (orString (PaymentLineSchema.description paymentLine)
                         "Expense payment"))
              :: lines))
  end.

Definition createBankPaymentJournalEntry (db : Db) (now : Date)
    (ledgerUp : bool) (bankPayment : BankPaymentSchema.t) (userId : ObjectId)
  : Db * Result JournalEntrySchema.t :=
  let bankName := "Bank - " ++ BankPaymentSchema.bankAccount bankPayment in
  (bankAccount <~ account "1100" bankName Asset ;;
   rest <~ expenseLines (BankPaymentSchema.paymentLines bankPayment) ;;
   let first :=
     lineOn bankAccount "1100" bankName Asset
       0 (BankPaymentSchema.totalAmount bankPayment)
       ("Payment via " ++ BankPaymentSchema.bankAccount bankPayment) in
   let entryData :=
     entryDataOf (BankPaymentSchema.date bankPayment) Payment BankPayment
       (BankPaymentSchema._id bankPayment)
       (BankPaymentSchema.serialNo bankPayment)
       (BankPaymentSchema.project bankPayment)
       ("Bank Payment " ++ render (BankPaymentSchema.serialNo bankPayment)
          ++ " - " ++ BankPaymentSchema.bankAccount bankPayment)
       (first :: rest) in
   fun db2 => createJournalEntry db2 now ledgerUp entryData userId) db.

Definition createCashPaymentJournalEntry (db : Db) (now : Date)
    (ledgerUp : bool) (cashPayment : CashPaymentSchema.t) (userId : ObjectId)
  : Db * Result JournalEntrySchema.t :=
  (cashAccount <~ account "1000" "Cash Account" Asset ;;
   rest <~ expenseLines (CashPaymentSchema.paymentLines cashPayment) ;;
   let first :=
     lineOn cashAccount "1000" "Cash Account" Asset
       0 (CashPaymentSchema.totalAmount cashPayment) "Cash payment" in
   let entryData :=
     entryDataOf (CashPaymentSchema.date cashPayment) Payment CashPayment
       (CashPaymentSchema._id cashPayment)
       (CashPaymentSchema.serialNo cashPayment)
       (CashPaymentSchema.project cashPayment)
       ("Cash Payment " ++ render (CashPaymentSchema.serialNo cashPayment))
       (first :: rest) in
   fun db2 => createJournalEntry db2 now ledgerUp entryData userId) db.

(** [plot.finalPrice || plot.grossAmount || plot.basePrice || 0]. *)
Definition plotTotalAmount (plot : PlotSchema.t) : Q :=
  orNumber (PlotSchema.finalPrice plot)
    (orNumber (PlotSchema.grossAmount plot)
       (orNumber (PlotSchema.basePrice plot) 0)).

(** [plot.amountReceived || plot.bookingAmount || 0]. *)
Definition plotBookingReceived (plot : PlotSchema.t) : Q :=
  orNumber (PlotSchema.amountReceived plot)
    (orNumber (PlotSchema.bookingAmount plot) 0).

Definition plotBookingLines (plot : PlotSchema.t)
    (revenueAccount receivableAccount cashAccount : ChartOfAccountSchema.t)
  : list LineObject.t :=
  let totalAmount := plotTotalAmount plot in
  let amountReceived := plotBookingReceived plot in
  let balanceDue := totalAmount - amountReceived in
  let plotNumber := PlotSchema.plotNumber plot in
  ((if isPositive amountReceived
    then [lineOn cashAccount "1000" "Cash Account" Asset amountReceived 0
            ("Booking amount received for plot " ++ plotNumber)]
    else [])
   ++ (if isPositive balanceDue
       then [lineOn receivableAccount "1200" "Accounts Receivable" Asset
               balanceDue 0
               ("Balance due from customer for plot " ++ plotNumber)]
       else [])
   ++ [lineOn revenueAccount "4001" "Property Sales Revenue" Revenue
         0 totalAmount ("Plot booking revenue for " ++ plotNumber)])%list.

Definition createPlotBookingJournalEntry (db : Db) (now : Date)
    (ledgerUp : bool) (plot : PlotSchema.t) (userId : ObjectId)
  : Db * Result JournalEntrySchema.t :=
  (revenueAccount <~ account "4001" "Property Sales Revenue" Revenue ;;
   receivableAccount <~ account "1200" "Accounts Receivable" Asset ;;
   cashAccount <~ account "1000" "Cash Account" Asset ;;
   let plotNumber := PlotSchema.plotNumber plot in
   let entryData :=
     entryDataOf
       (match PlotSchema.bookingDate plot with Some d => d | None => now end)
       Booking Plot (PlotSchema._id plot) (Some plotNumber)
       (PlotSchema.project plot)
       ("Plot Booking " ++ plotNumber
          ++ match PlotSchema.customer plot with
             | Some _ => " - Customer linked"
             | None => EmptyString
             end)
       (plotBookingLines plot revenueAccount receivableAccount
          cashAccount) in
   fun db3 => createJournalEntry db3 now ledgerUp entryData userId) db.

(** Returns [None] for the [null] of the source: no entry is attempted
    when nothing was received. *)
Definition createPlotSaleJournalEntry (db : Db) (now : Date)
    (ledgerUp : bool) (plot : PlotSchema.t) (userId : ObjectId)
  : Db * Result (option JournalEntrySchema.t) :=
  (receivableAccount <~ account "1200" "Accounts Receivable" Asset ;;
   cashAccount <~ account "1000" "Cash Account" Asset ;;
   let amountReceived := orNumber (PlotSchema.amountReceived plot) 0 in
   let plotNumber := PlotSchema.plotNumber plot in
   if isPositive amountReceived
   then
     let lines :=
       [lineOn cashAccount "1000" "Cash Account" Asset amountReceived 0
          ("Payment received for plot " ++ plotNumber);
        lineOn receivableAccount "1200" "Accounts Receivable" Asset
          0 amountReceived ("Payment against plot " ++ plotNumber)] in
     let entryData :=
       entryDataOf
         (match PlotSchema.saleDate plot with Some d => d | None => now end)
         Sale Plot (PlotSchema._id plot) (Some plotNumber)
         (PlotSchema.project plot)
         ("Plot Sale Payment " ++ plotNumber)
         lines in
     fun db2 =>
       match createJournalEntry db2 now ledgerUp entryData userId with
       | (db3, inl error) => (db3, inl error)
       | (db3, inr journalEntry) => (db3, inr (Some journalEntry))
       end
   else fun db2 => (db2, inr None)) db.

Definition plotInvoiceLines (salesInvoice : SalesInvoiceSchema.t)
    (revenueAccount receivableAccount cashAccount : ChartOfAccountSchema.t)
  : list LineObject.t :=
  let customerName := SalesInvoiceSchema.customerName salesInvoice in
  let totalCredit :=
    SalesInvoiceSchema.netTotal salesInvoice
    + SalesInvoiceSchema.amountReceived salesInvoice in
  ([lineOn receivableAccount "1003" "Accounts Receivable" Asset
      (SalesInvoiceSchema.netTotal salesInvoice) 0
      ("Plot sales receivable from " ++ customerName)]
   ++ (if isPositive (SalesInvoiceSchema.amountReceived salesInvoice)
       then [lineOn cashAccount "1001" "Cash Account" Asset
               (SalesInvoiceSchema.amountReceived salesInvoice) 0
               ("Cash received from " ++ customerName)]
       else [])
   ++ [lineOn revenueAccount "4001" "Property Sales Revenue" Revenue
         0 totalCredit
         ("Plot sales revenue from Invoice "
            ++ render (SalesInvoiceSchema.serialNo salesInvoice))])%list.

Definition createPlotSalesInvoiceJournalEntry (db : Db) (now : Date)
    (ledgerUp : bool) (salesInvoice : SalesInvoiceSchema.t) (userId : ObjectId)
  : Db * Result JournalEntrySchema.t :=
  (revenueAccount <~ account "4001" "Property Sales Revenue" Revenue ;;
   receivableAccount <~ account "1003" "Accounts Receivable" Asset ;;
   cashAccount <~ account "1001" "Cash Account" Asset ;;
   let entryData :=
     entryDataOf (SalesInvoiceSchema.date salesInvoice) Sale SalesInvoice
       (SalesInvoiceSchema._id salesInvoice)
       (SalesInvoiceSchema.serialNo salesInvoice)
       (SalesInvoiceSchema.project salesInvoice)
       ("Plot Sales Invoice "
          ++ render (SalesInvoiceSchema.serialNo salesInvoice)
          ++ " - " ++ SalesInvoiceSchema.customerName salesInvoice)
       (plotInvoiceLines salesInvoice revenueAccount receivableAccount
          cashAccount) in
   fun db3 => createJournalEntry db3 now ledgerUp entryData userId) db.

Definition getInventoryReport (coll : list ItemSchema.t) : InventoryReport.t :=
  let items :=
    GeneralLedger.sortBy InventoryReport.byCategoryThenCode
      (filter ItemSchema.isActive coll) in
  let inventory := map InventoryReport.lineOf items in
  let totalStockValue :=
    fold_left (fun sum item => sum + InventoryReport.stockValue item)
      inventory 0 in
  let lowStockItems :=
    filter (fun item => InventoryReport.StockStatus_eqb
                          (InventoryReport.stockStatus item)
                          InventoryReport.LowStock) inventory in
  let outOfStockItems :=
    filter (fun item => InventoryReport.StockStatus_eqb
                          (InventoryReport.stockStatus item)
                          InventoryReport.OutOfStock) inventory in
  InventoryReport.mk inventory (List.length inventory) totalStockValue
    (List.length lowStockItems) (List.length outOfStockItems)
    lowStockItems outOfStockItems.

End AccountingService.

(** ** Hooks of the models, controller and scripts *)

Definition TransactionType_eqb (a b : TransactionType) : bool :=
  match a, b with
  | Sale, Sale | Purchase, Purchase | Payment, Payment | Receipt, Receipt
  | Journal, Journal | OpeningBalance, OpeningBalance
  | Adjustment, Adjustment | Booking, Booking => true
  | _, _ => false
  end.

(** ** models/SalesInvoice.js *)

Module SalesInvoice.
Import SalesInvoiceSchema.

Definition Status_eqb (a b : Status) : bool :=
  match a, b with
  | pending, pending | partial, partial | paid, paid
  | cancelled, cancelled => true
  | _, _ => false
  end.

Definition ItemType_eqb (a b : ItemType) : bool :=
  match a, b with
  | Inventory, Inventory | Plot, Plot => true
  | _, _ => false
  end.

(** [Math.floor(100000 + r * 900000)] for a value [r] of
    [Math.random()]. *)
Definition randomNum (r : Q) : Z := Qfloor (100000 + r * 900000).

(** [findOne({ serialNo: s })]. *)
Definition findOneBySerialNo (coll : list t) (s : string) : option t :=
  find (fun i => match serialNo i with
                 | Some v => String.eqb v s
                 | None => false
                 end) coll.

(** The loop that draws serial numbers: [random k] is the value of the
    [k]-th call of [Math.random()], [attempts] counts the draws made and
    [remaining] those left before [maxAttempts]. *)
Fixpoint generateSerialNo (coll : list t) (random : nat -> Q)
    (attempts remaining : nat) : option string :=
  match remaining with
  | O => None
  | S remaining' =>
      let candidate := "SI-" ++ stringOfZ (randomNum (random attempts)) in
      match findOneBySerialNo coll candidate with
      | None => Some candidate
      | Some _ => generateSerialNo coll random (S attempts) remaining'
      end
  end.

Definition maxAttempts : nat := 10.

(** The body of [this.items.forEach]. *)
Definition calculateItem (item : Item) : Item :=
  let grossAmount := quantity item * rate item in
  let discount :=
    if isPositive (discountPercent item)
    then (grossAmount * discountPercent item) / 100
    else discount item in
  mkItem (itemType item) (quantity item) (rate item) grossAmount
    (discountPercent item) discount (grossAmount - discount).

(** Pre-save hook; [None] when no unique serial number was drawn. *)
Definition preSave (coll : list t) (random : nat -> Q) (this : t) : option t :=
  match (match serialNo this with
         | None | Some EmptyString =>
             generateSerialNo coll random 0 maxAttempts
         | Some s => Some s
         end) with
  | None => None
  | Some serial =>
      let items' := map calculateItem (items this) in
      let itemsTotal :=
        fold_left (fun sum item => sum + netAmount item) items' 0 in
      let netTotal :=
        itemsTotal - additionalDiscount this + carriageFreight this in
      let balance := netTotal - amountReceived this in
      let statusAndBalance :=
        if isZero (amountReceived this) then (pending, balance)
        else if Qle_bool netTotal (amountReceived this) then (paid, 0)
        else (partial, balance) in
      Some (mk (_id this) (Some serial) (date this) (customerName this)
              items' (project this) (additionalDiscount this)
              (carriageFreight this) netTotal (amountReceived this)
              (snd statusAndBalance) (fst statusAndBalance))
  end.

(** Post-save hook. [createdBy] is what [doc.createdBy] reads and
    [admin] the result of [User.findOne({ role: "admin" })]; an error of
    the accounting service is logged and dropped. *)
Definition postSave (db : Db) (now : Date) (ledgerUp : bool) (wasNew : bool)
    (createdBy admin : option ObjectId) (doc : t) : Db :=
  if wasNew && negb (Status_eqb (status doc) cancelled)
  then
    match (match createdBy with Some u => Some u | None => admin end) with
    | Some userId =>
        if existsb (fun item => ItemType_eqb (itemType item) Plot) (items doc)
        then fst (AccountingService.createPlotSalesInvoiceJournalEntry db now
                    ledgerUp doc userId)
        else fst (AccountingService.createSalesJournalEntry db now ledgerUp
                    doc userId)
    | None => db
    end
  else db.

End SalesInvoice.

(** ** models/Purchase.js *)

Module Purchase.
Import PurchaseSchema.

Definition Status_eqb (a b : Status) : bool :=
  match a, b with
  | pending, pending | approved, approved | completed, completed
  | cancelled, cancelled => true
  | _, _ => false
  end.

Definition preSave (this : t) : t :=
  let grossAmount :=
    if isZero (grossAmount this) then quantity this * rate this
    else grossAmount this in
  let netAmount := grossAmount - discount this in
  let paymentStatus :=
    if isZero (amountPaid this) then unpaid
    else if Qle_bool netAmount (amountPaid this) then paid
    else partial in
  mk (_id this) (date this) (purchaseOrderNo this) (vendorName this)
     (itemName this) (project this) (quantity this) (rate this)
     grossAmount (discount this) netAmount (status this) (createdBy this)
     (amountPaid this) paymentStatus.

Definition postSave (db : Db) (now : Date) (ledgerUp : bool) (wasNew : bool)
    (admin : option ObjectId) (doc : t) : Db :=
  if wasNew && negb (Status_eqb (status doc) cancelled)
  then
    match (match createdBy doc with Some u => Some u | None => admin end) with
    | Some userId =>
        fst (AccountingService.createPurchaseJournalEntry db now ledgerUp doc
               userId)
    | None => db
    end
  else db.

End Purchase.

(** ** models/BankPayment.js and models/CashPayment.js *)

Module BankPayment.
Import BankPaymentSchema.

Definition postSave (db : Db) (now : Date) (ledgerUp : bool) (wasNew : bool)
    (doc : t) : Db :=
  if wasNew && negb (cancel doc)
  then
    match createdBy doc with
    | Some userId =>
        fst (AccountingService.createBankPaymentJournalEntry db now ledgerUp
               doc userId)
    | None => db
    end
  else db.

End BankPayment.

Module CashPayment.
Import CashPaymentSchema.

Definition postSave (db : Db) (now : Date) (ledgerUp : bool) (wasNew : bool)
    (doc : t) : Db :=
  if wasNew && negb (cancel doc)
  then
    match createdBy doc with
    | Some userId =>
        fst (AccountingService.createCashPaymentJournalEntry db now ledgerUp
               doc userId)
    | None => db
    end
  else db.

End CashPayment.

(** ** models/Customer.js, as far as the plot hooks use it *)

Module Customer.
Import CustomerSchema.

Definition findById (coll : list t) (i : ObjectId) : option t :=
  find (fun c => Nat.eqb (_id c) i) coll.

(** [findByIdAndUpdate(i, { $inc: { totalPurchase: a, balance: b } })]:
    the first customer with that id is updated. *)
Fixpoint findByIdAndInc (coll : list t) (i : ObjectId) (a b : Q) : list t :=
  match coll with
  | [] => []
  | c :: rest =>
      if Nat.eqb (_id c) i
      then mk (_id c) (totalPurchase c + a) (balance c + b) :: rest
      else c :: findByIdAndInc rest i a b
  end.

End Customer.

(** ** models/Plot.js *)

Module Plot.
Import PlotSchema.

Definition Status_eqb (a b : Status) : bool :=
  match a, b with
  | Available, Available | Booked, Booked | Sold, Sold
  | UnderConstruction, UnderConstruction | Hold, Hold => true
  | _, _ => false
  end.

(** Truthiness of a possibly missing number. *)
Definition truthy (x : option Q) : bool :=
  match x with Some q => negb (isZero q) | None => false end.

(** [JournalEntry.findOne({ "sourceTransaction.model": "Plot",
      "sourceTransaction.id": doc._id,
      "sourceTransaction.reference": doc.plotNumber,
      transactionType })]. *)
Definition findEntryOf (coll : list JournalEntrySchema.t) (doc : t)
    (transactionType : TransactionType) : option JournalEntrySchema.t :=
  find (fun e =>
          match JournalEntrySchema.sourceTransaction e with
          | Some s =>
              match model s, id s, reference s with
              | Some Plot, Some i, Some r =>
                  Nat.eqb i (_id doc) && String.eqb r (plotNumber doc)
              | _, _, _ => false
              end
          | None => false
          end
          && TransactionType_eqb (JournalEntrySchema.transactionType e)
               transactionType)
       coll.

(** The customer update of both branches. *)
Definition updateCustomer (customers : list CustomerSchema.t) (doc : t)
    (c : ObjectId) : list CustomerSchema.t :=
  let totalAmount := AccountingService.plotTotalAmount doc in
  let balanceDue := totalAmount - orNumber (amountReceived doc) 0 in
  Customer.findByIdAndInc customers c totalAmount balanceDue.

(** Post-save hook: the journal entry of a booking or of a sale and the
    update of the customer; an error is logged and dropped, leaving what
    was written before it. *)
Definition postSave (db : Db) (customers : list CustomerSchema.t) (now : Date)
    (ledgerUp : bool) (doc : t) : Db * list CustomerSchema.t :=
  if negb (isActive doc) then (db, customers)
  else if Status_eqb (status doc) Booked && isSome (customer doc)
          && isSome (bookingDate doc)
  then
    match findEntryOf (journalEntries db) doc Booking, createdBy doc with
    | None, Some userId =>
        match AccountingService.createPlotBookingJournalEntry db now ledgerUp
                doc userId with
        | (db', inl _) => (db', customers)
        | (db', inr _) =>
            match customer doc with
            | Some c => (db', updateCustomer customers doc c)
            | None => (db', customers)
            end
        end
    | _, _ => (db, customers)
    end
  else if Status_eqb (status doc) Sold && truthy (finalPrice doc)
          && isSome (saleDate doc)
  then
    match findEntryOf (journalEntries db) doc Sale, createdBy doc with
    | None, Some userId =>
        match AccountingService.createPlotSaleJournalEntry db now ledgerUp
                doc userId with
        | (db', inl _) => (db', customers)
        | (db', inr _) =>
            match customer doc with
            | Some c =>
                match Customer.findById customers c with
                | Some _ => (db', updateCustomer customers doc c)
                | None => (db', customers)
                end
            | None => (db', customers)
            end
        end
    | _, _ => (db, customers)
    end
  else (db, customers).

End Plot.

(** ** controllers/journalEntryController.js *)

Module JournalEntryController.

(** [res.status(code).json({ success, data })]. *)
Record Response := mkResponse {
  statusCode : nat;
  success : bool;
  data : option JournalEntrySchema.t
}.

(** The fields of [req.body] read by [updateJournalEntry]; [notes] is
    not a field of the modelled document and is left out. *)
Record UpdateBody := mkUpdateBody {
  date : option Date;
  description : option string;
  lines : option (list LineObject.t);
  project : option ObjectId
}.

Definition tenantIs (tenantId : string) (e : JournalEntrySchema.t) : bool :=
  match JournalEntrySchema.tenantId e with
  | Some t => String.eqb t tenantId
  | None => false
  end.

(** [JournalEntry.findOne({ _id: req.params.id, tenantId: req.tenantId })].
    [req.params.id] is [None] when the text of the request is not an
    object id: the query then throws a cast error. *)
Definition findOne (coll : list JournalEntrySchema.t) (id : option ObjectId)
    (tenantId : string) : Result (option JournalEntrySchema.t) :=
  match id with
  | None => inl CastError
  | Some i =>
      inr (find (fun e => Nat.eqb (JournalEntrySchema._id e) i
                          && tenantIs tenantId e) coll)
  end.

Definition withBody (body : UpdateBody) (entry : JournalEntrySchema.t)
  : JournalEntrySchema.t :=
  JournalEntrySchema.mk
    (JournalEntrySchema._id entry) (JournalEntrySchema.tenantId entry)
    (JournalEntrySchema.entryNumber entry)
    (match date body with
     | Some d => d
     | None => JournalEntrySchema.date entry
     end)
    (JournalEntrySchema.transactionType entry)
    (JournalEntrySchema.sourceTransaction entry)
    (match project body with
     | Some p => Some p
     | None => JournalEntrySchema.project entry
     end)
    (match description body with
     | Some EmptyString | None => JournalEntrySchema.description entry
     | Some d => d
     end)
    (match lines body with
     | Some ls => map JournalEntryLineSchema.cast ls
     | None => JournalEntrySchema.lines entry
     end)
    (JournalEntrySchema.totalDebit entry) (JournalEntrySchema.totalCredit entry)
    (JournalEntrySchema.status entry) (JournalEntrySchema.isPosted entry)
    (JournalEntrySchema.postedAt entry) (JournalEntrySchema.reversedBy entry)
    (JournalEntrySchema.reversalOf entry) (JournalEntrySchema.createdBy entry)
    (JournalEntrySchema.createdAt entry).

Definition updateJournalEntry (db : Db) (now : Date) (id : option ObjectId)
    (tenantId : string) (body : UpdateBody) : Db * Response :=
  match findOne (journalEntries db) id tenantId with
  | inl _ => (db, mkResponse 400 false None)
  | inr None => (db, mkResponse 404 false None)
  | inr (Some entry) =>
      if negb (EntryStatus_eqb (JournalEntrySchema.status entry) Draft)
      then (db, mkResponse 400 false None)
      else
        match JournalEntry.save db now (withBody body entry) with
        | inl _ => (db, mkResponse 400 false None)
        | inr (db', saved) => (db', mkResponse 200 true (Some saved))
        end
  end.

(** [entry.deleteOne()]. *)
Fixpoint deleteOne (coll : list JournalEntrySchema.t) (id : ObjectId)
  : list JournalEntrySchema.t :=
  match coll with
  | [] => []
  | e :: rest =>
      if Nat.eqb (JournalEntrySchema._id e) id then rest
      else e :: deleteOne rest id
  end.

Definition deleteJournalEntry (db : Db) (id : option ObjectId)
    (tenantId : string) : Db * Response :=
  match findOne (journalEntries db) id tenantId with
  | inl _ => (db, mkResponse 500 false None)
  | inr None => (db, mkResponse 404 false None)
  | inr (Some entry) =>
      if negb (EntryStatus_eqb (JournalEntrySchema.status entry) Draft)
      then (db, mkResponse 400 false None)
      else
        (mkDb (deleteOne (journalEntries db) (JournalEntrySchema._id entry))
              (generalLedger db) (chartOfAccounts db) (nextId db),
         mkResponse 200 true None)
  end.

Definition posted (now : Date) (entry : JournalEntrySchema.t)
  : JournalEntrySchema.t :=
  JournalEntrySchema.mk
    (JournalEntrySchema._id entry) (JournalEntrySchema.tenantId entry)
    (JournalEntrySchema.entryNumber entry) (JournalEntrySchema.date entry)
    (JournalEntrySchema.transactionType entry)
    (JournalEntrySchema.sourceTransaction entry)
    (JournalEntrySchema.project entry) (JournalEntrySchema.description entry)
    (JournalEntrySchema.lines entry)
    (JournalEntrySchema.totalDebit entry) (JournalEntrySchema.totalCredit entry)
    Posted true (Some now)
    (JournalEntrySchema.reversedBy entry) (JournalEntrySchema.reversalOf entry)
    (JournalEntrySchema.createdBy entry) (JournalEntrySchema.createdAt entry).

(** [postJournalEntry]: the save of the entry and the posting to the
    ledger are two separate writes, outside any session. *)
Definition postJournalEntry (db : Db) (now : Date) (ledgerUp : bool)
    (id : option ObjectId) (tenantId : string) : Db * Response :=
  match findOne (journalEntries db) id tenantId with
  | inl _ => (db, mkResponse 400 false None)
  | inr None => (db, mkResponse 404 false None)
  | inr (Some entry) =>
      if negb (EntryStatus_eqb (JournalEntrySchema.status entry) Draft)
      then (db, mkResponse 400 false None)
      else
        match JournalEntry.save db now (posted now entry) with
        | inl _ => (db, mkResponse 400 false None)
        | inr (db1, saved) =>
            match AccountingService.postToGeneralLedger db1 now ledgerUp
                    saved with
            | inl _ => (db1, mkResponse 400 false None)
            | inr db2 => (db2, mkResponse 200 true (Some saved))
            end
        end
  end.

End JournalEntryController.

(** ** recalculate-balances.js *)

Module RecalculateBalances.
Import GeneralLedgerSchema.

Definition setBalance (b : Q) (r : t) : t :=
  mk (_id r) (tenantId r) (account r) (accountCode r) (accountName r)
     (accountType r) (date r) (journalEntry r) (entryNumber r)
     (description r) (transactionType r) (project r) (debit r) (credit r)
     b (sourceTransaction r) (fiscalYear r) (fiscalPeriod r)
     (status r) (createdAt r).

(** [updateOne({ _id: i }, { $set: { balance: b } })]. *)
Fixpoint updateOne (coll : list t) (i : ObjectId) (b : Q) : list t :=
  match coll with
  | [] => []
  | r :: rest =>
      if Nat.eqb (_id r) i then setBalance b r :: rest
      else r :: updateOne rest i b
  end.

(** [distinct("accountCode")]. *)
Definition distinct (coll : list t) : list string :=
  nodup string_dec (map accountCode coll).

(** [find({ accountCode, status: "Active" })
      .sort({ date: 1, createdAt: 1 })]. *)
Definition findActive (coll : list t) (code : string) : list t :=
  GeneralLedger.sortBy GeneralLedger.byDateThenCreation
    (filter (fun r => String.eqb (accountCode r) code
                      && LedgerStatus_eqb (status r) Active) coll).

(** What an entry adds to the running balance of an account of type
    [type]. *)
Definition increase (type : AccountType) (entry : t) : Q :=
  match type with
  | Asset | Expense => debit entry - credit entry
  | Liability | Equity | Revenue => credit entry - debit entry
  end.

(** The loop over the entries of one account. *)
Fixpoint recalculateEntries (type : AccountType) (runningBalance : Q)
    (entries : list t) (coll : list t) : list t :=
  match entries with
  | [] => coll
  | entry :: rest =>
      let runningBalance' := runningBalance + increase type entry in
      recalculateEntries type runningBalance' rest
        (if negb (Qeq_bool (balance entry) runningBalance')
         then updateOne coll (_id entry) runningBalance'
         else coll)
  end.

(** The body of the loop over the account codes. *)
Definition recalculateAccount (coll : list t) (code : string) : list t :=
  match findActive coll code with
  | [] => coll
  | first :: rest =>
      recalculateEntries (accountType first) 0 (first :: rest) coll
  end.

Definition recalculateBalances (coll : list t) : list t :=
  fold_left recalculateAccount (distinct coll) coll.

End RecalculateBalances.

(** ** Specification vocabulary *)

(** The sum of [f] over a list. *)
Definition sumOf {A : Type} (f : A -> Q) (l : list A) : Q :=
  fold_right (fun x s => f x + s) 0 l.

(** Net movement [debit - credit] of a ledger row and of a list of rows. *)
Definition movement (r : GeneralLedgerSchema.t) : Q :=
  GeneralLedgerSchema.debit r - GeneralLedgerSchema.credit r.

Definition net (rows : list GeneralLedgerSchema.t) : Q := sumOf movement rows.

(** [a] is strictly before [b]. *)
Definition dateLt (a b : Date) : Prop :=
  (getFullYear a < getFullYear b
   \/ (getFullYear a = getFullYear b
       /\ (getMonth a < getMonth b
           \/ (getMonth a = getMonth b
               /\ sinceMonthStart a < sinceMonthStart b))))%Z.

(** [a] sorts strictly after [b] by date, then by creation time. *)
Definition afterP (a b : GeneralLedgerSchema.t) : Prop :=
  dateLt (GeneralLedgerSchema.date b) (GeneralLedgerSchema.date a)
  \/ ((getFullYear (GeneralLedgerSchema.date a)
       = getFullYear (GeneralLedgerSchema.date b)
       /\ getMonth (GeneralLedgerSchema.date a)
          = getMonth (GeneralLedgerSchema.date b)
       /\ sinceMonthStart (GeneralLedgerSchema.date a)
          = sinceMonthStart (GeneralLedgerSchema.date b))
      /\ dateLt (GeneralLedgerSchema.createdAt b)
                (GeneralLedgerSchema.createdAt a)).

(** A date whose month and offset are those of a calendar date. *)
Definition wellFormedDate (d : Date) : Prop :=
  (0 <= getMonth d <= 11 /\ 0 <= sinceMonthStart d)%Z.

(** [o] is what a lookup of the most recent Active row of account [code]
    may return: a matching row that no matching row sorts after, or
    nothing when no row matches. *)
Definition mostRecentActive (ledger : list GeneralLedgerSchema.t)
    (code : string) (o : option GeneralLedgerSchema.t) : Prop :=
  match o with
  | Some p =>
      In p ledger
      /\ GeneralLedgerSchema.accountCode p = code
      /\ GeneralLedgerSchema.status p = Active
      /\ forall r, In r ledger ->
           GeneralLedgerSchema.accountCode r = code ->
           GeneralLedgerSchema.status r = Active ->
           GeneralLedger.after r p = false
  | None =>
      forall r, In r ledger ->
        GeneralLedgerSchema.accountCode r = code ->
        GeneralLedgerSchema.status r <> Active
  end.

(** The row object that the poster builds for a line. *)
Definition objectOfLine (ledger : list GeneralLedgerSchema.t)
    (line : JournalEntryLineSchema.t) (o : LedgerObject.t) : Prop :=
  LedgerObject.accountCode o = JournalEntryLineSchema.accountCode line
  /\ LedgerObject.debit o = JournalEntryLineSchema.debit line
  /\ LedgerObject.credit o = JournalEntryLineSchema.credit line
  /\ LedgerObject.status o = Active
  /\ exists prev,
       mostRecentActive ledger (JournalEntryLineSchema.accountCode line) prev
       /\ let previousBalance :=
            match prev with
            | Some p => GeneralLedgerSchema.balance p
            | None => 0
            end in
          LedgerObject.balance o =
            match JournalEntryLineSchema.accountType line with
            | Asset | Expense =>
                previousBalance + JournalEntryLineSchema.debit line
                  - JournalEntryLineSchema.credit line
            | Liability | Equity | Revenue =>
                previousBalance + JournalEntryLineSchema.credit line
                  - JournalEntryLineSchema.debit line
            end.

(** The year in which [new Date(year, 0, 1)] falls. *)
Definition countingYear (year : Z) : Z :=
  if (0 <=? year)%Z && (year <=? 99)%Z then (1900 + year)%Z else year.



(** The rows dated exactly [d] among the Active rows of account [code]. *)
Definition boundaryRows (coll : list GeneralLedgerSchema.t) (code : string)
    (d : Date) : list GeneralLedgerSchema.t :=
  filter (fun r => String.eqb (GeneralLedgerSchema.accountCode r) code
                   && LedgerStatus_eqb (GeneralLedgerSchema.status r) Active
                   && DateOrder.leb (GeneralLedgerSchema.date r) d
                   && DateOrder.geb (GeneralLedgerSchema.date r) d)
         coll.

(** Two lines that differ by an exchange of debit and credit. *)
Definition swapped (a b : JournalEntryLineSchema.t) : Prop :=
  JournalEntryLineSchema.account b = JournalEntryLineSchema.account a
  /\ JournalEntryLineSchema.accountCode b = JournalEntryLineSchema.accountCode a
  /\ JournalEntryLineSchema.accountName b = JournalEntryLineSchema.accountName a
  /\ JournalEntryLineSchema.accountType b = JournalEntryLineSchema.accountType a
  /\ JournalEntryLineSchema.debit b = JournalEntryLineSchema.credit a
  /\ JournalEntryLineSchema.credit b = JournalEntryLineSchema.debit a.

(** ** Auxiliary notions of the proofs *)

(** Net movement held by the accumulators of a list of groups. *)
Definition groupNet {K : Type} (gs : list (GeneralLedger.Group K)) : Q :=
  sumOf (fun g => GeneralLedger.totalDebit g - GeneralLedger.totalCredit g) gs.

(** The [result.map] of [getTrialBalance]: each column kept when
    positive, 0 otherwise. *)
Definition clamp (a : GeneralLedger.TrialAccount) : GeneralLedger.TrialAccount :=
  GeneralLedger.mkTrial (GeneralLedger.taCode a) (GeneralLedger.taName a)
    (GeneralLedger.taType a)
    (if isPositive (GeneralLedger.taDebit a) then GeneralLedger.taDebit a else 0)
    (if isPositive (GeneralLedger.taCredit a) then GeneralLedger.taCredit a else 0).



(** The [$match], [$group] and [$project] stages of the trial balance. *)
Definition projected (coll : list GeneralLedgerSchema.t) (asOfDate : Date)
  : list GeneralLedger.TrialAccount :=
  map (fun g => GeneralLedger.mkTrial (GeneralLedger.key g)
                  (GeneralLedger.firstName g) (GeneralLedger.firstType g)
                  (GeneralLedger.totalDebit g - GeneralLedger.totalCredit g)
                  (GeneralLedger.totalCredit g - GeneralLedger.totalDebit g))
    (GeneralLedger.group String.eqb GeneralLedgerSchema.accountCode
       (filter (fun r => DateOrder.leb (GeneralLedgerSchema.date r) asOfDate
                         && LedgerStatus_eqb (GeneralLedgerSchema.status r)
                              Active)
               coll)).

(** The [$match] of the trial balance: Active rows dated up to
    [asOfDate]. *)
Definition asOfActive (asOfDate : Date) (r : GeneralLedgerSchema.t) : bool :=
  DateOrder.leb (GeneralLedgerSchema.date r) asOfDate
  && LedgerStatus_eqb (GeneralLedgerSchema.status r) Active.

(** Number of entries dated in [year] or in a later year. *)
Definition entriesFromYear (coll : list JournalEntrySchema.t) (year : Z) : nat :=
  List.length
    (filter (fun e => (year <=? getFullYear (JournalEntrySchema.date e))%Z) coll).

(** Number of entries dated in [year]. *)
Definition entriesOfYear (coll : list JournalEntrySchema.t) (year : Z) : nat :=
  List.length
    (filter (fun e => (getFullYear (JournalEntrySchema.date e) =? year)%Z) coll).

(** Replaying the Active rows of an account: the running sums of their
    movements from 0. *)
Fixpoint replay (running : Q) (rows : list GeneralLedgerSchema.t) : list Q :=
  match rows with
  | [] => []
  | r :: rest => (running + movement r) :: replay (running + movement r) rest
  end.

(** ** Scenarios *)

Module Scenario.

Definition jan15 : Date := mkDate 2024 0 1209600000.
Definition jun30 : Date := mkDate 2024 5 2505600000.
Definition mar01_2025 : Date := mkDate 2025 2 0.

Definition user : ObjectId := 7%nat.

Definition tenant : string := "tenant-a".

Definition cash (debit credit : option Q) : LineObject.t :=
  LineObject.mk 101%nat "1000" "Cash Account" Asset debit credit None.

Definition sales (debit credit : option Q) : LineObject.t :=
  LineObject.mk 104%nat "4000" "Sales Revenue" Revenue debit credit None.

(** Entry data as a caller of the service sends them: tenant, date,
    type, description and lines. *)
Definition entryOn (d : Date) (ls : list LineObject.t) : EntryObject.t :=
  EntryObject.mk (Some tenant) None (Some d) Sale None None "Sales Invoice" ls
    None None None None None None None None.

(** A cash sale of 100. *)
Definition cashSale : EntryObject.t :=
  entryOn jan15 [cash (Some 100) None; sales None (Some 100)].

(** The same sale with 99 credited. *)
Definition unbalancedSale : EntryObject.t :=
  entryOn jan15 [cash (Some 100) None; sales None (Some 99)].

(** The object that [createJournalEntry] hands to [JournalEntry.create]
    for the cash sale. *)
Definition cashSaleObject : EntryObject.t :=
  AccountingService.withTotals cashSale 100 100 user.

(** The cash sale as a stored document: entry 0 of the tenant, Posted. *)
Definition postedSale : JournalEntrySchema.t :=
  JournalEntrySchema.mk 0%nat (Some tenant) (Some "JE-2024-000001") jan15
    Sale None None "Sales Invoice"
    [JournalEntryLineSchema.cast (cash (Some 100) None);
     JournalEntryLineSchema.cast (sales None (Some 100))]
    100 100 Posted true (Some jan15) None None (Some user) jan15.

(** A stored ledger row of journal entry [entry]. *)
Definition ledgerRow (i : ObjectId) (tenantId : string) (entry : ObjectId)
    (account : ObjectId) (code name : string) (type : AccountType)
    (d : Date) (debit credit balance : Q) : GeneralLedgerSchema.t :=
  GeneralLedgerSchema.mk i (Some tenantId) account code name type d entry
    (Some "JE-2024-000001") "Sales Invoice" Sale None debit credit balance
    None None None Active d.

Definition cashRow (i : ObjectId) (tenantId : string) (d : Date) (debit : Q)
  : GeneralLedgerSchema.t :=
  ledgerRow i tenantId 0%nat 101%nat "1000" "Cash Account" Asset d
    debit 0 debit.

Definition revenueRow (i : ObjectId) (tenantId : string) (d : Date)
    (credit : Q) : GeneralLedgerSchema.t :=
  ledgerRow i tenantId 0%nat 104%nat "4000" "Sales Revenue" Revenue d
    0 credit credit.

(** The rows of the cash sale, as stored for the tenant. *)
Definition ledgerOfA : list GeneralLedgerSchema.t :=
  [cashRow 1%nat tenant jan15 100; revenueRow 2%nat tenant jan15 100].

(** A database that holds the cash sale: the Posted entry and its two
    Active ledger rows. *)
Definition afterSale : Db := mkDb [postedSale] ledgerOfA [] 3%nat.

(** A database whose ledger holds 100 moved into and out of cash on the
    same date. *)
Definition afterWash : Db :=
  mkDb []
    [cashRow 1%nat tenant jan15 100;
     ledgerRow 2%nat tenant 0%nat 101%nat "1000" "Cash Account" Asset jan15
       0 100 0]
    [] 3%nat.

(** A database that holds one entry dated in 2025 and none dated in
    2024. *)
Definition nextYearEntry : JournalEntrySchema.t :=
  JournalEntrySchema.mk 0%nat (Some tenant) (Some "JE-2025-000001")
    mar01_2025 Sale None None "Sales Invoice"
    [JournalEntryLineSchema.cast (cash (Some 10) None);
     JournalEntryLineSchema.cast (sales None (Some 10))]
    10 10 Posted true (Some mar01_2025) None None (Some user) mar01_2025.

Definition afterNextYearEntry : Db := mkDb [nextYearEntry] [] [] 1%nat.

(** The cash sale stored as a Draft. *)
Definition draftSale : JournalEntrySchema.t :=
  JournalEntrySchema.mk 0%nat (Some tenant) (Some "JE-2024-000001") jan15
    Sale None None "Sales Invoice"
    [JournalEntryLineSchema.cast (cash (Some 100) None);
     JournalEntryLineSchema.cast (sales None (Some 100))]
    100 100 Draft false None None None (Some user) jan15.

Definition withDraft : Db := mkDb [draftSale] [] [] 1%nat.



(** Rows of a second tenant on the same account codes. *)
Definition ledgerOfAandB : list GeneralLedgerSchema.t :=
  (ledgerOfA
     ++ [cashRow 3%nat "tenant-b" jun30 40;
         revenueRow 4%nat "tenant-b" jun30 40])%list.

Definition accountOfB : ChartOfAccountSchema.t :=
  ChartOfAccountSchema.mk 9%nat (Some "tenant-b") (Some "1000")
    (Some "Petty Cash") (Some Asset) None None None (Some "Assets") [] [].

Definition chartOnly (accounts : list ChartOfAccountSchema.t) : Db :=
  mkDb [] [] accounts 20%nat.

(** The accounts that the plot sale adapter looks up. *)
Definition cashAccount : ChartOfAccountSchema.t :=
  ChartOfAccountSchema.mk 11%nat (Some tenant) (Some "1000")
    (Some "Cash Account") (Some Asset) None None None (Some "Assets") [] [].

Definition receivableAccount : ChartOfAccountSchema.t :=
  ChartOfAccountSchema.mk 12%nat (Some tenant) (Some "1200")
    (Some "Accounts Receivable") (Some Asset) None None None (Some "Assets")
    [] [].

Definition withAccounts : Db := chartOnly [cashAccount; receivableAccount].

End Scenario.

(** ** Vocabulary of the further results *)

Local Open Scope list_scope.

(** [a] answers to [code]: it has that code itself or carries it on a
    sub-account or list account. *)
Definition answersTo (code : string) (a : ChartOfAccountSchema.t) : Prop :=
  ChartOfAccountSchema.code a = Some code
  \/ (exists s, In s (ChartOfAccountSchema.subAccounts a)
                /\ ChartOfAccountSchema.subCode s = code)
  \/ (exists l, In l (ChartOfAccountSchema.listAccounts a)
                /\ ChartOfAccountSchema.listCode l = code).

(** The account that [getOrCreateAccount] finds for [code]: a first
    account with that code of its own, else a first account that carries
    the code on a sub-account or list account. *)
Definition resolved (chart : list ChartOfAccountSchema.t) (code : string)
  : option ChartOfAccountSchema.t :=
  match ChartOfAccount.findOneByCode chart code with
  | Some account => Some account
  | None => ChartOfAccount.findOneByNestedCode chart code
  end.

(** The error with which [createJournalEntry] answers entry data that
    carry no [tenantId]: that of the balance check when the lines fail
    it, else that of the document validation. *)
Definition rejection (lines : list LineObject.t) : Error :=
  let totalDebit := AccountingService.rawDebit lines in
  let totalCredit := AccountingService.rawCredit lines in
  if JournalEntry.exceeds (Qabs (totalDebit - totalCredit))
       JournalEntry.tolerance
  then NotBalanced totalDebit totalCredit
  else ValidationError.

(** [x > 0 ? x : 0]. *)
Definition positivePart (x : Q) : Q := if isPositive x then x else 0.

(** The sum of the amounts of payment lines. *)
Definition paymentLinesTotal (ls : list PaymentLineSchema.t) : Q :=
  sumOf PaymentLineSchema.amount ls.

(** Every payment line names an account that the chart resolves. *)
Definition allResolved (chart : list ChartOfAccountSchema.t)
    (ls : list PaymentLineSchema.t) : Prop :=
  Forall (fun l => resolved chart (PaymentLineSchema.accountCode l) <> None)
    ls.


(** Net movement held by the groups whose key satisfies [p]. *)
Definition netWhere {K : Type} (p : K -> bool)
    (gs : list (GeneralLedger.Group K)) : Q :=
  groupNet (filter (fun g => p (GeneralLedger.key g)) gs).

(** The Active rows of account [code] dated up to [asOfDate]. *)
Definition accountRows (coll : list GeneralLedgerSchema.t) (code : string)
    (asOfDate : Date) : list GeneralLedgerSchema.t :=
  filter (GeneralLedger.matchAccountAsOf code asOfDate) coll.

(** The [$match] of the profit and loss statement, without its test on
    the account type: Active rows dated within the period. *)
Definition inPeriod (startDate endDate : option Date)
    (r : GeneralLedgerSchema.t) : bool :=
  LedgerStatus_eqb (GeneralLedgerSchema.status r) Active
  && GeneralLedger.inRange startDate endDate (GeneralLedgerSchema.date r).

(** The selected rows that carry account type [ty]. *)
Definition typedRows (sel : GeneralLedgerSchema.t -> bool) (ty : AccountType)
    (coll : list GeneralLedgerSchema.t) : list GeneralLedgerSchema.t :=
  filter (fun r => sel r && AccountType_eqb (GeneralLedgerSchema.accountType r) ty)
         coll.

(** Net movement of the selected rows of type [ty] on account [code]. *)
Definition typedNet (sel : GeneralLedgerSchema.t -> bool) (ty : AccountType)
    (coll : list GeneralLedgerSchema.t) (code : string) : Q :=
  net (filter (fun r => String.eqb (GeneralLedgerSchema.accountCode r) code)
         (typedRows sel ty coll)).

(** Every account of type [ty] has a credit balance (or none). *)
Definition creditNormal (sel : GeneralLedgerSchema.t -> bool)
    (ty : AccountType) (coll : list GeneralLedgerSchema.t) : Prop :=
  forall code, typedNet sel ty coll code <= 0.

(** Every account of type [ty] has a debit balance (or none). *)
Definition debitNormal (sel : GeneralLedgerSchema.t -> bool)
    (ty : AccountType) (coll : list GeneralLedgerSchema.t) : Prop :=
  forall code, 0 <= typedNet sel ty coll code.

Definition balanceSheetTypes (r : GeneralLedgerSchema.t) : bool :=
  AccountType_eqb (GeneralLedgerSchema.accountType r) Asset
  || AccountType_eqb (GeneralLedgerSchema.accountType r) Liability
  || AccountType_eqb (GeneralLedgerSchema.accountType r) Equity.

Definition profitAndLossTypes (r : GeneralLedgerSchema.t) : bool :=
  AccountType_eqb (GeneralLedgerSchema.accountType r) Revenue
  || AccountType_eqb (GeneralLedgerSchema.accountType r) Expense.

(** The [k]-th serial number drawn by the pre-save hook of an invoice. *)
Definition serialCandidate (random : nat -> Q) (k : nat) : string :=
  "SI-" ++ stringOfZ (SalesInvoice.randomNum (random k)).

(** The invoice comes without a serial number. *)
Definition lacksSerialNo (this : SalesInvoiceSchema.t) : Prop :=
  SalesInvoiceSchema.serialNo this = None
  \/ SalesInvoiceSchema.serialNo this = Some EmptyString.

(** The net amount of an item as the pre-save hook computes it. *)
Definition itemNet (item : SalesInvoiceSchema.Item) : Q :=
  SalesInvoiceSchema.quantity item * SalesInvoiceSchema.rate item
  - (if isPositive (SalesInvoiceSchema.discountPercent item)
     then SalesInvoiceSchema.quantity item * SalesInvoiceSchema.rate item
          * SalesInvoiceSchema.discountPercent item / 100
     else SalesInvoiceSchema.discount item).

(** [n] successive runs of the post-save hook of a plot. *)
Fixpoint plotSaves (n : nat) (db : Db) (customers : list CustomerSchema.t)
    (now : Date) (ledgerUp : bool) (doc : PlotSchema.t)
  : Db * list CustomerSchema.t :=
  match n with
  | O => (db, customers)
  | S k =>
      let before := plotSaves k db customers now ledgerUp doc in
      Plot.postSave (fst before) (snd before) now ledgerUp doc
  end.

(** No journal entry of the database is a Draft. *)
Definition neverDraft (db : Db) : Prop :=
  Forall (fun e => JournalEntrySchema.status e <> Draft) (journalEntries db).

(** The running balances of the entries of an account of type [type],
    from [running]. *)
Fixpoint runningBalances (type : AccountType) (running : Q)
    (entries : list GeneralLedgerSchema.t) : list Q :=
  match entries with
  | [] => []
  | entry :: rest =>
      let running' := running + RecalculateBalances.increase type entry in
      running' :: runningBalances type running' rest
  end.

(** The Active rows of account [code], in date order, carry the running
    balance of the account. *)
Definition carriesRunningBalance (coll : list GeneralLedgerSchema.t)
    (code : string) : Prop :=
  match RecalculateBalances.findActive coll code with
  | [] => True
  | first :: rest =>
      Forall2 (fun entry b => GeneralLedgerSchema.balance entry == b)
        (first :: rest)
        (runningBalances (GeneralLedgerSchema.accountType first) 0
           (first :: rest))
  end.

(** [b] is [a] with possibly another balance. *)
Definition sameButBalance (a b : GeneralLedgerSchema.t) : Prop :=
  b = RecalculateBalances.setBalance (GeneralLedgerSchema.balance b) a.

(** The update that [recalculateEntries] applies to a row. *)
Fixpoint recalculated (type : AccountType) (running : Q)
    (entries : list GeneralLedgerSchema.t) (r : GeneralLedgerSchema.t)
  : GeneralLedgerSchema.t :=
  match entries with
  | [] => r
  | entry :: rest =>
      let running' := running + RecalculateBalances.increase type entry in
      recalculated type running' rest
        (if negb (Qeq_bool (GeneralLedgerSchema.balance entry) running')
            && Nat.eqb (GeneralLedgerSchema._id r)
                 (GeneralLedgerSchema._id entry)
         then RecalculateBalances.setBalance running' r
         else r)
  end.

(** ** Further scenarios *)

Module Example.

(** The ledger of the cash sale of 100 and of a purchase of 500 on
    credit. *)
Definition afterSaleAndPurchase : Db :=
  mkDb []
    (Scenario.ledgerOfA
       ++ [Scenario.ledgerRow 3%nat Scenario.tenant 1%nat 102%nat "1300"
             "Inventory" Asset Scenario.jan15 500 0 500;
           Scenario.ledgerRow 4%nat Scenario.tenant 1%nat 103%nat "2000"
             "Accounts Payable" Liability Scenario.jan15 0 500 500])
    [] 5%nat.

Definition customer : CustomerSchema.t := CustomerSchema.mk 301%nat 0 0.

(** A plot sold for 1000, with nothing recorded as received. *)
Definition soldPlot : PlotSchema.t :=
  PlotSchema.mk 701%nat "A-1" None PlotSchema.Sold (Some 1000) (Some 1000)
    (Some 301%nat) (Some Scenario.jan15) (Some Scenario.jun30) (Some 1000)
    None None true (Some Scenario.user).

End Example.

(** * Results *)

Local Open Scope list_scope.

(** ** Order of dates *)

Lemma Date_eq (a b : Date) :
  getFullYear a = getFullYear b -> getMonth a = getMonth b ->
  sinceMonthStart a = sinceMonthStart b -> a = b.
Proof. destruct a, b; simpl; intros; subst; reflexivity. Qed.

Lemma DateOrder_compare_spec (a b : Date) :
  CompareSpec (a = b) (dateLt a b) (dateLt b a) (DateOrder.compare a b).
Proof.
  unfold DateOrder.compare, dateLt.
  destruct (Z.compare_spec (getFullYear a) (getFullYear b)) as [Hy|Hy|Hy];
    [| constructor; lia | constructor; lia].
  destruct (Z.compare_spec (getMonth a) (getMonth b)) as [Hm|Hm|Hm];
    [| constructor; lia | constructor; lia].
  destruct (Z.compare_spec (sinceMonthStart a) (sinceMonthStart b)) as [Hs|Hs|Hs];
    constructor; try lia.
  apply Date_eq; assumption.
Qed.

Lemma dateLt_irrefl (a : Date) : ~ dateLt a a.
Proof. unfold dateLt; lia. Qed.

Lemma dateLt_trans (a b c : Date) : dateLt a b -> dateLt b c -> dateLt a c.
Proof. unfold dateLt; lia. Qed.

Lemma dateLt_asym (a b : Date) : dateLt a b -> ~ dateLt b a.
Proof. unfold dateLt; lia. Qed.

Lemma DateOrder_leb_iff (a b : Date) :
  DateOrder.leb a b = true <-> a = b \/ dateLt a b.
Proof.
  unfold DateOrder.leb.
  destruct (DateOrder_compare_spec a b) as [H|H|H]; split; intros H0; auto;
    try discriminate.
  destruct H0 as [->|H0]; [elim (dateLt_irrefl b H) | elim (dateLt_asym _ _ H H0)].
Qed.

Lemma DateOrder_ltb_iff (a b : Date) :
  DateOrder.ltb a b = true <-> dateLt a b.
Proof.
  unfold DateOrder.ltb.
  destruct (DateOrder_compare_spec a b) as [H|H|H]; split; intros H0; auto;
    try discriminate.
  - subst. elim (dateLt_irrefl b H0).
  - elim (dateLt_asym _ _ H H0).
Qed.

Lemma DateOrder_leb_false_iff (a b : Date) :
  DateOrder.leb a b = false <-> dateLt b a.
Proof.
  unfold DateOrder.leb.
  destruct (DateOrder_compare_spec a b) as [H|H|H]; split; intros H0; auto;
    try discriminate.
  - subst. elim (dateLt_irrefl b H0).
  - elim (dateLt_asym _ _ H H0).
Qed.

(** ** The previous-balance lookup *)

Lemma LedgerStatus_eqb_eq (a b : LedgerStatus) :
  LedgerStatus_eqb a b = true <-> a = b.
Proof. destruct a, b; simpl; split; intros H; congruence. Qed.

Lemma EntryStatus_eqb_eq (a b : EntryStatus) :
  EntryStatus_eqb a b = true <-> a = b.
Proof. destruct a, b; simpl; split; intros H; congruence. Qed.

Lemma after_iff (a b : GeneralLedgerSchema.t) :
  GeneralLedger.after a b = true <-> afterP a b.
Proof.
  unfold GeneralLedger.after, afterP.
  destruct (DateOrder_compare_spec (GeneralLedgerSchema.date a)
              (GeneralLedgerSchema.date b)) as [H|H|H].
  - rewrite DateOrder_ltb_iff, H. split; [intros H0; right; auto |].
    intros [H0|[_ H0]]; [elim (dateLt_irrefl _ H0) | exact H0].
  - split; [discriminate |]. unfold dateLt in *. intros [H0|[H0 _]]; lia.
  - split; auto.
Qed.

Lemma after_false_iff (a b : GeneralLedgerSchema.t) :
  GeneralLedger.after a b = false <-> ~ afterP a b.
Proof.
  rewrite <- after_iff. destruct (GeneralLedger.after a b); split; congruence.
Qed.

Lemma after_irrefl (a : GeneralLedgerSchema.t) : GeneralLedger.after a a = false.
Proof. apply after_false_iff. unfold afterP, dateLt. lia. Qed.

Lemma after_replaced (r' r b : GeneralLedgerSchema.t) :
  GeneralLedger.after r' b = false -> GeneralLedger.after r b = true ->
  GeneralLedger.after r' r = false.
Proof.
  rewrite !after_false_iff, after_iff. unfold afterP, dateLt. lia.
Qed.

Lemma lookupStep_spec (code : string) (seen : list GeneralLedgerSchema.t)
    (best : option GeneralLedgerSchema.t) (r : GeneralLedgerSchema.t) :
  mostRecentActive seen code best ->
  mostRecentActive (seen ++ [r]) code (GeneralLedger.keepLatest code best r).
Proof.
  intros Hinv. unfold GeneralLedger.keepLatest.
  destruct (String.eqb (GeneralLedgerSchema.accountCode r) code
            && LedgerStatus_eqb (GeneralLedgerSchema.status r) Active) eqn:Hm.
  - apply andb_true_iff in Hm. destruct Hm as [Hc Hs].
    apply String.eqb_eq in Hc. apply LedgerStatus_eqb_eq in Hs.
    destruct best as [b|]; simpl in Hinv.
    + destruct Hinv as (Hin & Hcode & Hact & Hmax).
      destruct (GeneralLedger.after r b) eqn:Hrb; simpl.
      * repeat split; auto.
        { apply in_or_app; right; left; reflexivity. }
        intros r' Hin' Hc' Hs'. apply in_app_or in Hin'.
        destruct Hin' as [Hin'|[<-|[]]].
        { apply after_replaced with b; auto. }
        { apply after_irrefl. }
      * repeat split; auto.
        { apply in_or_app; left; exact Hin. }
        intros r' Hin' Hc' Hs'. apply in_app_or in Hin'.
        destruct Hin' as [Hin'|[<-|[]]]; auto.
    + simpl. repeat split; auto.
      { apply in_or_app; right; left; reflexivity. }
      intros r' Hin' Hc' Hs'. apply in_app_or in Hin'.
      destruct Hin' as [Hin'|[<-|[]]].
      { elim (Hinv r' Hin' Hc' Hs'). }
      { apply after_irrefl. }
  - assert (Hr : ~ (GeneralLedgerSchema.accountCode r = code
                    /\ GeneralLedgerSchema.status r = Active)).
    { intros [Hc Hs]. apply String.eqb_eq in Hc.
      apply LedgerStatus_eqb_eq in Hs. rewrite Hc, Hs in Hm. discriminate. }
    destruct best as [b|]; simpl in *.
    + destruct Hinv as (Hin & Hcode & Hact & Hmax). repeat split; auto.
      { apply in_or_app; left; exact Hin. }
      intros r' Hin' Hc' Hs'. apply in_app_or in Hin'.
      destruct Hin' as [Hin'|[<-|[]]]; auto. elim Hr; auto.
    + intros r' Hin' Hc' Hs'. apply in_app_or in Hin'.
      destruct Hin' as [Hin'|[<-|[]]]; [exact (Hinv r' Hin' Hc' Hs') |].
      elim Hr; auto.
Qed.

Lemma lookup_fold_spec (code : string) (l seen : list GeneralLedgerSchema.t)
    (best : option GeneralLedgerSchema.t) :
  mostRecentActive seen code best ->
  mostRecentActive (seen ++ l) code (fold_left (GeneralLedger.keepLatest code) l best).
Proof.
  revert seen best. induction l as [|r l IH]; intros seen best Hinv; simpl.
  - rewrite app_nil_r. exact Hinv.
  - replace (seen ++ r :: l)%list with ((seen ++ [r]) ++ l)%list
      by (rewrite <- app_assoc; reflexivity).
    apply IH. apply lookupStep_spec. exact Hinv.
Qed.

Lemma findOneLatestActive_spec (ledger : list GeneralLedgerSchema.t)
    (code : string) :
  mostRecentActive ledger code (GeneralLedger.findOneLatestActive ledger code).
Proof.
  unfold GeneralLedger.findOneLatestActive.
  apply (lookup_fold_spec code ledger [] None).
  simpl. intros r [].
Qed.

(** ** Sums, sorting and grouping *)

Section Sums.
Context {A : Type} (f : A -> Q).

Lemma fold_left_sum (l : list A) (a : Q) :
  fold_left (fun sum x => sum + f x) l a == a + sumOf f l.
Proof.
  revert a. induction l as [|x l IH]; intros a; simpl; [lra |].
  rewrite IH. lra.
Qed.


Lemma sumOf_insertSorted (le : A -> A -> bool) (x : A) (l : list A) :
  sumOf f (GeneralLedger.insertSorted le x l) == f x + sumOf f l.
Proof.
  induction l as [|y l IH]; simpl; [lra |].
  destruct (le x y); simpl; [lra | rewrite IH; lra].
Qed.

Lemma sumOf_sortBy (le : A -> A -> bool) (l : list A) :
  sumOf f (GeneralLedger.sortBy le l) == sumOf f l.
Proof.
  induction l as [|x l IH]; simpl; [lra |].
  rewrite sumOf_insertSorted, IH. lra.
Qed.

End Sums.

Lemma sumOf_ext {A : Type} (f g : A -> Q) (l : list A) :
  (forall x, In x l -> f x == g x) -> sumOf f l == sumOf g l.
Proof.
  induction l as [|x l IH]; intros H; simpl; [lra |].
  rewrite (H x (or_introl eq_refl)), IH; [lra |].
  intros y Hy. apply H. right. exact Hy.
Qed.

Lemma sumOf_map {A B : Type} (f : B -> Q) (g : A -> B) (l : list A) :
  sumOf f (map g l) = sumOf (fun x => f (g x)) l.
Proof. induction l as [|x l IH]; simpl; [| rewrite IH]; reflexivity. Qed.

Lemma In_insertSorted {A : Type} (le : A -> A -> bool) (x y : A) (l : list A) :
  In y (GeneralLedger.insertSorted le x l) <-> y = x \/ In y l.
Proof.
  induction l as [|z l IH]; simpl; [intuition |].
  destruct (le x z); simpl; [intuition |]. rewrite IH. intuition.
Qed.

Lemma In_sortBy {A : Type} (le : A -> A -> bool) (y : A) (l : list A) :
  In y (GeneralLedger.sortBy le l) <-> In y l.
Proof.
  induction l as [|x l IH]; simpl; [tauto |].
  rewrite In_insertSorted, IH. intuition.
Qed.

Section Grouping.
Context {K : Type} (eqb : K -> K -> bool) (keyOf : GeneralLedgerSchema.t -> K).




(** Rows that all carry the key of a group stay in that one group. *)
Lemma group_same_key (rows : list GeneralLedgerSchema.t)
    (g : GeneralLedger.Group K) :
  (forall r, In r rows -> eqb (GeneralLedger.key g) (keyOf r) = true) ->
  exists g',
    fold_left (fun gs r => GeneralLedger.groupAdd eqb (keyOf r) r gs) rows [g]
    = [g']
    /\ GeneralLedger.key g' = GeneralLedger.key g
    /\ GeneralLedger.totalDebit g' - GeneralLedger.totalCredit g'
       == (GeneralLedger.totalDebit g - GeneralLedger.totalCredit g)
          + net rows.
Proof.
  revert g. induction rows as [|r rows IH]; intros g H; simpl.
  - exists g. repeat split. unfold net; simpl. lra.
  - rewrite (H r (or_introl eq_refl)).
    destruct (IH (GeneralLedger.mkGroup (GeneralLedger.key g)
                    (GeneralLedger.firstName g) (GeneralLedger.firstType g)
                    (GeneralLedger.totalDebit g + GeneralLedgerSchema.debit r)
                    (GeneralLedger.totalCredit g + GeneralLedgerSchema.credit r)))
      as (g' & Hf & Hk & Hn).
    { intros r' Hr'. simpl. apply H. right. exact Hr'. }
    exists g'. split; [exact Hf |]. split; [exact Hk |].
    rewrite Hn. unfold net, movement; simpl. lra.
Qed.

End Grouping.

(** ** Trial balance *)

Lemma isPositive_iff (a : Q) : isPositive a = true <-> 0 < a.
Proof.
  unfold isPositive. rewrite negb_true_iff.
  destruct (Qle_bool a 0) eqn:H.
  - apply Qle_bool_iff in H. split; [discriminate | lra].
  - split; auto. intros _.
    destruct (Qlt_le_dec 0 a) as [L|L]; [exact L |].
    apply Qle_bool_iff in L. congruence.
Qed.

Lemma isPositive_false_iff (a : Q) : isPositive a = false <-> a <= 0.
Proof.
  destruct (isPositive a) eqn:H.
  - apply isPositive_iff in H. split; [discriminate | lra].
  - split; auto. intros _. destruct (Qlt_le_dec 0 a) as [L|L]; auto.
    apply isPositive_iff in L. congruence.
Qed.

Ltac positivity :=
  repeat match goal with
    | H : isPositive _ = true |- _ => apply isPositive_iff in H
    | H : isPositive _ = false |- _ => apply isPositive_false_iff in H
    end.






Lemma below_iff (a b : Q) : GeneralLedger.below a b = true <-> a < b.
Proof.
  unfold GeneralLedger.below. rewrite negb_true_iff.
  destruct (Qle_bool b a) eqn:H.
  - apply Qle_bool_iff in H. split; [discriminate | lra].
  - split; auto. intros _.
    destruct (Qlt_le_dec a b) as [L|L]; [exact L |].
    apply Qle_bool_iff in L. congruence.
Qed.


(** ** Tests on numbers and strings *)

Lemma exceeds_iff (a b : Q) : JournalEntry.exceeds a b = true <-> b < a.
Proof.
  unfold JournalEntry.exceeds. rewrite negb_true_iff.
  destruct (Qle_bool a b) eqn:H.
  - apply Qle_bool_iff in H. split; [discriminate | lra].
  - split; auto. intros _.
    destruct (Qlt_le_dec b a) as [L|L]; [exact L |].
    apply Qle_bool_iff in L. congruence.
Qed.

Lemma checkLines_not_balance_error (ls : list JournalEntryLineSchema.t)
    (e : Error) :
  JournalEntry.checkLines ls = inl e -> isBalanceError e = false.
Proof.
  induction ls as [|l ls IH]; simpl; [discriminate |].
  destruct (isPositive _ && isPositive _); [intros H; injection H as <-; reflexivity |].
  destruct (isZero _ && isZero _); [intros H; injection H as <-; reflexivity |].
  exact IH.
Qed.

Lemma codeIs_true (c : string) (o : option string) :
  ChartOfAccount.codeIs c o = true <-> o = Some c.
Proof.
  unfold ChartOfAccount.codeIs. destruct o as [v|]; [| split; discriminate].
  rewrite String.eqb_eq. split; [intros ->; reflexivity | congruence].
Qed.

Lemma isZero_spec (a : Q) : isZero a = true <-> a == 0.
Proof. unfold isZero. apply Qeq_bool_iff. Qed.

Lemma exceeds_false_iff (a b : Q) : JournalEntry.exceeds a b = false <-> a <= b.
Proof.
  unfold JournalEntry.exceeds. rewrite negb_false_iff. apply Qle_bool_iff.
Qed.

Lemma repeatChar_length (c : ascii) (n : nat) :
  String.length (repeatChar c n) = n.
Proof. induction n as [|n IH]; simpl; [| rewrite IH]; reflexivity. Qed.

Lemma string_length_app (a b : string) :
  String.length (a ++ b)%string = (String.length a + String.length b)%nat.
Proof. induction a as [|c a IH]; simpl; [| rewrite IH]; reflexivity. Qed.

Lemma padStart_length (n : nat) (c : ascii) (s : string) :
  String.length (padStart n c s) = Nat.max n (String.length s).
Proof.
  unfold padStart. rewrite string_length_app, repeatChar_length. lia.
Qed.

(** ** Account balance and account ledger *)

Lemma getAccountBalance_net (coll : list GeneralLedgerSchema.t) (code : string)
    (asOfDate : Date) :
  GeneralLedger.abBalance (GeneralLedger.getAccountBalance coll code asOfDate)
  == net (filter (GeneralLedger.matchAccountAsOf code asOfDate) coll).
Proof.
  unfold GeneralLedger.getAccountBalance, GeneralLedger.group.
  assert (Hcode : forall r,
             In r (filter (GeneralLedger.matchAccountAsOf code asOfDate) coll) ->
             GeneralLedgerSchema.accountCode r = code).
  { intros r Hr. apply filter_In in Hr. destruct Hr as [_ Hm].
    unfold GeneralLedger.matchAccountAsOf in Hm.
    apply andb_true_iff in Hm. destruct Hm as [Hm _].
    apply andb_true_iff in Hm. destruct Hm as [Hm _].
    apply String.eqb_eq. exact Hm. }
  destruct (filter (GeneralLedger.matchAccountAsOf code asOfDate) coll)
    as [|r rows]; simpl.
  - unfold net; simpl. lra.
  - destruct (group_same_key String.eqb GeneralLedgerSchema.accountCode rows
                (GeneralLedger.mkGroup (GeneralLedgerSchema.accountCode r)
                   (GeneralLedgerSchema.accountName r)
                   (GeneralLedgerSchema.accountType r)
                   (0 + GeneralLedgerSchema.debit r)
                   (0 + GeneralLedgerSchema.credit r)))
      as (g' & Hf & _ & Hn).
    { intros r' Hr'. simpl. apply String.eqb_eq.
      rewrite (Hcode r (or_introl eq_refl)), (Hcode r' (or_intror Hr')).
      reflexivity. }
    rewrite Hf. simpl. rewrite Hn. unfold net, movement; simpl. lra.
Qed.

Lemma walk_final (es : list GeneralLedgerSchema.t) (b : Q) :
  snd (GeneralLedger.walk b es) == b + net es.
Proof.
  revert b. induction es as [|e es IH]; intros b; simpl.
  - unfold net; simpl. lra.
  - specialize (IH (b + (GeneralLedgerSchema.debit e
                         - GeneralLedgerSchema.credit e))).
    destruct (GeneralLedger.walk _ es) as [out final]. simpl in *.
    rewrite IH. unfold net, movement; simpl. lra.
Qed.

Lemma getAccountLedger_closing (coll : list GeneralLedgerSchema.t)
    (code : string) (startDate endDate : option Date) :
  let l := GeneralLedger.getAccountLedger coll code startDate endDate in
  GeneralLedger.closingBalance l
  == GeneralLedger.openingBalance l
     + net (filter (fun r => String.eqb (GeneralLedgerSchema.accountCode r) code
                             && LedgerStatus_eqb (GeneralLedgerSchema.status r)
                                  Active
                             && GeneralLedger.inRange startDate endDate
                                  (GeneralLedgerSchema.date r))
                   coll).
Proof.
  unfold GeneralLedger.getAccountLedger.
  match goal with
  | |- context [GeneralLedger.walk ?b ?es] =>
      pose proof (walk_final es b) as H;
      destruct (GeneralLedger.walk b es) as [out final]
  end.
  simpl in *. rewrite H. unfold net. rewrite sumOf_sortBy. lra.
Qed.

(** Rows up to the start date plus rows of the range count the boundary
    rows twice. *)
Lemma boundary_counted_twice (coll : list GeneralLedgerSchema.t)
    (code : string) (s e : Date) :
  DateOrder.leb s e = true ->
  net (filter (GeneralLedger.matchAccountAsOf code s) coll)
  + net (filter (fun r => String.eqb (GeneralLedgerSchema.accountCode r) code
                          && LedgerStatus_eqb (GeneralLedgerSchema.status r)
                               Active
                          && GeneralLedger.inRange (Some s) (Some e)
                               (GeneralLedgerSchema.date r))
                coll)
  == net (filter (GeneralLedger.matchAccountAsOf code e) coll)
     + net (boundaryRows coll code s).
Proof.
  intros Hse. unfold boundaryRows, GeneralLedger.matchAccountAsOf,
    GeneralLedger.inRange, DateOrder.geb, net.
  induction coll as [|r coll IH]; simpl; [lra |].
  destruct (String.eqb (GeneralLedgerSchema.accountCode r) code); simpl;
    [| exact IH].
  destruct (LedgerStatus_eqb (GeneralLedgerSchema.status r) Active);
    [| rewrite !andb_false_r; simpl; exact IH].
  rewrite !andb_true_r. simpl.
  assert (Hcases :
            (DateOrder.leb (GeneralLedgerSchema.date r) s = true
             /\ DateOrder.leb s (GeneralLedgerSchema.date r) = true
             /\ DateOrder.leb (GeneralLedgerSchema.date r) e = true)
            \/ (DateOrder.leb (GeneralLedgerSchema.date r) s = true
                /\ DateOrder.leb s (GeneralLedgerSchema.date r) = false
                /\ DateOrder.leb (GeneralLedgerSchema.date r) e = true)
            \/ (DateOrder.leb (GeneralLedgerSchema.date r) s = false
                /\ DateOrder.leb s (GeneralLedgerSchema.date r) = true)).
  { destruct (DateOrder.leb (GeneralLedgerSchema.date r) s) eqn:H1;
      destruct (DateOrder.leb s (GeneralLedgerSchema.date r)) eqn:H2.
    - left. repeat split.
      apply DateOrder_leb_iff in H1, H2.
      destruct H1 as [->|H1]; [exact Hse |].
      destruct H2 as [<-|H2]; [exact Hse |].
      elim (dateLt_asym _ _ H1 H2).
    - right; left. repeat split.
      apply DateOrder_leb_iff. apply DateOrder_leb_iff in H1, Hse.
      destruct H1 as [->|H1]; [exact Hse |].
      destruct Hse as [<-|Hse]; [right; exact H1 |].
      right. apply dateLt_trans with s; assumption.
    - right; right. split; reflexivity.
    - apply DateOrder_leb_false_iff in H1, H2.
      elim (dateLt_asym _ _ H1 H2). }
  destruct Hcases as [(-> & -> & ->)|[(-> & -> & ->)|(-> & ->)]]; simpl.
  - fold (movement r). lra.
  - fold (movement r). lra.
  - destruct (DateOrder.leb (GeneralLedgerSchema.date r) e); simpl;
      fold (movement r); lra.
Qed.

Lemma getAccountLedger_opening (coll : list GeneralLedgerSchema.t)
    (code : string) (startDate : Date) (endDate : option Date) :
  GeneralLedger.openingBalance
    (GeneralLedger.getAccountLedger coll code (Some startDate) endDate)
  = GeneralLedger.abBalance
      (GeneralLedger.getAccountBalance coll code startDate).
Proof.
  unfold GeneralLedger.getAccountLedger.
  destruct (GeneralLedger.walk _ _) as [out final]. reflexivity.
Qed.

Lemma getAccountLedger_closing_formula (coll : list GeneralLedgerSchema.t)
    (code : string) (startDate endDate : Date) :
  DateOrder.leb startDate endDate = true ->
  GeneralLedger.closingBalance
    (GeneralLedger.getAccountLedger coll code (Some startDate) (Some endDate))
  == GeneralLedger.abBalance
       (GeneralLedger.getAccountBalance coll code endDate)
     + net (boundaryRows coll code startDate).
Proof.
  intros Hse.
  pose proof (getAccountLedger_closing coll code (Some startDate)
                (Some endDate)) as Hc.
  cbv zeta in Hc. rewrite Hc, getAccountLedger_opening.
  rewrite !getAccountBalance_net.
  apply boundary_counted_twice. exact Hse.
Qed.

(** C9, amended. For startDate <= endDate the closing balance of
    getAccountLedger is the aggregate balance of the account through
    endDate plus the net movement of the Active rows dated exactly
    startDate. It therefore equals the aggregate balance exactly when
    that net movement is zero, and differs from it when the account has
    a single boundary row with nonzero debit - credit. *)
Theorem getAccountLedger_boundary (coll : list GeneralLedgerSchema.t)
    (code : string) (startDate endDate : Date) :
  DateOrder.leb startDate endDate = true ->
  let closing :=
    GeneralLedger.closingBalance
      (GeneralLedger.getAccountLedger coll code (Some startDate)
         (Some endDate)) in
  let aggregate :=
    GeneralLedger.abBalance
      (GeneralLedger.getAccountBalance coll code endDate) in
  closing == aggregate + net (boundaryRows coll code startDate)
  /\ (closing == aggregate <-> net (boundaryRows coll code startDate) == 0)
  /\ (forall r, boundaryRows coll code startDate = [r] ->
                ~ movement r == 0 -> ~ closing == aggregate).
Proof.
  intros Hse closing aggregate.
  pose proof (getAccountLedger_closing_formula coll code startDate endDate
                Hse) as H.
  fold closing aggregate in H.
  split; [exact H |]. split.
  - split; intros H0; lra.
  - intros r Hr Hm H0. rewrite Hr in H. unfold net in H. simpl in H.
    apply Hm. lra.
Qed.

(** C9, witness: the cash account after the cash sale. *)
Lemma getAccountLedger_boundary_witness :
  DateOrder.leb Scenario.jan15 Scenario.jun30 = true
  /\ GeneralLedger.closingBalance
       (GeneralLedger.getAccountLedger (generalLedger Scenario.afterSale)
          "1000" (Some Scenario.jan15) (Some Scenario.jun30))
     == GeneralLedger.abBalance
          (GeneralLedger.getAccountBalance (generalLedger Scenario.afterSale)
             "1000" Scenario.jun30)
        + net (boundaryRows (generalLedger Scenario.afterSale) "1000"
                 Scenario.jan15).
Proof.
  split; [reflexivity |].
  refine (proj1 (getAccountLedger_boundary (generalLedger Scenario.afterSale)
                   "1000" Scenario.jan15 Scenario.jun30 _)).
  reflexivity.
Defined.

(** C9, counterexample: an entry moving 100 into and out of cash leaves
    two boundary rows, each with nonzero debit - credit, and a closing
    balance equal to the aggregate balance. *)
Lemma boundary_rows_cancel_counterexample :
  (exists r,
     In r (generalLedger Scenario.afterWash)
     /\ GeneralLedgerSchema.accountCode r = "1000"%string
     /\ GeneralLedgerSchema.status r = Active
     /\ GeneralLedgerSchema.date r = Scenario.jan15
     /\ ~ movement r == 0)
  /\ GeneralLedger.closingBalance
       (AccountingService.getAccountLedger Scenario.afterWash "1000"
          (Some Scenario.jan15) (Some Scenario.jun30))
     == GeneralLedger.abBalance
          (AccountingService.getAccountBalance Scenario.afterWash "1000"
             Scenario.jun30).
Proof.
  split.
  - eexists. split; [left; reflexivity |]. repeat split. vm_compute.
    discriminate.
  - vm_compute. reflexivity.
Qed.

(** ** Document validation *)

Lemma JournalEntry_validate_spec (d : JournalEntrySchema.t) :
  JournalEntry.validate d = true ->
  presentString (JournalEntrySchema.tenantId d) = true
  /\ (2 <= List.length (JournalEntrySchema.lines d))%nat
  /\ JournalEntrySchema.createdBy d <> None.
Proof.
  unfold JournalEntry.validate. rewrite !andb_true_iff.
  intros ((((((Ht & _) & Hl) & _) & _) & _) & Hc).
  split; [exact Ht |]. split; [apply Nat.leb_le; exact Hl |].
  destruct (JournalEntrySchema.createdBy d); [discriminate | discriminate].
Qed.

Lemma GeneralLedger_validate_tenant (r : GeneralLedgerSchema.t) :
  GeneralLedgerSchema.tenantId r = None -> GeneralLedger.validate r = false.
Proof. unfold GeneralLedger.validate. intros ->. reflexivity. Qed.

Lemma castFrom_tenant (n : ObjectId) (now : Date) (os : list LedgerObject.t) :
  Forall (fun o => LedgerObject.tenantId o = None) os ->
  os <> [] ->
  forallb GeneralLedger.validate (GeneralLedger.castFrom n now os) = false.
Proof.
  intros H Hne. destruct os as [|o os]; [congruence |].
  inversion H as [|? ? Ho _]; subst. simpl.
  rewrite GeneralLedger_validate_tenant; [reflexivity | exact Ho].
Qed.

Lemma insertMany_without_tenant (db : Db) (now : Date) (ledgerUp : bool)
    (os : list LedgerObject.t) :
  Forall (fun o => LedgerObject.tenantId o = None) os ->
  os <> [] ->
  GeneralLedger.insertMany db now ledgerUp os = inl ValidationError.
Proof.
  intros H Hne. unfold GeneralLedger.insertMany.
  rewrite (castFrom_tenant _ _ _ H Hne). reflexivity.
Qed.

(** ** The poster *)

Lemma ledgerEntries_fields (ledger : list GeneralLedgerSchema.t)
    (journalEntry : JournalEntrySchema.t) :
  Forall (fun o => LedgerObject.tenantId o = None
                   /\ LedgerObject.fiscalYear o = None
                   /\ LedgerObject.fiscalPeriod o = None)
    (AccountingService.ledgerEntries ledger journalEntry).
Proof.
  unfold AccountingService.ledgerEntries. apply Forall_map, Forall_forall.
  intros line _. repeat split.
Qed.

Lemma ledgerEntries_no_tenant (ledger : list GeneralLedgerSchema.t)
    (journalEntry : JournalEntrySchema.t) :
  Forall (fun o => LedgerObject.tenantId o = None)
    (AccountingService.ledgerEntries ledger journalEntry).
Proof.
  eapply Forall_impl; [| apply ledgerEntries_fields]. intros o H. apply H.
Qed.

Lemma postToGeneralLedger_rejected (db : Db) (now : Date) (ledgerUp : bool)
    (journalEntry : JournalEntrySchema.t) :
  JournalEntrySchema.lines journalEntry <> [] ->
  AccountingService.postToGeneralLedger db now ledgerUp journalEntry
  = inl ValidationError.
Proof.
  intros Hne. unfold AccountingService.postToGeneralLedger.
  apply insertMany_without_tenant; [apply ledgerEntries_no_tenant |].
  unfold AccountingService.ledgerEntries.
  destruct (JournalEntrySchema.lines journalEntry); [congruence | discriminate].
Qed.

Lemma ledgerEntry_objectOfLine (ledger : list GeneralLedgerSchema.t)
    (journalEntry : JournalEntrySchema.t) (line : JournalEntryLineSchema.t) :
  objectOfLine ledger line
    (AccountingService.ledgerEntry ledger journalEntry line).
Proof.
  unfold objectOfLine; simpl. repeat split.
  exists (GeneralLedger.findOneLatestActive ledger
            (JournalEntryLineSchema.accountCode line)).
  split; [apply findOneLatestActive_spec |].
  unfold AccountingService.newBalance, AccountingService.previousBalance.
  destruct (JournalEntryLineSchema.accountType line); reflexivity.
Qed.

(** C1, amended. For every line of a journal entry handed to
    postToGeneralLedger, the row object built for it and passed to
    insertMany carries the line's code, debit and credit, the status
    Active and a balance that is the previous balance plus debit minus
    credit when the line is on an Asset or Expense account, and the
    previous balance plus credit minus debit when it is on a Liability,
    Equity or Revenue account. The previous balance is the balance of a
    most recent Active row of the account code in the ledger as stored
    when the call is made, and 0 when there is none. *)
Theorem postToGeneralLedger_running_balance (db : Db) (now : Date)
    (ledgerUp : bool) (journalEntry : JournalEntrySchema.t) :
  AccountingService.postToGeneralLedger db now ledgerUp journalEntry
  = GeneralLedger.insertMany db now ledgerUp
      (AccountingService.ledgerEntries (generalLedger db) journalEntry)
  /\ Forall2 (objectOfLine (generalLedger db))
       (JournalEntrySchema.lines journalEntry)
       (AccountingService.ledgerEntries (generalLedger db) journalEntry).
Proof.
  split; [reflexivity |].
  unfold AccountingService.ledgerEntries.
  induction (JournalEntrySchema.lines journalEntry) as [|line ls IH]; simpl;
    constructor; [apply ledgerEntry_objectOfLine | exact IH].
Qed.

(** C1, counterexample: on the empty ledger the row object built for the
    Revenue line of the cash sale, which credits 100, carries the balance
    100, not 0 + 0 - 100. *)
Lemma postToGeneralLedger_sign_counterexample :
  let line := JournalEntryLineSchema.cast (Scenario.sales None (Some 100)) in
  let o := AccountingService.ledgerEntry [] Scenario.postedSale line in
  In line (JournalEntrySchema.lines Scenario.postedSale)
  /\ In o (AccountingService.ledgerEntries [] Scenario.postedSale)
  /\ LedgerObject.balance o == 100
  /\ ~ LedgerObject.balance o
       == AccountingService.previousBalance []
            (JournalEntryLineSchema.accountCode line)
          + JournalEntryLineSchema.debit line
          - JournalEntryLineSchema.credit line.
Proof.
  cbv zeta. split; [right; left; reflexivity |].
  split; [right; left; reflexivity |].
  split; [vm_compute; reflexivity |]. vm_compute. discriminate.
Qed.

(** ** What [create] checks and keeps *)

Lemma preSave_fields (coll : list JournalEntrySchema.t) (now : Date)
    (d d' : JournalEntrySchema.t) :
  JournalEntry.preSave coll now d = inr d' ->
  JournalEntrySchema._id d' = JournalEntrySchema._id d
  /\ JournalEntrySchema.date d' = JournalEntrySchema.date d
  /\ JournalEntrySchema.lines d' = JournalEntrySchema.lines d
  /\ JournalEntrySchema.isPosted d' = JournalEntrySchema.isPosted d
  /\ JournalEntrySchema.status d' = JournalEntrySchema.status d.
Proof.
  unfold JournalEntry.preSave, JournalEntry.preSaveValidate, bind.
  destruct (JournalEntry.exceeds _ _); [discriminate |].
  destruct (JournalEntry.checkLines _); [discriminate |].
  intros H. injection H as <-.
  unfold JournalEntry.preSaveEntryNumber. simpl.
  destruct (JournalEntrySchema.entryNumber d) as [[|c s]|]; simpl; auto.
Qed.

Lemma create_inr (db db1 : Db) (now : Date) (o : EntryObject.t)
    (d : JournalEntrySchema.t) :
  JournalEntry.create db now o = inr (db1, d) ->
  JournalEntry.validate (JournalEntry.cast (nextId db) now o) = true
  /\ EntryObject.totalDebit o <> None
  /\ EntryObject.totalCredit o <> None
  /\ JournalEntry.preSave (journalEntries db) now
       (JournalEntry.cast (nextId db) now o) = inr d
  /\ db1 = mkDb (journalEntries db ++ [d]) (generalLedger db)
             (chartOfAccounts db) (S (nextId db)).
Proof.
  unfold JournalEntry.create.
  destruct (isSome (EntryObject.totalDebit o)) eqn:Hd; [| discriminate].
  destruct (isSome (EntryObject.totalCredit o)) eqn:Hc; [| discriminate].
  destruct (JournalEntry.validate _) eqn:Hv; [| discriminate].
  simpl. unfold bind.
  destruct (JournalEntry.preSave _ _ _) as [e|d0] eqn:Hp; [discriminate |].
  intros H. injection H as <- <-.
  split; [reflexivity |].
  split; [destruct (EntryObject.totalDebit o); [discriminate | discriminate] |].
  split; [destruct (EntryObject.totalCredit o); [discriminate | discriminate] |].
  split; reflexivity.
Qed.

Lemma create_fields (db db1 : Db) (now : Date) (o : EntryObject.t)
    (d : JournalEntrySchema.t) :
  JournalEntry.create db now o = inr (db1, d) ->
  journalEntries db1 = journalEntries db ++ [d]
  /\ generalLedger db1 = generalLedger db
  /\ chartOfAccounts db1 = chartOfAccounts db
  /\ JournalEntrySchema._id d = nextId db
  /\ JournalEntrySchema.date d
     = match EntryObject.date o with Some x => x | None => now end
  /\ JournalEntrySchema.lines d
     = map JournalEntryLineSchema.cast (EntryObject.lines o)
  /\ JournalEntrySchema.isPosted d
     = match EntryObject.isPosted o with Some b => b | None => true end
  /\ (2 <= List.length (JournalEntrySchema.lines d))%nat.
Proof.
  intros H. apply create_inr in H. destruct H as (Hv & _ & _ & Hp & ->).
  apply preSave_fields in Hp. simpl in Hp.
  destruct Hp as (H1 & H2 & H3 & H4 & _).
  apply JournalEntry_validate_spec in Hv. destruct Hv as (_ & Hl & _).
  simpl in Hl. rewrite H3. simpl. auto 10.
Qed.

Lemma raw_totals (ls : list LineObject.t) :
  JournalEntry.sumDebit (map JournalEntryLineSchema.cast ls)
  = AccountingService.rawDebit ls
  /\ JournalEntry.sumCredit (map JournalEntryLineSchema.cast ls)
     = AccountingService.rawCredit ls.
Proof.
  unfold JournalEntry.sumDebit, JournalEntry.sumCredit,
    AccountingService.rawDebit, AccountingService.rawCredit.
  split.
  - generalize 0. induction ls as [|l ls IH]; intros a; simpl; [auto |].
    apply IH.
  - generalize 0. induction ls as [|l ls IH]; intros a; simpl; [auto |].
    apply IH.
Qed.

Lemma preSave_error_kind (coll : list JournalEntrySchema.t) (now : Date)
    (d : JournalEntrySchema.t) (e : Error) :
  JournalEntry.preSave coll now d = inl e ->
  isBalanceError e
  = JournalEntry.exceeds
      (Qabs (JournalEntry.sumDebit (JournalEntrySchema.lines d)
             - JournalEntry.sumCredit (JournalEntrySchema.lines d)))
      JournalEntry.tolerance.
Proof.
  unfold JournalEntry.preSave, JournalEntry.preSaveValidate, bind.
  destruct (JournalEntry.exceeds _ _) eqn:Hx.
  - intros H. injection H as <-. reflexivity.
  - destruct (JournalEntry.checkLines _) as [e'|[]] eqn:Hc; [| discriminate].
    intros H. injection H as <-.
    apply checkLines_not_balance_error in Hc. exact Hc.
Qed.

Lemma create_error_kind (db : Db) (now : Date) (o : EntryObject.t)
    (e : Error) :
  JournalEntry.create db now o = inl e ->
  isBalanceError e = true ->
  JournalEntry.exceeds
    (Qabs (AccountingService.rawDebit (EntryObject.lines o)
           - AccountingService.rawCredit (EntryObject.lines o)))
    JournalEntry.tolerance = true.
Proof.
  unfold JournalEntry.create.
  destruct (isSome _ && isSome _ && JournalEntry.validate _);
    [| intros H; injection H as <-; discriminate].
  unfold bind.
  destruct (JournalEntry.preSave _ _ _) as [e'|d] eqn:Hp; [| discriminate].
  intros H. injection H as <-. intros Hb.
  apply preSave_error_kind in Hp.
  change (JournalEntrySchema.lines (JournalEntry.cast _ _ _))
    with (map JournalEntryLineSchema.cast (EntryObject.lines o)) in Hp.
  destruct (raw_totals (EntryObject.lines o)) as [Hd Hc].
  rewrite Hd, Hc in Hp. congruence.
Qed.

Lemma preSave_error_not_storage (coll : list JournalEntrySchema.t) (now : Date)
    (d : JournalEntrySchema.t) :
  JournalEntry.preSave coll now d <> inl StorageError.
Proof.
  unfold JournalEntry.preSave, JournalEntry.preSaveValidate, bind.
  destruct (JournalEntry.exceeds _ _); [discriminate |].
  destruct (JournalEntry.checkLines _) as [e|[]] eqn:Hc; [| discriminate].
  intros H. injection H as ->.
  assert (Hk : forall ls, JournalEntry.checkLines ls <> inl StorageError).
  { induction ls as [|l ls IH]; simpl; [discriminate |].
    destruct (isPositive _ && isPositive _); [discriminate |].
    destruct (isZero _ && isZero _); [discriminate | exact IH]. }
  exact (Hk _ Hc).
Qed.

Lemma create_error_not_storage (db : Db) (now : Date) (o : EntryObject.t) :
  JournalEntry.create db now o <> inl StorageError.
Proof.
  unfold JournalEntry.create.
  destruct (isSome _ && isSome _ && JournalEntry.validate _);
    [| discriminate].
  unfold bind.
  destruct (JournalEntry.preSave _ _ _) as [e|d] eqn:Hp; [| discriminate].
  intros H. injection H as ->. exact (preSave_error_not_storage _ _ _ Hp).
Qed.

(** ** createJournalEntry never posts *)

(** What the [try] block of [createJournalEntry] ends with. *)
Lemma createJournalEntryBody_fails (db : Db) (now : Date) (ledgerUp : bool)
    (entryData : EntryObject.t) (userId : ObjectId) :
  exists e,
    AccountingService.createJournalEntryBody db now ledgerUp entryData userId
    = inl e
    /\ e <> StorageError
    /\ (isBalanceError e
        = JournalEntry.exceeds
            (Qabs (AccountingService.rawDebit (EntryObject.lines entryData)
                   - AccountingService.rawCredit
                       (EntryObject.lines entryData)))
            JournalEntry.tolerance).
Proof.
  unfold AccountingService.createJournalEntryBody.
  destruct (JournalEntry.exceeds _ _) eqn:Hx.
  - eexists. split; [reflexivity |]. split; [discriminate | reflexivity].
  - unfold bind at 1.
    destruct (JournalEntry.create _ _ _) as [e|[db1 d]] eqn:Hc.
    + exists e. split; [reflexivity |]. split.
      * intros ->. exact (create_error_not_storage _ _ _ Hc).
      * destruct (isBalanceError e) eqn:Hb; [| reflexivity].
        pose proof (create_error_kind _ _ _ _ Hc Hb) as H.
        unfold AccountingService.withTotals in H.
        cbn [EntryObject.lines] in H. rewrite Hx in H. discriminate H.
    + apply create_fields in Hc. simpl in Hc.
      destruct Hc as (_ & _ & _ & _ & _ & _ & Hp & Hl). simpl.
      rewrite Hp. unfold bind.
      rewrite postToGeneralLedger_rejected.
      * eexists. split; [reflexivity |]. split; [discriminate | reflexivity].
      * destruct (JournalEntrySchema.lines d); [simpl in Hl; lia | discriminate].
Qed.

Lemma createJournalEntry_fails (db : Db) (now : Date) (ledgerUp : bool)
    (entryData : EntryObject.t) (userId : ObjectId) :
  exists e,
    AccountingService.createJournalEntry db now ledgerUp entryData userId
    = (db, inl e)
    /\ e <> StorageError
    /\ (isBalanceError e
        = JournalEntry.exceeds
            (Qabs (AccountingService.rawDebit (EntryObject.lines entryData)
                   - AccountingService.rawCredit
                       (EntryObject.lines entryData)))
            JournalEntry.tolerance).
Proof.
  destruct (createJournalEntryBody_fails db now ledgerUp entryData userId)
    as (e & He & Hs & Hb).
  exists e. unfold AccountingService.createJournalEntry. rewrite He. auto.
Qed.

(** ** Databases produced by the service *)




(** ** Reversal *)

Lemma create_reversalObject (db : Db) (now : Date) (this : JournalEntrySchema.t)
    (userId : ObjectId) (reason : option string) :
  JournalEntry.create db now
    (JournalEntry.reversalObject now this userId reason)
  = inl ValidationError.
Proof. reflexivity. Qed.

Lemma reverse_fails (db : Db) (now : Date) (this : JournalEntrySchema.t)
    (userId : ObjectId) (reason : option string) :
  JournalEntry.reverse db now this userId reason
  = (db, inl (if EntryStatus_eqb (JournalEntrySchema.status this) Posted
              then ValidationError else OnlyPostedCanBeReversed)).
Proof.
  unfold JournalEntry.reverse. rewrite create_reversalObject.
  destruct (EntryStatus_eqb _ _); reflexivity.
Qed.

Lemma reverseJournalEntry_fails (db : Db) (now : Date) (ledgerUp : bool)
    (entryId userId : ObjectId) (reason : option string) :
  AccountingService.reverseJournalEntry db now ledgerUp entryId userId reason
  = (db, inl match JournalEntry.findById (journalEntries db) entryId with
             | None => EntryNotFound
             | Some entry =>
                 if EntryStatus_eqb (JournalEntrySchema.status entry) Posted
                 then ValidationError else OnlyPostedCanBeReversed
             end).
Proof.
  unfold AccountingService.reverseJournalEntry.
  destruct (JournalEntry.findById _ _) as [entry|]; [| reflexivity].
  rewrite reverse_fails. reflexivity.
Qed.

Lemma reversalLine_swapped (line : JournalEntryLineSchema.t) :
  swapped line (JournalEntryLineSchema.cast (JournalEntry.reversalLine line)).
Proof. unfold swapped. simpl. auto 10. Qed.

(** C3, the behaviour of the code. For a stored Posted entry E the
    object that reverse hands to JournalEntry.create has E's lines with
    debit and credit swapped, but neither tenantId nor totalDebit nor
    totalCredit, which the schema requires: the creation is rejected, so
    reverseJournalEntry fails with the validation error and leaves
    journal, ledger and chart as they were. No reversal entry E' is
    produced and E stays Posted. *)
Theorem reversal_entry_rejected (db : Db) (now : Date) (ledgerUp : bool)
    (entryId userId : ObjectId) (reason : option string)
    (entry : JournalEntrySchema.t) :
  JournalEntry.findById (journalEntries db) entryId = Some entry ->
  JournalEntrySchema.status entry = Posted ->
  let o := JournalEntry.reversalObject now entry userId reason in
  Forall2 swapped (JournalEntrySchema.lines entry)
    (map JournalEntryLineSchema.cast (EntryObject.lines o))
  /\ EntryObject.tenantId o = None
  /\ EntryObject.totalDebit o = None
  /\ EntryObject.totalCredit o = None
  /\ JournalEntry.create db now o = inl ValidationError
  /\ AccountingService.reverseJournalEntry db now ledgerUp entryId userId
       reason
     = (db, inl ValidationError).
Proof.
  intros Hf Hs. cbv zeta. split.
  { simpl. induction (JournalEntrySchema.lines entry) as [|l ls IH]; simpl;
      constructor; [apply reversalLine_swapped | exact IH]. }
  repeat (split; [reflexivity |]).
  rewrite reverseJournalEntry_fails, Hf, Hs. reflexivity.
Qed.

(** C3, instance: the reversal of the stored cash sale. *)
Lemma reversal_entry_rejected_witness :
  JournalEntry.findById (journalEntries Scenario.afterSale) 0%nat
  = Some Scenario.postedSale
  /\ JournalEntrySchema.status Scenario.postedSale = Posted
  /\ AccountingService.reverseJournalEntry Scenario.afterSale Scenario.jun30
       true 0%nat Scenario.user (Some "invoice cancelled")
     = (Scenario.afterSale, inl ValidationError).
Proof.
  split; [reflexivity |]. split; [reflexivity |].
  exact (proj2 (proj2 (proj2 (proj2 (proj2
           (reversal_entry_rejected Scenario.afterSale Scenario.jun30 true
              0%nat Scenario.user (Some "invoice cancelled")
              Scenario.postedSale eq_refl eq_refl)))))).
Defined.




(** ** The balance check of createJournalEntry *)

Lemma createJournalEntryBody_balance (db : Db) (now : Date) (ledgerUp : bool)
    (entryData : EntryObject.t) (userId : ObjectId) :
  (exists td tc,
     AccountingService.createJournalEntryBody db now ledgerUp entryData userId
     = inl (NotBalanced td tc))
  <-> 1 # 100 < Qabs (AccountingService.rawDebit (EntryObject.lines entryData)
                      - AccountingService.rawCredit
                          (EntryObject.lines entryData)).
Proof.
  destruct (createJournalEntryBody_fails db now ledgerUp entryData userId)
    as (e & He & _ & Hb).
  rewrite He. rewrite <- exceeds_iff.
  fold JournalEntry.tolerance. rewrite <- Hb. split.
  - intros (td & tc & H). injection H as ->. reflexivity.
  - destruct e; try discriminate. intros _. eexists. eexists. reflexivity.
Qed.

(** C6, the behaviour of the code. createJournalEntry fails with the
    'not balanced' error exactly when the sums of the submitted debits
    and credits differ by more than 0.01, and whatever it answers the
    database is unchanged. The lines [debit 100; credit 99] are rejected
    with NotBalanced 100 99. The lines [debit 100; credit 100], sent
    with tenant, date, type and description, are rejected as well:
    JournalEntry.create accepts the entry, and the posting of its rows
    fails with the validation error. *)
Theorem createJournalEntry_balance_check (db : Db) (now : Date)
    (ledgerUp : bool) (entryData : EntryObject.t) (userId : ObjectId) :
  let out := AccountingService.createJournalEntry db now ledgerUp entryData
               userId in
  ((exists td tc, snd out = inl (NotBalanced td tc))
   <-> 1 # 100 < Qabs (AccountingService.rawDebit (EntryObject.lines entryData)
                       - AccountingService.rawCredit
                           (EntryObject.lines entryData)))
  /\ fst out = db
  /\ AccountingService.createJournalEntry emptyDb Scenario.jan15 true
       Scenario.unbalancedSale Scenario.user
     = (emptyDb, inl (NotBalanced 100 99))
  /\ AccountingService.createJournalEntry emptyDb Scenario.jan15 true
       Scenario.cashSale Scenario.user
     = (emptyDb, inl ValidationError)
  /\ (exists db1 journalEntry,
        JournalEntry.create emptyDb Scenario.jan15 Scenario.cashSaleObject
        = inr (db1, journalEntry)
        /\ AccountingService.postToGeneralLedger db1 Scenario.jan15 true
             journalEntry = inl ValidationError).
Proof.
  cbv zeta. split; [| split; [| split; [| split]]].
  - rewrite <- createJournalEntryBody_balance
      with (db := db) (now := now) (ledgerUp := ledgerUp) (userId := userId).
    unfold AccountingService.createJournalEntry.
    destruct (AccountingService.createJournalEntryBody _ _ _ _ _)
      as [e|[db' d]]; simpl.
    + split; intros (td & tc & H); exists td, tc; congruence.
    + split; intros (td & tc & H); discriminate.
  - destruct (createJournalEntry_fails db now ledgerUp entryData userId)
      as (e & -> & _). reflexivity.
  - vm_compute. reflexivity.
  - vm_compute. reflexivity.
  - eexists. eexists. split; vm_compute; reflexivity.
Qed.

(** ** Entry numbers *)

Lemma geb_january1 (d : Date) (y : Z) :
  wellFormedDate d ->
  DateOrder.geb d (january1 y) = true <-> (countingYear y <= getFullYear d)%Z.
Proof.
  intros [Hm Hs]. unfold DateOrder.geb. rewrite DateOrder_leb_iff.
  unfold january1, countingYear.
  set (y' := if (0 <=? y)%Z && (y <=? 99)%Z then (1900 + y)%Z else y).
  unfold dateLt; simpl. split.
  - intros [H|H]; [subst d; simpl; lia | lia].
  - intros H.
    destruct (Z.eq_dec y' (getFullYear d)) as [E|E]; [| right; lia].
    destruct (Z.eq_dec (getMonth d) 0) as [E1|E1]; [| right; lia].
    destruct (Z.eq_dec (sinceMonthStart d) 0) as [E2|E2]; [| right; lia].
    left. apply Date_eq; simpl; lia.
Qed.

Lemma countDocumentsFrom_january1 (coll : list JournalEntrySchema.t) (y : Z) :
  Forall (fun e => wellFormedDate (JournalEntrySchema.date e)) coll ->
  JournalEntry.countDocumentsFrom coll (january1 y)
  = entriesFromYear coll (countingYear y).
Proof.
  unfold JournalEntry.countDocumentsFrom, entriesFromYear. intros H.
  f_equal. apply filter_ext_in. intros e He.
  rewrite Forall_forall in H. specialize (H e He).
  destruct (Z.leb_spec (countingYear y)
              (getFullYear (JournalEntrySchema.date e))) as [L|L].
  - apply geb_january1; assumption.
  - destruct (DateOrder.geb _ _) eqn:G; [| reflexivity].
    apply geb_january1 in G; [lia | assumption].
Qed.

Lemma preSave_entryNumber (coll : list JournalEntrySchema.t) (now : Date)
    (d d' : JournalEntrySchema.t) :
  JournalEntry.preSave coll now d = inr d' ->
  JournalEntrySchema.entryNumber d = None
  \/ JournalEntrySchema.entryNumber d = Some EmptyString ->
  JournalEntrySchema.entryNumber d'
  = Some (JournalEntry.formatEntryNumber
            (getFullYear (JournalEntrySchema.date d))
            (JournalEntry.countDocumentsFrom coll
               (january1 (getFullYear (JournalEntrySchema.date d))))).
Proof.
  unfold JournalEntry.preSave, JournalEntry.preSaveValidate, bind.
  destruct (JournalEntry.exceeds _ _); [discriminate |].
  destruct (JournalEntry.checkLines _); [discriminate |].
  intros H Hnum. injection H as <-.
  unfold JournalEntry.preSaveEntryNumber. simpl.
  destruct Hnum as [-> | ->]; reflexivity.
Qed.

(** C7, amended. An entry created without an entry number receives
    JE-<year>-<sequence>, where year is the calendar year of its date and
    sequence is the decimal rendering, left-padded with zeros to at least
    six characters, of one plus the number of existing journal entries,
    of whatever tenant, whose date falls in the year of the counting
    start or in a later one. The counting starts with the year itself,
    except for the years 0 to 99, for which it starts with 1900 + year. *)
Theorem create_entry_number (db db1 : Db) (now : Date) (o : EntryObject.t)
    (d : JournalEntrySchema.t) :
  JournalEntry.create db now o = inr (db1, d) ->
  EntryObject.entryNumber o = None
  \/ EntryObject.entryNumber o = Some EmptyString ->
  Forall (fun e => wellFormedDate (JournalEntrySchema.date e))
    (journalEntries db) ->
  let year := getFullYear (JournalEntrySchema.date d) in
  let sequence :=
    padStart 6 "0"%char
      (stringOfNat
         (entriesFromYear (journalEntries db) (countingYear year) + 1)) in
  JournalEntrySchema.entryNumber d
  = Some ("JE-" ++ stringOfZ year ++ "-" ++ sequence)%string
  /\ (6 <= String.length sequence)%nat.
Proof.
  intros H Hnum Hwf. cbv zeta. split; [| rewrite padStart_length; lia].
  pose proof (create_fields _ _ _ _ _ H) as (_ & _ & _ & _ & Hd & _).
  apply create_inr in H. destruct H as (_ & _ & _ & Hp & _).
  apply preSave_entryNumber in Hp; [| exact Hnum].
  rewrite Hp. change (JournalEntrySchema.date (JournalEntry.cast _ _ _))
    with (match EntryObject.date o with Some x => x | None => now end).
  rewrite <- Hd. rewrite (countDocumentsFrom_january1 _ _ Hwf). reflexivity.
Qed.

(** C7, instance: the first entry of 2024. *)
Lemma create_entry_number_witness :
  exists db1 d,
    JournalEntry.create emptyDb Scenario.jan15 Scenario.cashSaleObject
    = inr (db1, d)
    /\ JournalEntrySchema.entryNumber d = Some "JE-2024-000001"%string.
Proof.
  eexists. eexists. split; [vm_compute; reflexivity |].
  exact (proj1 (create_entry_number emptyDb _ Scenario.jan15
                  Scenario.cashSaleObject _ eq_refl (or_introl eq_refl)
                  (Forall_nil _))).
Defined.

(** C7, counterexample: with one entry dated 2025 in the collection and
    none dated 2024, an entry created for 2024 is numbered
    JE-2024-000002. *)
Lemma entry_number_counterexample :
  exists db1 d,
    JournalEntry.create Scenario.afterNextYearEntry Scenario.jan15
      Scenario.cashSaleObject = inr (db1, d)
    /\ getFullYear (JournalEntrySchema.date d) = 2024%Z
    /\ entriesOfYear (journalEntries Scenario.afterNextYearEntry) 2024 = 0%nat
    /\ JournalEntrySchema.entryNumber d = Some "JE-2024-000002"%string
    /\ JournalEntrySchema.entryNumber d
       <> Some (JournalEntry.formatEntryNumber 2024
                  (entriesOfYear (journalEntries Scenario.afterNextYearEntry)
                     2024)).
Proof.
  eexists. eexists. split; [vm_compute; reflexivity |].
  repeat split; try reflexivity. vm_compute. discriminate.
Qed.

(** ** Account resolution *)

Lemma getOrCreateAccount_resolved (db : Db) (code name : string)
    (type : AccountType) :
  AccountingService.getOrCreateAccount db code name type
  = (db, match resolved (chartOfAccounts db) code with
         | Some account => inr account
         | None => inl ValidationError
         end).
Proof.
  unfold AccountingService.getOrCreateAccount, resolved.
  destruct (ChartOfAccount.findOneByCode _ _); [reflexivity |].
  destruct (ChartOfAccount.findOneByNestedCode _ _); reflexivity.
Qed.

(** C5, the behaviour of the code. Adding the ledger rows of tenant-b to
    those of tenant-a changes the account balance, the account ledger,
    the trial balance, the balance sheet, the profit and loss statement
    and the previous balance found by the poster. An account of tenant-b
    with code 1000 is what getOrCreateAccount returns; without it the
    call fails. *)
Theorem queries_not_tenant_scoped :
  (* getAccountBalance *)
  (GeneralLedger.abBalance
     (GeneralLedger.getAccountBalance Scenario.ledgerOfA "1000" Scenario.jun30)
   == 100
   /\ GeneralLedger.abBalance
        (GeneralLedger.getAccountBalance Scenario.ledgerOfAandB "1000"
           Scenario.jun30) == 140)
  (* getAccountLedger *)
  /\ (GeneralLedger.closingBalance
        (GeneralLedger.getAccountLedger Scenario.ledgerOfA "1000" None None)
      == 100
      /\ GeneralLedger.closingBalance
           (GeneralLedger.getAccountLedger Scenario.ledgerOfAandB "1000" None
              None) == 140)
  (* getTrialBalance *)
  /\ (GeneralLedger.tbTotalDebit
        (GeneralLedger.getTrialBalance Scenario.ledgerOfA Scenario.jun30)
      == 100
      /\ GeneralLedger.tbTotalDebit
           (GeneralLedger.getTrialBalance Scenario.ledgerOfAandB
              Scenario.jun30) == 140)
  (* getBalanceSheet *)
  /\ (GeneralLedger.total
        (GeneralLedger.assets
           (GeneralLedger.getBalanceSheet Scenario.ledgerOfA Scenario.jun30))
      == 100
      /\ GeneralLedger.total
           (GeneralLedger.assets
              (GeneralLedger.getBalanceSheet Scenario.ledgerOfAandB
                 Scenario.jun30)) == 140)
  (* getProfitAndLoss *)
  /\ (GeneralLedger.total
        (GeneralLedger.revenue
           (GeneralLedger.getProfitAndLoss Scenario.ledgerOfA None
              (Some Scenario.jun30))) == 100
      /\ GeneralLedger.total
           (GeneralLedger.revenue
              (GeneralLedger.getProfitAndLoss Scenario.ledgerOfAandB None
                 (Some Scenario.jun30))) == 140)
  (* the previous-balance lookup of postToGeneralLedger *)
  /\ (AccountingService.previousBalance Scenario.ledgerOfA "1000" == 100
      /\ AccountingService.previousBalance Scenario.ledgerOfAandB "1000" == 40
      /\ option_map GeneralLedgerSchema.tenantId
           (GeneralLedger.findOneLatestActive Scenario.ledgerOfAandB "1000")
         = Some (Some "tenant-b"%string))
  (* getOrCreateAccount *)
  /\ (AccountingService.getOrCreateAccount (Scenario.chartOnly []) "1000"
        "Cash Account" Asset
      = (Scenario.chartOnly [], inl ValidationError)
      /\ AccountingService.getOrCreateAccount
           (Scenario.chartOnly [Scenario.accountOfB]) "1000" "Cash Account"
           Asset
         = (Scenario.chartOnly [Scenario.accountOfB], inr Scenario.accountOfB)
      /\ ChartOfAccountSchema.tenantId Scenario.accountOfB
         = Some "tenant-b"%string).
Proof. repeat split; vm_compute; reflexivity. Qed.

(** ** Fiscal fields *)




(** * Further results *)

(** ** Account resolution *)


Lemma resolved_answers (chart : list ChartOfAccountSchema.t) (code : string)
    (account : ChartOfAccountSchema.t) :
  resolved chart code = Some account ->
  In account chart /\ answersTo code account
  /\ (forall a, In a chart -> ChartOfAccountSchema.code a = Some code ->
        ChartOfAccountSchema.code account = Some code).
Proof.
  unfold resolved.
  destruct (ChartOfAccount.findOneByCode chart code) as [a|] eqn:Hmain.
  - intros H. injection H as <-.
    apply find_some in Hmain. destruct Hmain as [Hin Hc].
    apply codeIs_true in Hc. split; [exact Hin |].
    split; [left; exact Hc | intros; exact Hc].
  - intros Hnested. pose proof (find_none _ _ Hmain) as Hnone.
    apply find_some in Hnested. destruct Hnested as [Hin Hc].
    split; [exact Hin |]. split.
    + apply orb_true_iff in Hc. right.
      destruct Hc as [Hc|Hc]; apply existsb_exists in Hc;
        destruct Hc as (x & Hx & He); apply String.eqb_eq in He;
        [left | right]; exists x; auto.
    + intros a Ha Hca. specialize (Hnone a Ha).
      apply codeIs_true in Hca. congruence.
Qed.

Lemma resolved_none (chart : list ChartOfAccountSchema.t) (code : string) :
  resolved chart code = None <-> forall a, In a chart -> ~ answersTo code a.
Proof.
  split.
  - unfold resolved.
    destruct (ChartOfAccount.findOneByCode chart code) as [a|] eqn:Hmain;
      [discriminate |].
    intros Hnested.
    pose proof (find_none _ _ Hmain) as Hnone.
    pose proof (find_none _ _ Hnested) as Hnone2.
    intros a Ha [Hc|[(s & Hs & He)|(l & Hl & He)]].
    + apply codeIs_true in Hc. specialize (Hnone a Ha). congruence.
    + specialize (Hnone2 a Ha). apply orb_false_iff in Hnone2.
      destruct Hnone2 as [H1 _].
      assert (existsb (fun s0 => String.eqb
                         (ChartOfAccountSchema.subCode s0) code)
                (ChartOfAccountSchema.subAccounts a) = true)
        by (apply existsb_exists; exists s; split; auto;
            apply String.eqb_eq; exact He).
      congruence.
    + specialize (Hnone2 a Ha). apply orb_false_iff in Hnone2.
      destruct Hnone2 as [_ H2].
      assert (existsb (fun l0 => String.eqb
                         (ChartOfAccountSchema.listCode l0) code)
                (ChartOfAccountSchema.listAccounts a) = true)
        by (apply existsb_exists; exists l; split; auto;
            apply String.eqb_eq; exact He).
      congruence.
  - intros H. destruct (resolved chart code) as [a|] eqn:Hr; [| reflexivity].
    apply resolved_answers in Hr. destruct Hr as (Hin & Ha & _).
    elim (H a Hin Ha).
Qed.

(** X2. getOrCreateAccount never changes the database. It returns an
    account exactly when some account of the chart carries the requested
    code as its own code or on a sub-account or list account; the
    account returned is such an account of the chart, and one whose own
    code matches is preferred over one that carries the code on a nested
    account. When no account carries the code the call fails with the
    validation error, the account it tries to create having no
    tenantId. *)
Theorem getOrCreateAccount_resolves (db : Db) (code name : string)
    (type : AccountType) :
  let out := AccountingService.getOrCreateAccount db code name type in
  fst out = db
  /\ ((exists account, snd out = inr account)
      <-> exists a, In a (chartOfAccounts db) /\ answersTo code a)
  /\ (forall account, snd out = inr account ->
        In account (chartOfAccounts db)
        /\ answersTo code account
        /\ (forall a, In a (chartOfAccounts db) ->
              ChartOfAccountSchema.code a = Some code ->
              ChartOfAccountSchema.code account = Some code))
  /\ (forall error, snd out = inl error -> error = ValidationError)
  /\ AccountObject.tenantId (AccountingService.newAccount code name type)
     = None.
Proof.
  cbv zeta. rewrite getOrCreateAccount_resolved. simpl.
  split; [reflexivity |].
  destruct (resolved (chartOfAccounts db) code) as [account|] eqn:Hr.
  - pose proof (resolved_answers _ _ _ Hr) as Ha.
    split; [| split; [| split]].
    + split; [intros _; exists account; tauto | intros _; eauto].
    + intros a H. injection H as <-. exact Ha.
    + intros e H. discriminate H.
    + reflexivity.
  - pose proof (proj1 (resolved_none _ _) Hr) as Hn.
    split; [| split; [| split]].
    + split; [intros (a & H); discriminate H |].
      intros (a & Hin & Ha). elim (Hn a Hin Ha).
    + intros a H. discriminate H.
    + intros e H. injection H as <-. reflexivity.
    + reflexivity.
Qed.

(** ** Rejected journal entries *)

Lemma createJournalEntry_outcome (db : Db) (now : Date) (ledgerUp : bool)
    (entryData : EntryObject.t) (userId : ObjectId) :
  let totalDebit := AccountingService.rawDebit (EntryObject.lines entryData) in
  let totalCredit :=
    AccountingService.rawCredit (EntryObject.lines entryData) in
  AccountingService.createJournalEntry db now ledgerUp entryData userId
  = (db,
     inl (if JournalEntry.exceeds (Qabs (totalDebit - totalCredit))
               JournalEntry.tolerance
          then NotBalanced totalDebit totalCredit
          else match JournalEntry.create db now
                       (AccountingService.withTotals entryData totalDebit
                          totalCredit userId) with
               | inl error => error
               | inr _ => ValidationError
               end)).
Proof.
  cbv zeta. unfold AccountingService.createJournalEntry,
    AccountingService.createJournalEntryBody.
  destruct (JournalEntry.exceeds _ _); [reflexivity |].
  unfold bind at 1.
  destruct (JournalEntry.create _ _ _) as [e|[db1 d]] eqn:Hc; [reflexivity |].
  apply create_fields in Hc. simpl in Hc.
  destruct Hc as (_ & _ & _ & _ & _ & _ & Hp & Hl). cbn [fst snd].
  rewrite Hp. unfold bind.
  rewrite postToGeneralLedger_rejected; [reflexivity |].
  destruct (JournalEntrySchema.lines d); [simpl in Hl; lia | discriminate].
Qed.

(** X3. createJournalEntry never returns an entry and never changes the
    database, whether or not the ledger can be written. It fails with
    the 'not balanced' error when the submitted debits and credits
    differ by more than 0.01; otherwise with the error of
    JournalEntry.create when that rejects the entry; and otherwise with
    the validation error of insertMany, whose row objects have no
    tenantId. *)
Theorem createJournalEntry_rejected (db : Db) (now : Date) (ledgerUp : bool)
    (entryData : EntryObject.t) (userId : ObjectId) :
  let totalDebit := AccountingService.rawDebit (EntryObject.lines entryData) in
  let totalCredit :=
    AccountingService.rawCredit (EntryObject.lines entryData) in
  let out :=
    AccountingService.createJournalEntry db now ledgerUp entryData userId in
  fst out = db
  /\ (forall journalEntry, snd out <> inr journalEntry)
  /\ snd out <> inl StorageError
  /\ (1 # 100 < Qabs (totalDebit - totalCredit) ->
      snd out = inl (NotBalanced totalDebit totalCredit))
  /\ (Qabs (totalDebit - totalCredit) <= 1 # 100 ->
      forall error,
        JournalEntry.create db now
          (AccountingService.withTotals entryData totalDebit totalCredit
             userId) = inl error ->
        snd out = inl error)
  /\ (Qabs (totalDebit - totalCredit) <= 1 # 100 ->
      forall created,
        JournalEntry.create db now
          (AccountingService.withTotals entryData totalDebit totalCredit
             userId) = inr created ->
        snd out = inl ValidationError).
Proof.
  cbv zeta.
  destruct (createJournalEntry_fails db now ledgerUp entryData userId)
    as (e0 & He0 & Hs0 & _).
  pose proof (createJournalEntry_outcome db now ledgerUp entryData userId)
    as H. cbv zeta in H.
  split; [rewrite H; reflexivity |].
  split; [rewrite He0; discriminate |].
  split; [rewrite He0; simpl; congruence |].
  rewrite H. simpl. fold JournalEntry.tolerance.
  split; [| split].
  - intros Hx. apply exceeds_iff in Hx. rewrite Hx. reflexivity.
  - intros Hx e Hc. apply exceeds_false_iff in Hx. rewrite Hx, Hc.
    reflexivity.
  - intros Hx c Hc. apply exceeds_false_iff in Hx. rewrite Hx, Hc.
    reflexivity.
Qed.

Lemma createJournalEntry_without_tenant (db : Db) (now : Date)
    (ledgerUp : bool) (entryData : EntryObject.t) (userId : ObjectId) :
  EntryObject.tenantId entryData = None ->
  AccountingService.createJournalEntry db now ledgerUp entryData userId
  = (db, inl (rejection (EntryObject.lines entryData))).
Proof.
  intros Ht. pose proof (createJournalEntry_outcome db now ledgerUp entryData
                           userId) as H.
  cbv zeta in H. rewrite H. unfold rejection.
  destruct (JournalEntry.exceeds _ _); [reflexivity |].
  unfold JournalEntry.create, JournalEntry.validate.
  cbn [JournalEntry.cast JournalEntrySchema.tenantId
       AccountingService.withTotals EntryObject.tenantId
       EntryObject.totalDebit EntryObject.totalCredit isSome andb].
  rewrite Ht. reflexivity.
Qed.

(** ** Reversal *)

(** X5. reverseJournalEntry fails with 'Journal entry not found' exactly
    when no journal entry has the id, and with 'Only posted entries can
    be reversed' exactly when the entry exists and its status is not
    Posted. In both cases the database is unchanged. *)
Theorem reverseJournalEntry_rejects (db : Db) (now : Date) (ledgerUp : bool)
    (entryId userId : ObjectId) (reason : option string) :
  let out := AccountingService.reverseJournalEntry db now ledgerUp entryId
               userId reason in
  (snd out = inl EntryNotFound
   <-> JournalEntry.findById (journalEntries db) entryId = None)
  /\ (snd out = inl OnlyPostedCanBeReversed
      <-> exists entry,
            JournalEntry.findById (journalEntries db) entryId = Some entry
            /\ JournalEntrySchema.status entry <> Posted)
  /\ (snd out = inl EntryNotFound \/ snd out = inl OnlyPostedCanBeReversed ->
      fst out = db).
Proof.
  cbv zeta. rewrite reverseJournalEntry_fails. simpl.
  destruct (JournalEntry.findById (journalEntries db) entryId) as [entry|].
  - destruct (EntryStatus_eqb (JournalEntrySchema.status entry) Posted)
      eqn:Hs.
    + apply EntryStatus_eqb_eq in Hs.
      split; [split; discriminate |]. split; [| auto].
      split; [discriminate |].
      intros (e & He & Hn). injection He as <-. elim (Hn Hs).
    + split; [split; discriminate |]. split; [| auto].
      split; [| reflexivity]. intros _. exists entry. split; [reflexivity |].
      intros Hp. apply EntryStatus_eqb_eq in Hp. congruence.
  - split; [tauto |]. split; [| auto].
    split; [discriminate | intros (e & He & _); discriminate].
Qed.

(** ** Sorting and grouping by key *)

Section Sorting.
Context {A : Type} (le : A -> A -> bool).
Hypothesis le_total : forall x y, le x y = false -> le y x = true.
Hypothesis le_trans :
  forall x y z, le x y = true -> le y z = true -> le x z = true.

Lemma insertSorted_sorted (x : A) (l : list A) :
  StronglySorted (fun a b => le a b = true) l ->
  StronglySorted (fun a b => le a b = true) (GeneralLedger.insertSorted le x l).
Proof.
  induction 1 as [|y l Hs IH Hy]; simpl.
  - constructor; constructor.
  - destruct (le x y) eqn:E.
    + constructor; [constructor; assumption |].
      constructor; [exact E |].
      eapply Forall_impl; [| exact Hy]. intros z Hz. simpl in Hz.
      apply le_trans with y; assumption.
    + constructor; [exact IH |].
      apply Forall_forall. intros z Hz. apply In_insertSorted in Hz.
      destruct Hz as [->|Hz]; [apply le_total; exact E |].
      rewrite Forall_forall in Hy. apply Hy. exact Hz.
Qed.

Lemma sortBy_sorted (l : list A) :
  StronglySorted (fun a b => le a b = true) (GeneralLedger.sortBy le l).
Proof.
  induction l as [|x l IH]; simpl; [constructor |].
  apply insertSorted_sorted. exact IH.
Qed.

End Sorting.

Lemma insertSorted_Permutation {A : Type} (le : A -> A -> bool) (x : A)
    (l : list A) :
  Permutation (GeneralLedger.insertSorted le x l) (x :: l).
Proof.
  induction l as [|y l IH]; simpl; [reflexivity |].
  destruct (le x y); [reflexivity |].
  rewrite IH. apply perm_swap.
Qed.

Lemma sortBy_Permutation {A : Type} (le : A -> A -> bool) (l : list A) :
  Permutation (GeneralLedger.sortBy le l) l.
Proof.
  induction l as [|x l IH]; simpl; [reflexivity |].
  rewrite insertSorted_Permutation. constructor. exact IH.
Qed.

Lemma ascii_compare_trans (a b c : ascii) (o : comparison) :
  Ascii.compare a b = o -> Ascii.compare b c = o -> Ascii.compare a c = o.
Proof.
  unfold Ascii.compare. intros H1 H2. destruct o.
  - apply N.compare_eq_iff in H1. apply N.compare_eq_iff in H2.
    apply N.compare_eq_iff. congruence.
  - apply N.compare_lt_iff in H1. apply N.compare_lt_iff in H2.
    apply N.compare_lt_iff. eapply N.lt_trans; eauto.
  - apply N.compare_gt_iff in H1. apply N.compare_gt_iff in H2.
    apply N.compare_gt_iff. eapply N.lt_trans; eauto.
Qed.

Lemma string_leb_trans (s1 s2 s3 : string) :
  String.leb s1 s2 = true -> String.leb s2 s3 = true ->
  String.leb s1 s3 = true.
Proof.
  unfold String.leb. revert s2 s3.
  induction s1 as [|c1 s1 IH]; intros [|c2 s2] [|c3 s3]; simpl; auto;
    try discriminate.
  destruct (Ascii.compare c1 c2) eqn:E12; try discriminate;
    destruct (Ascii.compare c2 c3) eqn:E23; try discriminate; intros H1 H2.
  - rewrite (ascii_compare_trans _ _ _ _ E12 E23). apply IH with s2; assumption.
  - apply Ascii.compare_eq_iff in E12. subst c2. rewrite E23. reflexivity.
  - apply Ascii.compare_eq_iff in E23. subst c3. rewrite E12. reflexivity.
  - rewrite (ascii_compare_trans _ _ _ _ E12 E23). reflexivity.
Qed.

Lemma string_leb_total (s1 s2 : string) :
  String.leb s1 s2 = false -> String.leb s2 s1 = true.
Proof.
  intros H. destruct (String.leb_total s1 s2) as [H'|H']; congruence.
Qed.

Lemma byDateThenCreation_total (a b : GeneralLedgerSchema.t) :
  GeneralLedger.byDateThenCreation a b = false ->
  GeneralLedger.byDateThenCreation b a = true.
Proof.
  unfold GeneralLedger.byDateThenCreation.
  rewrite negb_false_iff, negb_true_iff, after_iff, after_false_iff.
  unfold afterP, dateLt. lia.
Qed.

Lemma byDateThenCreation_trans (a b c : GeneralLedgerSchema.t) :
  GeneralLedger.byDateThenCreation a b = true ->
  GeneralLedger.byDateThenCreation b c = true ->
  GeneralLedger.byDateThenCreation a c = true.
Proof.
  unfold GeneralLedger.byDateThenCreation.
  rewrite !negb_true_iff, !after_false_iff.
  unfold afterP, dateLt. lia.
Qed.

Section GroupKeys.
Context {K : Type} (eqb : K -> K -> bool).
Hypothesis eqb_spec : forall a b, eqb a b = true <-> a = b.
Context (keyOf : GeneralLedgerSchema.t -> K).

Lemma groupAdd_In_key (k : K) (r : GeneralLedgerSchema.t)
    (gs : list (GeneralLedger.Group K)) (k' : K) :
  In k' (map GeneralLedger.key (GeneralLedger.groupAdd eqb k r gs))
  <-> In k' (map GeneralLedger.key gs) \/ k' = k.
Proof.
  induction gs as [|g gs IH]; simpl; [intuition |].
  destruct (eqb (GeneralLedger.key g) k) eqn:E; simpl.
  - apply eqb_spec in E. intuition congruence.
  - rewrite IH. tauto.
Qed.

Lemma groupAdd_NoDup (k : K) (r : GeneralLedgerSchema.t)
    (gs : list (GeneralLedger.Group K)) :
  NoDup (map GeneralLedger.key gs) ->
  NoDup (map GeneralLedger.key (GeneralLedger.groupAdd eqb k r gs)).
Proof.
  induction gs as [|g gs IH]; simpl; intros H.
  - constructor; [simpl; tauto | constructor].
  - inversion H as [|? ? Hn Hd]; subst.
    destruct (eqb (GeneralLedger.key g) k) eqn:E; simpl.
    + constructor; assumption.
    + constructor; [| apply IH; exact Hd].
      rewrite groupAdd_In_key. intros [Hin|Hk]; [contradiction |].
      apply eqb_spec in Hk. congruence.
Qed.

Lemma groupAdd_netWhere (p : K -> bool) (k : K) (r : GeneralLedgerSchema.t)
    (gs : list (GeneralLedger.Group K)) :
  netWhere p (GeneralLedger.groupAdd eqb k r gs)
  == netWhere p gs + (if p k then movement r else 0).
Proof.
  unfold netWhere, groupNet, movement.
  induction gs as [|g gs IH]; simpl.
  - destruct (p k); simpl; lra.
  - destruct (eqb (GeneralLedger.key g) k) eqn:E; simpl.
    + apply eqb_spec in E. rewrite E.
      destruct (p k); simpl; lra.
    + destruct (p (GeneralLedger.key g)); simpl; rewrite IH; lra.
Qed.

Lemma group_fold_spec (p : K -> bool) (rows : list GeneralLedgerSchema.t)
    (gs : list (GeneralLedger.Group K)) :
  let gs' := fold_left (fun gs r => GeneralLedger.groupAdd eqb (keyOf r) r gs)
               rows gs in
  netWhere p gs'
  == netWhere p gs + net (filter (fun r => p (keyOf r)) rows)
  /\ (NoDup (map GeneralLedger.key gs) -> NoDup (map GeneralLedger.key gs'))
  /\ (forall k, In k (map GeneralLedger.key gs')
                <-> In k (map GeneralLedger.key gs) \/ In k (map keyOf rows)).
Proof.
  revert gs. induction rows as [|r rows IH]; intros gs; simpl.
  - split; [unfold net; simpl; lra |]. split; [auto | intros k; tauto].
  - destruct (IH (GeneralLedger.groupAdd eqb (keyOf r) r gs))
      as (Hn & Hd & Hk).
    split; [| split].
    + rewrite Hn, groupAdd_netWhere.
      destruct (p (keyOf r)); unfold net; simpl; lra.
    + intros H. apply Hd. apply groupAdd_NoDup. exact H.
    + intros k. rewrite Hk, groupAdd_In_key. intuition.
Qed.

Lemma group_netWhere (p : K -> bool) (rows : list GeneralLedgerSchema.t) :
  netWhere p (GeneralLedger.group eqb keyOf rows)
  == net (filter (fun r => p (keyOf r)) rows).
Proof.
  unfold GeneralLedger.group.
  destruct (group_fold_spec p rows []) as (H & _). cbv zeta in H.
  rewrite H. unfold netWhere, groupNet; simpl. lra.
Qed.

Lemma group_NoDup (rows : list GeneralLedgerSchema.t) :
  NoDup (map GeneralLedger.key (GeneralLedger.group eqb keyOf rows)).
Proof.
  unfold GeneralLedger.group.
  destruct (group_fold_spec (fun _ => true) rows []) as (_ & H & _).
  apply H. constructor.
Qed.

Lemma group_keys (rows : list GeneralLedgerSchema.t) (k : K) :
  In k (map GeneralLedger.key (GeneralLedger.group eqb keyOf rows))
  <-> In k (map keyOf rows).
Proof.
  unfold GeneralLedger.group.
  destruct (group_fold_spec (fun _ => true) rows []) as (_ & _ & H).
  rewrite H. simpl. tauto.
Qed.

Lemma NoDup_key_filter (gs : list (GeneralLedger.Group K))
    (g : GeneralLedger.Group K) :
  NoDup (map GeneralLedger.key gs) -> In g gs ->
  filter (fun g' => eqb (GeneralLedger.key g') (GeneralLedger.key g)) gs = [g].
Proof.
  induction gs as [|h gs IH]; simpl; intros Hnd Hin; [contradiction |].
  inversion Hnd as [|? ? Hn Hd]; subst.
  destruct Hin as [->|Hin].
  - replace (eqb (GeneralLedger.key g) (GeneralLedger.key g)) with true
      by (symmetry; apply eqb_spec; reflexivity).
    f_equal. clear IH Hnd Hd.
    induction gs as [|h gs IH]; simpl; [reflexivity |].
    destruct (eqb (GeneralLedger.key h) (GeneralLedger.key g)) eqn:E.
    + apply eqb_spec in E. elim Hn. left. exact E.
    + apply IH. intros H. apply Hn. right. exact H.
  - destruct (eqb (GeneralLedger.key h) (GeneralLedger.key g)) eqn:E.
    + apply eqb_spec in E. elim Hn. rewrite E. apply in_map. exact Hin.
    + apply IH; assumption.
Qed.

(** The accumulators of a group hold the net movement of the rows that
    carry its key. *)
Lemma group_balance (rows : list GeneralLedgerSchema.t)
    (g : GeneralLedger.Group K) :
  In g (GeneralLedger.group eqb keyOf rows) ->
  GeneralLedger.totalDebit g - GeneralLedger.totalCredit g
  == net (filter (fun r => eqb (keyOf r) (GeneralLedger.key g)) rows).
Proof.
  intros Hin.
  rewrite <- (group_netWhere (fun k => eqb k (GeneralLedger.key g)) rows).
  unfold netWhere.
  rewrite (NoDup_key_filter _ g (group_NoDup rows) Hin).
  unfold groupNet; simpl. lra.
Qed.

End GroupKeys.

(** ** Trial balance by account *)

Lemma string_eqb_spec (a b : string) : String.eqb a b = true <-> a = b.
Proof. apply String.eqb_eq. Qed.

Lemma accountRows_filter (coll : list GeneralLedgerSchema.t) (code : string)
    (asOfDate : Date) :
  filter (fun r => String.eqb (GeneralLedgerSchema.accountCode r) code)
    (filter (fun r => DateOrder.leb (GeneralLedgerSchema.date r) asOfDate
                      && LedgerStatus_eqb (GeneralLedgerSchema.status r) Active)
            coll)
  = accountRows coll code asOfDate.
Proof.
  unfold accountRows, GeneralLedger.matchAccountAsOf.
  induction coll as [|r coll IH]; simpl; [reflexivity |].
  destruct (String.eqb (GeneralLedgerSchema.accountCode r) code) eqn:E;
    destruct (DateOrder.leb (GeneralLedgerSchema.date r) asOfDate);
    destruct (LedgerStatus_eqb (GeneralLedgerSchema.status r) Active);
    simpl; rewrite ?E, IH; reflexivity.
Qed.

(** Keys that are distinct over the rows stay distinct over the rows
    that a test keeps. *)
Lemma NoDup_map_filter {Row Key : Type} (keyOf : Row -> Key)
    (keep : Row -> bool) (rows : list Row) :
  NoDup (map keyOf rows) -> NoDup (map keyOf (filter keep rows)).
Proof.
  intros Hrows. induction rows as [|row rows IH]; [constructor |].
  simpl in Hrows. apply NoDup_cons_iff in Hrows. destruct Hrows as [Hn Hd].
  simpl. destruct (keep row); simpl; [| exact (IH Hd)].
  apply NoDup_cons_iff. split; [| exact (IH Hd)].
  rewrite in_map_iff. intros (other & Hkey & Hin).
  apply filter_In in Hin. apply Hn. rewrite <- Hkey.
  apply in_map. exact (proj1 Hin).
Qed.

(** X8. The trial balance lists each account code at most once, in
    ascending order of code, and lists exactly the codes whose balance
    as of the date is not zero. For each listed account, debit minus
    credit equals the balance that getAccountBalance reports for that
    code. *)
Theorem getTrialBalance_accounts (coll : list GeneralLedgerSchema.t)
    (asOfDate : Date) :
  let tb := GeneralLedger.getTrialBalance coll asOfDate in
  let balanceOf code :=
    GeneralLedger.abBalance
      (GeneralLedger.getAccountBalance coll code asOfDate) in
  NoDup (map GeneralLedger.taCode (GeneralLedger.tbAccounts tb))
  /\ StronglySorted
       (fun a b => String.leb (GeneralLedger.taCode a) (GeneralLedger.taCode b)
                   = true)
       (GeneralLedger.tbAccounts tb)
  /\ (forall a, In a (GeneralLedger.tbAccounts tb) ->
        ~ balanceOf (GeneralLedger.taCode a) == 0
        /\ GeneralLedger.taDebit a - GeneralLedger.taCredit a
           == balanceOf (GeneralLedger.taCode a))
  /\ (forall code, ~ balanceOf code == 0 ->
        exists a, In a (GeneralLedger.tbAccounts tb)
                  /\ GeneralLedger.taCode a = code).
Proof.
  cbv zeta.
  assert (Hbal : forall (g : GeneralLedger.Group string),
             In g (GeneralLedger.group String.eqb
                     GeneralLedgerSchema.accountCode
                     (filter (fun r =>
                                DateOrder.leb (GeneralLedgerSchema.date r)
                                  asOfDate
                                && LedgerStatus_eqb
                                     (GeneralLedgerSchema.status r) Active)
                             coll)) ->
             GeneralLedger.totalDebit g - GeneralLedger.totalCredit g
             == GeneralLedger.abBalance
                  (GeneralLedger.getAccountBalance coll (GeneralLedger.key g)
                     asOfDate)).
  { intros g Hg. rewrite getAccountBalance_net.
    rewrite (group_balance String.eqb string_eqb_spec _ _ _ Hg).
    rewrite accountRows_filter. reflexivity. }
  unfold GeneralLedger.getTrialBalance; simpl. fold clamp.
  unfold GeneralLedger.trialPipeline. fold (projected coll asOfDate).
  split; [| split; [| split]].
  - rewrite map_map. simpl.
    eapply Permutation_NoDup.
    { apply Permutation_map. symmetry. apply sortBy_Permutation. }
    apply NoDup_map_filter. unfold projected. rewrite map_map. simpl.
    apply group_NoDup. exact string_eqb_spec.
  - assert (Hs := sortBy_sorted GeneralLedger.byCode
                    (fun x y => string_leb_total _ _)
                    (fun x y z => string_leb_trans _ _ _)
                    (filter (fun a => isPositive (GeneralLedger.taDebit a)
                                      || isPositive (GeneralLedger.taCredit a))
                            (projected coll asOfDate))).
    induction Hs as [|a l _ IH Ha]; simpl; constructor; [exact IH |].
    rewrite Forall_map. eapply Forall_impl; [| exact Ha].
    intros b Hb. exact Hb.
  - intros a Ha. apply in_map_iff in Ha. destruct Ha as (b & <- & Hb).
    apply In_sortBy in Hb. apply filter_In in Hb. destruct Hb as [Hb Hpos].
    unfold projected in Hb. apply in_map_iff in Hb.
    destruct Hb as (g & <- & Hg). specialize (Hbal g Hg). simpl in *.
    apply orb_true_iff in Hpos.
    destruct (isPositive (GeneralLedger.totalDebit g
                          - GeneralLedger.totalCredit g)) eqn:Hd;
      destruct (isPositive (GeneralLedger.totalCredit g
                            - GeneralLedger.totalDebit g)) eqn:Hc;
      positivity; (split; lra) || (destruct Hpos; discriminate).
  - intros code Hcode.
    assert (Hrow : exists r, In r (accountRows coll code asOfDate)).
    { destruct (accountRows coll code asOfDate) as [|r rows] eqn:E.
      - elim Hcode. rewrite getAccountBalance_net.
        fold (accountRows coll code asOfDate). rewrite E.
        unfold net; simpl. reflexivity.
      - exists r. left. reflexivity. }
    destruct Hrow as (r & Hr). rewrite <- accountRows_filter in Hr.
    apply filter_In in Hr. destruct Hr as [Hr Hc].
    apply String.eqb_eq in Hc.
    assert (Hk : In code (map GeneralLedger.key
                            (GeneralLedger.group String.eqb
                               GeneralLedgerSchema.accountCode
                               (filter (fun r =>
                                          DateOrder.leb
                                            (GeneralLedgerSchema.date r)
                                            asOfDate
                                          && LedgerStatus_eqb
                                               (GeneralLedgerSchema.status r)
                                               Active)
                                       coll)))).
    { apply (group_keys String.eqb string_eqb_spec). rewrite <- Hc.
      apply in_map. exact Hr. }
    apply in_map_iff in Hk. destruct Hk as (g & Hgk & Hg).
    specialize (Hbal g Hg). rewrite Hgk in Hbal.
    eexists. split.
    + apply in_map. apply In_sortBy. apply filter_In. split.
      * unfold projected. apply in_map. exact Hg.
      * simpl. apply orb_true_iff.
        destruct (Qlt_le_dec 0 (GeneralLedger.totalDebit g
                                - GeneralLedger.totalCredit g)) as [L|L].
        -- left. apply isPositive_iff. exact L.
        -- right. apply isPositive_iff. lra.
    + simpl. exact Hgk.
Qed.

(** ** Entries of the account ledger *)

Lemma last_default {A : Type} (x : A) (l : list A) (d d' : A) :
  last (x :: l) d = last (x :: l) d'.
Proof.
  revert x. induction l as [|y l IH]; intros x; [reflexivity |].
  change (last (y :: l) d = last (y :: l) d'). apply IH.
Qed.

Lemma walk_entries (es : list GeneralLedgerSchema.t) (b : Q) :
  map fst (fst (GeneralLedger.walk b es)) = es
  /\ map snd (fst (GeneralLedger.walk b es)) = replay b es
  /\ snd (GeneralLedger.walk b es) = last (replay b es) b.
Proof.
  revert b. induction es as [|e es IH]; intros b; simpl; [auto |].
  specialize (IH (b + (GeneralLedgerSchema.debit e
                       - GeneralLedgerSchema.credit e))).
  destruct (GeneralLedger.walk _ es) as [out final]. simpl in *.
  destruct IH as (H1 & H2 & H3). unfold movement. rewrite H1, H2.
  split; [reflexivity |]. split; [reflexivity |].
  rewrite H3. destruct es as [|e' es]; [reflexivity |].
  fold (movement e). simpl replay. apply last_default.
Qed.

(** X9. The entries returned by getAccountLedger are exactly the Active
    rows of the account dated within the range, ordered by date and then
    creation time. The running balance shown on each entry is the
    opening balance plus the sum of debit minus credit up to that entry,
    and the closing balance is the running balance of the last entry
    (the opening balance when there is none). *)
Theorem getAccountLedger_entries (coll : list GeneralLedgerSchema.t)
    (code : string) (startDate endDate : option Date) :
  let l := GeneralLedger.getAccountLedger coll code startDate endDate in
  let rows := map fst (GeneralLedger.entries l) in
  Permutation rows
    (filter (fun r => String.eqb (GeneralLedgerSchema.accountCode r) code
                      && LedgerStatus_eqb (GeneralLedgerSchema.status r) Active
                      && GeneralLedger.inRange startDate endDate
                           (GeneralLedgerSchema.date r))
            coll)
  /\ StronglySorted (fun a b => GeneralLedger.after a b = false) rows
  /\ map snd (GeneralLedger.entries l)
     = replay (GeneralLedger.openingBalance l) rows
  /\ GeneralLedger.closingBalance l
     = last (map snd (GeneralLedger.entries l))
            (GeneralLedger.openingBalance l).
Proof.
  cbv zeta. unfold GeneralLedger.getAccountLedger.
  match goal with
  | |- context [GeneralLedger.walk ?b ?es] =>
      pose proof (walk_entries es b) as (H1 & H2 & H3);
      destruct (GeneralLedger.walk b es) as [out final]
  end.
  simpl in *. rewrite H1, H2, H3.
  split; [apply sortBy_Permutation |].
  split; [| split; reflexivity].
  match goal with
  | |- StronglySorted _ (GeneralLedger.sortBy _ ?l) =>
      assert (Hs := sortBy_sorted GeneralLedger.byDateThenCreation
                      byDateThenCreation_total byDateThenCreation_trans l)
  end.
  eapply StronglySorted_ind with (l := GeneralLedger.sortBy _ _);
    [constructor | | exact Hs].
  intros a l _ IH Ha. constructor; [exact IH |].
  eapply Forall_impl; [| exact Ha]. intros b Hb.
  unfold GeneralLedger.byDateThenCreation in Hb.
  apply negb_true_iff in Hb. exact Hb.
Qed.

(** X10. With an end date and no start date, getAccountLedger opens at 0
    and its closing balance equals the balance that getAccountBalance
    reports for the account as of the end date. *)
Theorem getAccountLedger_without_start (coll : list GeneralLedgerSchema.t)
    (code : string) (endDate : Date) :
  let l := GeneralLedger.getAccountLedger coll code None (Some endDate) in
  GeneralLedger.openingBalance l = 0
  /\ GeneralLedger.closingBalance l
     == GeneralLedger.abBalance
          (GeneralLedger.getAccountBalance coll code endDate).
Proof.
  cbv zeta. split.
  - unfold GeneralLedger.getAccountLedger.
    destruct (GeneralLedger.walk _ _). reflexivity.
  - pose proof (getAccountLedger_closing coll code None (Some endDate)) as H.
    cbv zeta in H. rewrite H, getAccountBalance_net.
    assert (H0 : GeneralLedger.openingBalance
                   (GeneralLedger.getAccountLedger coll code None
                      (Some endDate)) = 0).
    { unfold GeneralLedger.getAccountLedger.
      destruct (GeneralLedger.walk _ _). reflexivity. }
    rewrite H0.
    assert (Hf : filter (fun r =>
                           String.eqb (GeneralLedgerSchema.accountCode r) code
                           && LedgerStatus_eqb (GeneralLedgerSchema.status r)
                                Active
                           && GeneralLedger.inRange None (Some endDate)
                                (GeneralLedgerSchema.date r)) coll
                 = filter (GeneralLedger.matchAccountAsOf code endDate) coll).
    { apply filter_ext. intros r.
      unfold GeneralLedger.matchAccountAsOf, GeneralLedger.inRange.
      destruct (String.eqb _ code), (LedgerStatus_eqb _ Active),
        (DateOrder.leb _ endDate); reflexivity. }
    rewrite Hf. lra.
Qed.

(** ** Balance sheet *)

Lemma AccountType_eqb_eq (a b : AccountType) :
  AccountType_eqb a b = true <-> a = b.
Proof. destruct a, b; simpl; split; congruence. Qed.

Lemma pairKey_eqb_spec (a b : string * AccountType) :
  GeneralLedger.pairKey_eqb a b = true <-> a = b.
Proof.
  destruct a as [c1 t1], b as [c2 t2]. unfold GeneralLedger.pairKey_eqb. simpl.
  rewrite andb_true_iff, String.eqb_eq, AccountType_eqb_eq.
  split; [intros [-> ->]; reflexivity | intros H; inversion H; auto].
Qed.

Lemma sumOf_filter {A : Type} (f : A -> Q) (p : A -> bool) (l : list A) :
  sumOf f (filter p l) == sumOf (fun x => if p x then f x else 0) l.
Proof.
  induction l as [|x l IH]; simpl; [lra |].
  destruct (p x); simpl; rewrite IH; lra.
Qed.

Lemma filter_filter {A : Type} (p q : A -> bool) (l : list A) :
  filter p (filter q l) = filter (fun x => q x && p x) l.
Proof.
  induction l as [|x l IH]; simpl; [reflexivity |].
  destruct (q x); simpl; [destruct (p x) |]; rewrite IH; reflexivity.
Qed.

(** The statement pipeline lists one line per (code, type) pair, whose
    balance is the net movement of the rows of that pair. *)
Lemma statementPipeline_In (rows : list GeneralLedgerSchema.t)
    (a : GeneralLedger.StatementAccount) :
  In a (GeneralLedger.statementPipeline rows) ->
  GeneralLedger.saBalance a
  == net (filter (fun r => String.eqb (GeneralLedgerSchema.accountCode r)
                             (GeneralLedger.saCode a)
                           && AccountType_eqb (GeneralLedgerSchema.accountType r)
                                (GeneralLedger.saType a))
                 rows).
Proof.
  unfold GeneralLedger.statementPipeline. rewrite In_sortBy, in_map_iff.
  intros (g & <- & Hg). simpl.
  rewrite (group_balance GeneralLedger.pairKey_eqb pairKey_eqb_spec _ _ _ Hg).
  reflexivity.
Qed.

(** The balances of the lines of one type add up to the net movement of
    the rows of that type. *)
Lemma statementPipeline_type_total (rows : list GeneralLedgerSchema.t)
    (ty : AccountType) :
  sumOf GeneralLedger.saBalance
    (filter (fun a => AccountType_eqb (GeneralLedger.saType a) ty)
       (GeneralLedger.statementPipeline rows))
  == net (filter (fun r => AccountType_eqb (GeneralLedgerSchema.accountType r) ty)
            rows).
Proof.
  rewrite sumOf_filter. unfold GeneralLedger.statementPipeline.
  rewrite sumOf_sortBy, sumOf_map. simpl.
  rewrite <- (group_netWhere GeneralLedger.pairKey_eqb pairKey_eqb_spec
                (fun r => (GeneralLedgerSchema.accountCode r,
                           GeneralLedgerSchema.accountType r))
                (fun k => AccountType_eqb (snd k) ty) rows).
  unfold netWhere, groupNet. rewrite sumOf_filter. reflexivity.
Qed.

Lemma sumOf_opp_abs {A : Type} (f : A -> Q) (l : list A) :
  (forall x, In x l -> f x <= 0) ->
  sumOf (fun x => Qabs (f x)) l == - sumOf f l.
Proof.
  induction l as [|x l IH]; intros H; simpl; [lra |].
  rewrite IH by (intros y Hy; apply H; right; exact Hy).
  rewrite (Qabs_neg (f x)) by (apply H; left; reflexivity). lra.
Qed.

Lemma sumOf_pos_abs {A : Type} (f : A -> Q) (l : list A) :
  (forall x, In x l -> 0 <= f x) ->
  sumOf (fun x => Qabs (f x)) l == sumOf f l.
Proof.
  induction l as [|x l IH]; intros H; simpl; [lra |].
  rewrite IH by (intros y Hy; apply H; right; exact Hy).
  rewrite (Qabs_pos (f x)) by (apply H; left; reflexivity). lra.
Qed.

Lemma isZero_iff (a : Q) : isZero a = true <-> a == 0.
Proof. unfold isZero. apply Qeq_bool_iff. Qed.

(** Rows of type [ty] among rows selected by [sel] and a test [types]
    on the account type that admits [ty]. *)
Lemma typed_filter (sel types : GeneralLedgerSchema.t -> bool)
    (ty : AccountType) (coll : list GeneralLedgerSchema.t) :
  (forall r, GeneralLedgerSchema.accountType r = ty -> types r = true) ->
  filter (fun r => AccountType_eqb (GeneralLedgerSchema.accountType r) ty)
    (filter (fun r => sel r && types r) coll)
  = typedRows sel ty coll.
Proof.
  intros H. rewrite filter_filter. unfold typedRows. apply filter_ext.
  intros r.
  destruct (AccountType_eqb (GeneralLedgerSchema.accountType r) ty) eqn:E.
  - apply AccountType_eqb_eq in E. rewrite (H r E), !andb_true_r. reflexivity.
  - rewrite !andb_false_r. reflexivity.
Qed.

Lemma typed_line (sel types : GeneralLedgerSchema.t -> bool)
    (coll : list GeneralLedgerSchema.t) (a : GeneralLedger.StatementAccount) :
  (forall r, GeneralLedgerSchema.accountType r = GeneralLedger.saType a ->
             types r = true) ->
  In a (GeneralLedger.statementPipeline
          (filter (fun r => sel r && types r) coll)) ->
  GeneralLedger.saBalance a
  == typedNet sel (GeneralLedger.saType a) coll (GeneralLedger.saCode a).
Proof.
  intros H Ha. rewrite (statementPipeline_In _ _ Ha).
  unfold typedNet. rewrite <- (typed_filter sel types _ coll H).
  rewrite !filter_filter.
  match goal with
  | |- net (filter ?p ?l) == net (filter ?q ?l) =>
      rewrite (filter_ext p q); [reflexivity |]
  end.
  intros r. destruct (sel r && types r); simpl; [| reflexivity].
  apply andb_comm.
Qed.

(** The total of one section of a statement. *)
Lemma section_total (sel types : GeneralLedgerSchema.t -> bool)
    (ty : AccountType) (coll : list GeneralLedgerSchema.t) :
  (forall r, GeneralLedgerSchema.accountType r = ty -> types r = true) ->
  let result :=
    GeneralLedger.statementPipeline (filter (fun r => sel r && types r) coll) in
  let lines := filter (fun a => AccountType_eqb (GeneralLedger.saType a) ty)
                 result in
  sumOf GeneralLedger.saBalance lines == net (typedRows sel ty coll)
  /\ (creditNormal sel ty coll ->
      sumOf (fun a => Qabs (GeneralLedger.saBalance a)) lines
      == - net (typedRows sel ty coll))
  /\ (debitNormal sel ty coll ->
      sumOf (fun a => Qabs (GeneralLedger.saBalance a)) lines
      == net (typedRows sel ty coll)).
Proof.
  intros H result lines.
  assert (Hsum : sumOf GeneralLedger.saBalance lines
                 == net (typedRows sel ty coll)).
  { unfold lines, result. rewrite statementPipeline_type_total.
    rewrite (typed_filter sel types ty coll H). reflexivity. }
  assert (Hline : forall a, In a lines ->
             GeneralLedger.saBalance a
             == typedNet sel ty coll (GeneralLedger.saCode a)).
  { intros a Ha. apply filter_In in Ha. destruct Ha as [Ha Hty].
    apply AccountType_eqb_eq in Hty. rewrite <- Hty.
    apply typed_line with types; [| exact Ha].
    rewrite Hty. exact H. }
  split; [exact Hsum |]. split; intros Hn.
  - rewrite sumOf_opp_abs; [rewrite Hsum; reflexivity |].
    intros a Ha. rewrite (Hline a Ha). apply Hn.
  - rewrite sumOf_pos_abs; [exact Hsum |].
    intros a Ha. rewrite (Hline a Ha). apply Hn.
Qed.

Lemma sumOf_nonzero (p : GeneralLedger.StatementAccount -> bool)
    (f : GeneralLedger.StatementAccount -> Q)
    (l : list GeneralLedger.StatementAccount) :
  (forall a, GeneralLedger.saBalance a == 0 -> f a == 0) ->
  sumOf f (filter (fun a => p a && negb (isZero (GeneralLedger.saBalance a))) l)
  == sumOf f (filter p l).
Proof.
  intros H. induction l as [|a l IH]; simpl; [lra |].
  destruct (p a); simpl; [| exact IH].
  destruct (isZero (GeneralLedger.saBalance a)) eqn:E; simpl; rewrite IH.
  - apply isZero_iff in E. rewrite (H a E). lra.
  - lra.
Qed.

Lemma getBalanceSheet_sections (coll : list GeneralLedgerSchema.t)
    (asOfDate : Date) :
  let bs := GeneralLedger.getBalanceSheet coll asOfDate in
  GeneralLedger.total (GeneralLedger.assets bs)
  == net (typedRows (asOfActive asOfDate) Asset coll)
  /\ (creditNormal (asOfActive asOfDate) Liability coll ->
      GeneralLedger.total (GeneralLedger.liabilities bs)
      == - net (typedRows (asOfActive asOfDate) Liability coll))
  /\ (creditNormal (asOfActive asOfDate) Equity coll ->
      GeneralLedger.total (GeneralLedger.equity bs)
      == - net (typedRows (asOfActive asOfDate) Equity coll)).
Proof.
  cbv zeta. unfold GeneralLedger.getBalanceSheet. simpl.
  rewrite !fold_left_sum.
  assert (Hf : filter (fun r =>
                         DateOrder.leb (GeneralLedgerSchema.date r) asOfDate
                         && LedgerStatus_eqb (GeneralLedgerSchema.status r)
                              Active
                         && (AccountType_eqb (GeneralLedgerSchema.accountType r)
                               Asset
                             || AccountType_eqb
                                  (GeneralLedgerSchema.accountType r) Liability
                             || AccountType_eqb
                                  (GeneralLedgerSchema.accountType r) Equity))
                      coll
               = filter (fun r => asOfActive asOfDate r && balanceSheetTypes r)
                        coll) by reflexivity.
  rewrite Hf. clear Hf.
  rewrite (sumOf_nonzero
             (fun a => AccountType_eqb (GeneralLedger.saType a) Asset)
             GeneralLedger.saBalance) by (intros a Ha; exact Ha).
  rewrite !(sumOf_nonzero _ (fun a => Qabs (GeneralLedger.saBalance a)))
    by (intros a Ha; rewrite Ha; reflexivity).
  destruct (section_total (asOfActive asOfDate) balanceSheetTypes Asset coll)
    as (HA & _); [intros r Hr; unfold balanceSheetTypes; rewrite Hr; reflexivity |].
  destruct (section_total (asOfActive asOfDate) balanceSheetTypes Liability coll)
    as (_ & HL & _);
    [intros r Hr; unfold balanceSheetTypes; rewrite Hr; reflexivity |].
  destruct (section_total (asOfActive asOfDate) balanceSheetTypes Equity coll)
    as (_ & HE & _);
    [intros r Hr; unfold balanceSheetTypes; rewrite Hr; reflexivity |].
  cbv zeta in HA, HL, HE.
  split; [rewrite HA; lra |].
  split; intros Hn; [rewrite (HL Hn) | rewrite (HE Hn)]; lra.
Qed.

Lemma typed_partition3 (sel : GeneralLedgerSchema.t -> bool)
    (coll : list GeneralLedgerSchema.t) :
  net (filter (fun r => sel r && balanceSheetTypes r) coll)
  == net (typedRows sel Asset coll) + net (typedRows sel Liability coll)
     + net (typedRows sel Equity coll).
Proof.
  unfold typedRows, balanceSheetTypes, net.
  induction coll as [|r coll IH]; simpl; [lra |].
  destruct (sel r); simpl; [| exact IH].
  destruct (GeneralLedgerSchema.accountType r); simpl; rewrite IH; lra.
Qed.

Lemma typed_partition2 (sel : GeneralLedgerSchema.t -> bool)
    (coll : list GeneralLedgerSchema.t) :
  net (filter (fun r => sel r && profitAndLossTypes r) coll)
  == net (typedRows sel Revenue coll) + net (typedRows sel Expense coll).
Proof.
  unfold typedRows, profitAndLossTypes, net.
  induction coll as [|r coll IH]; simpl; [lra |].
  destruct (sel r); simpl; [| exact IH].
  destruct (GeneralLedgerSchema.accountType r); simpl; rewrite IH; lra.
Qed.

Lemma typed_partition (sel : GeneralLedgerSchema.t -> bool)
    (coll : list GeneralLedgerSchema.t) :
  net (filter sel coll)
  == net (filter (fun r => sel r && balanceSheetTypes r) coll)
     + net (filter (fun r => sel r && profitAndLossTypes r) coll).
Proof.
  unfold balanceSheetTypes, profitAndLossTypes, net.
  induction coll as [|r coll IH]; simpl; [lra |].
  destruct (sel r); simpl; [| exact IH].
  destruct (GeneralLedgerSchema.accountType r); simpl; rewrite IH; lra.
Qed.

Lemma getBalanceSheet_equation_cases (coll : list GeneralLedgerSchema.t)
    (asOfDate : Date) :
  creditNormal (asOfActive asOfDate) Liability coll ->
  creditNormal (asOfActive asOfDate) Equity coll ->
  let bs := GeneralLedger.getBalanceSheet coll asOfDate in
  GeneralLedger.total (GeneralLedger.assets bs)
  == net (typedRows (asOfActive asOfDate) Asset coll)
  /\ GeneralLedger.total (GeneralLedger.liabilities bs)
     == - net (typedRows (asOfActive asOfDate) Liability coll)
  /\ GeneralLedger.total (GeneralLedger.equity bs)
     == - net (typedRows (asOfActive asOfDate) Equity coll)
  /\ GeneralLedger.total (GeneralLedger.assets bs)
     - GeneralLedger.totalLiabilitiesAndEquity bs
     == net (filter (fun r => asOfActive asOfDate r && balanceSheetTypes r)
               coll)
  /\ (GeneralLedger.bsIsBalanced bs = true
      <-> Qabs (net (filter (fun r => asOfActive asOfDate r
                                      && balanceSheetTypes r) coll))
          < 1 # 100).
Proof.
  intros HL HE. cbv zeta.
  destruct (getBalanceSheet_sections coll asOfDate) as (HA & HL' & HE').
  cbv zeta in HA, HL', HE'. specialize (HL' HL). specialize (HE' HE).
  assert (Hgap : GeneralLedger.total
                   (GeneralLedger.assets
                      (GeneralLedger.getBalanceSheet coll asOfDate))
                 - GeneralLedger.totalLiabilitiesAndEquity
                     (GeneralLedger.getBalanceSheet coll asOfDate)
                 == net (filter (fun r => asOfActive asOfDate r
                                          && balanceSheetTypes r) coll)).
  { rewrite typed_partition3.
    change (GeneralLedger.totalLiabilitiesAndEquity
              (GeneralLedger.getBalanceSheet coll asOfDate))
      with (GeneralLedger.total
              (GeneralLedger.liabilities
                 (GeneralLedger.getBalanceSheet coll asOfDate))
            + GeneralLedger.total
                (GeneralLedger.equity
                   (GeneralLedger.getBalanceSheet coll asOfDate))).
    rewrite HA, HL', HE'. lra. }
  repeat (split; [assumption |]).
  change (GeneralLedger.bsIsBalanced
            (GeneralLedger.getBalanceSheet coll asOfDate))
    with (GeneralLedger.below
            (Qabs (GeneralLedger.total
                     (GeneralLedger.assets
                        (GeneralLedger.getBalanceSheet coll asOfDate))
                   - GeneralLedger.totalLiabilitiesAndEquity
                       (GeneralLedger.getBalanceSheet coll asOfDate)))
            (1 # 100)).
  rewrite below_iff, Hgap. reflexivity.
Qed.

(** X11. When no liability or equity account has a debit balance as of
    the date, the totals of the balance sheet are the net movements of
    the rows of each type (assets as debit minus credit, liabilities and
    equity as credit minus debit). Assets minus liabilities-and-equity
    then equals the net movement of all asset, liability and equity
    rows, and isBalanced holds exactly when that difference is below
    0.01 in absolute value. *)
Theorem getBalanceSheet_equation (coll : list GeneralLedgerSchema.t)
    (asOfDate : Date) :
  creditNormal (asOfActive asOfDate) Liability coll ->
  creditNormal (asOfActive asOfDate) Equity coll ->
  let bs := GeneralLedger.getBalanceSheet coll asOfDate in
  GeneralLedger.total (GeneralLedger.assets bs)
  == net (typedRows (asOfActive asOfDate) Asset coll)
  /\ GeneralLedger.total (GeneralLedger.liabilities bs)
     == - net (typedRows (asOfActive asOfDate) Liability coll)
  /\ GeneralLedger.total (GeneralLedger.equity bs)
     == - net (typedRows (asOfActive asOfDate) Equity coll)
  /\ GeneralLedger.total (GeneralLedger.assets bs)
     - GeneralLedger.totalLiabilitiesAndEquity bs
     == net (filter (fun r => asOfActive asOfDate r && balanceSheetTypes r)
               coll)
  /\ (GeneralLedger.bsIsBalanced bs = true
      <-> Qabs (net (filter (fun r => asOfActive asOfDate r
                                      && balanceSheetTypes r) coll))
          < 1 # 100).
Proof. exact (getBalanceSheet_equation_cases coll asOfDate). Qed.

(** ** Profit and loss *)

Lemma typedRows_ext (sel sel' : GeneralLedgerSchema.t -> bool)
    (ty : AccountType) (coll : list GeneralLedgerSchema.t) :
  (forall r, sel r = sel' r) ->
  typedRows sel ty coll = typedRows sel' ty coll.
Proof.
  intros H. unfold typedRows. apply filter_ext. intros r. rewrite H.
  reflexivity.
Qed.

Lemma inPeriod_asOf (asOfDate : Date) (r : GeneralLedgerSchema.t) :
  inPeriod None (Some asOfDate) r = asOfActive asOfDate r.
Proof.
  unfold inPeriod, asOfActive, GeneralLedger.inRange. simpl.
  apply andb_comm.
Qed.

Lemma getProfitAndLoss_sections (coll : list GeneralLedgerSchema.t)
    (startDate endDate : option Date) :
  let pl := GeneralLedger.getProfitAndLoss coll startDate endDate in
  (creditNormal (inPeriod startDate endDate) Revenue coll ->
   GeneralLedger.total (GeneralLedger.revenue pl)
   == - net (typedRows (inPeriod startDate endDate) Revenue coll))
  /\ (debitNormal (inPeriod startDate endDate) Expense coll ->
      GeneralLedger.total (GeneralLedger.expenses pl)
      == net (typedRows (inPeriod startDate endDate) Expense coll)).
Proof.
  cbv zeta. unfold GeneralLedger.getProfitAndLoss. simpl.
  rewrite !fold_left_sum.
  assert (Hf : filter (fun r =>
                         LedgerStatus_eqb (GeneralLedgerSchema.status r) Active
                         && (AccountType_eqb (GeneralLedgerSchema.accountType r)
                               Revenue
                             || AccountType_eqb
                                  (GeneralLedgerSchema.accountType r) Expense)
                         && GeneralLedger.inRange startDate endDate
                              (GeneralLedgerSchema.date r))
                      coll
               = filter (fun r => inPeriod startDate endDate r
                                  && profitAndLossTypes r) coll).
  { apply filter_ext. intros r. unfold inPeriod, profitAndLossTypes.
    destruct (LedgerStatus_eqb _ Active), (GeneralLedger.inRange _ _ _),
      (AccountType_eqb _ Revenue || AccountType_eqb _ Expense); reflexivity. }
  rewrite Hf. clear Hf.
  destruct (section_total (inPeriod startDate endDate) profitAndLossTypes
              Revenue coll) as (_ & HR & _);
    [intros r Hr; unfold profitAndLossTypes; rewrite Hr; reflexivity |].
  destruct (section_total (inPeriod startDate endDate) profitAndLossTypes
              Expense coll) as (_ & _ & HE);
    [intros r Hr; unfold profitAndLossTypes; rewrite Hr; reflexivity |].
  cbv zeta in HR, HE.
  split; intros Hn; [rewrite (HR Hn) | rewrite (HE Hn)]; lra.
Qed.

Lemma getProfitAndLoss_net_profit_cases (coll : list GeneralLedgerSchema.t)
    (startDate endDate : option Date) :
  creditNormal (inPeriod startDate endDate) Revenue coll ->
  debitNormal (inPeriod startDate endDate) Expense coll ->
  let pl := GeneralLedger.getProfitAndLoss coll startDate endDate in
  GeneralLedger.total (GeneralLedger.revenue pl)
  == - net (typedRows (inPeriod startDate endDate) Revenue coll)
  /\ GeneralLedger.total (GeneralLedger.expenses pl)
     == net (typedRows (inPeriod startDate endDate) Expense coll)
  /\ GeneralLedger.netProfit pl
     == - net (filter (fun r => inPeriod startDate endDate r
                                && profitAndLossTypes r) coll)
  /\ (0 < GeneralLedger.total (GeneralLedger.revenue pl) ->
      GeneralLedger.netProfitMargin pl
      * GeneralLedger.total (GeneralLedger.revenue pl)
      == GeneralLedger.netProfit pl * 100)
  /\ (GeneralLedger.total (GeneralLedger.revenue pl) == 0 ->
      GeneralLedger.netProfitMargin pl == 0).
Proof.
  intros HR HE. cbv zeta.
  destruct (getProfitAndLoss_sections coll startDate endDate) as (HR' & HE').
  cbv zeta in HR', HE'. specialize (HR' HR). specialize (HE' HE).
  split; [exact HR' |]. split; [exact HE' |].
  set (pl := GeneralLedger.getProfitAndLoss coll startDate endDate) in *.
  assert (Hnp : GeneralLedger.netProfit pl
                = GeneralLedger.total (GeneralLedger.revenue pl)
                  - GeneralLedger.total (GeneralLedger.expenses pl))
    by reflexivity.
  assert (Hm : GeneralLedger.netProfitMargin pl
               = if isPositive (GeneralLedger.total (GeneralLedger.revenue pl))
                 then (GeneralLedger.netProfit pl
                       / GeneralLedger.total (GeneralLedger.revenue pl)) * 100
                 else 0)
    by reflexivity.
  split; [| split].
  - rewrite Hnp, HR', HE', typed_partition2. lra.
  - intros Hpos. rewrite Hm.
    destruct (isPositive (GeneralLedger.total (GeneralLedger.revenue pl)))
      eqn:E; positivity; [| lra].
    field. lra.
  - intros Hz. rewrite Hm.
    destruct (isPositive (GeneralLedger.total (GeneralLedger.revenue pl)))
      eqn:E; positivity; [lra | reflexivity].
Qed.

(** X12. When no revenue account has a debit balance and no expense
    account a credit balance over the period, total revenue and total
    expenses are the net movements of the rows of their types and net
    profit is the negated net movement (credit minus debit) of all
    revenue and expense rows of the period. The net profit margin is 100
    times net profit over revenue when revenue is positive and 0 when
    revenue is 0. *)
Theorem getProfitAndLoss_net_profit (coll : list GeneralLedgerSchema.t)
    (startDate endDate : option Date) :
  creditNormal (inPeriod startDate endDate) Revenue coll ->
  debitNormal (inPeriod startDate endDate) Expense coll ->
  let pl := GeneralLedger.getProfitAndLoss coll startDate endDate in
  GeneralLedger.total (GeneralLedger.revenue pl)
  == - net (typedRows (inPeriod startDate endDate) Revenue coll)
  /\ GeneralLedger.total (GeneralLedger.expenses pl)
     == net (typedRows (inPeriod startDate endDate) Expense coll)
  /\ GeneralLedger.netProfit pl
     == - net (filter (fun r => inPeriod startDate endDate r
                                && profitAndLossTypes r) coll)
  /\ (0 < GeneralLedger.total (GeneralLedger.revenue pl) ->
      GeneralLedger.netProfitMargin pl
      * GeneralLedger.total (GeneralLedger.revenue pl)
      == GeneralLedger.netProfit pl * 100)
  /\ (GeneralLedger.total (GeneralLedger.revenue pl) == 0 ->
      GeneralLedger.netProfitMargin pl == 0).
Proof. exact (getProfitAndLoss_net_profit_cases coll startDate endDate). Qed.

Lemma getProfitAndLoss_net_profit_witness :
  creditNormal (inPeriod None (Some Scenario.jun30)) Revenue
    (generalLedger Example.afterSaleAndPurchase)
  /\ debitNormal (inPeriod None (Some Scenario.jun30)) Expense
       (generalLedger Example.afterSaleAndPurchase)
  /\ GeneralLedger.netProfit
       (GeneralLedger.getProfitAndLoss
          (generalLedger Example.afterSaleAndPurchase) None
          (Some Scenario.jun30))
     == - net (filter (fun r => inPeriod None (Some Scenario.jun30) r
                                && profitAndLossTypes r)
                 (generalLedger Example.afterSaleAndPurchase)).
Proof.
  assert (HR : creditNormal (inPeriod None (Some Scenario.jun30)) Revenue
                 (generalLedger Example.afterSaleAndPurchase)).
  { intros code. unfold typedNet.
    assert (E : exists r,
               typedRows (inPeriod None (Some Scenario.jun30)) Revenue
                 (generalLedger Example.afterSaleAndPurchase) = [r]
               /\ movement r == - (100)).
    { eexists. split; vm_compute; reflexivity. }
    destruct E as (r & -> & Hr). simpl.
    destruct (String.eqb _ code); unfold net; simpl; lra. }
  assert (HE : debitNormal (inPeriod None (Some Scenario.jun30)) Expense
                 (generalLedger Example.afterSaleAndPurchase)).
  { intros code. unfold typedNet.
    assert (E : typedRows (inPeriod None (Some Scenario.jun30)) Expense
                  (generalLedger Example.afterSaleAndPurchase) = [])
      by (vm_compute; reflexivity).
    rewrite E. unfold net; simpl. lra. }
  split; [exact HR |]. split; [exact HE |].
  exact (proj1 (proj2 (proj2 (getProfitAndLoss_net_profit _ _ _ HR HE)))).
Defined.

Lemma getBalanceSheet_equation_witness :
  creditNormal (asOfActive Scenario.jun30) Liability
    (generalLedger Example.afterSaleAndPurchase)
  /\ creditNormal (asOfActive Scenario.jun30) Equity
       (generalLedger Example.afterSaleAndPurchase)
  /\ GeneralLedger.total
       (GeneralLedger.liabilities
          (GeneralLedger.getBalanceSheet
             (generalLedger Example.afterSaleAndPurchase) Scenario.jun30))
     == - net (typedRows (asOfActive Scenario.jun30) Liability
                 (generalLedger Example.afterSaleAndPurchase)).
Proof.
  assert (HL : creditNormal (asOfActive Scenario.jun30) Liability
                 (generalLedger Example.afterSaleAndPurchase)).
  { intros code. unfold typedNet.
    assert (E : exists r,
               typedRows (asOfActive Scenario.jun30) Liability
                 (generalLedger Example.afterSaleAndPurchase) = [r]
               /\ movement r == - (500)).
    { eexists. split; vm_compute; reflexivity. }
    destruct E as (r & -> & Hr). simpl.
    destruct (String.eqb _ code); unfold net; simpl; lra. }
  assert (HE : creditNormal (asOfActive Scenario.jun30) Equity
                 (generalLedger Example.afterSaleAndPurchase)).
  { intros code. unfold typedNet.
    assert (E : typedRows (asOfActive Scenario.jun30) Equity
                  (generalLedger Example.afterSaleAndPurchase) = [])
      by (vm_compute; reflexivity).
    rewrite E. unfold net; simpl. lra. }
  split; [exact HL |]. split; [exact HE |].
  exact (proj1 (proj2 (getBalanceSheet_equation _ _ HL HE))).
Defined.

(** ** The pre-save hook of a sales invoice *)

Lemma generateSerialNo_spec (coll : list SalesInvoiceSchema.t)
    (random : nat -> Q) (remaining attempts : nat) :
  match SalesInvoice.generateSerialNo coll random attempts remaining with
  | Some s =>
      exists k, (attempts <= k < attempts + remaining)%nat
                /\ s = serialCandidate random k
                /\ SalesInvoice.findOneBySerialNo coll s = None
  | None =>
      forall k, (attempts <= k < attempts + remaining)%nat ->
                SalesInvoice.findOneBySerialNo coll (serialCandidate random k)
                <> None
  end.
Proof.
  revert attempts. induction remaining as [|n IH]; intros attempts.
  - simpl. intros k Hk. exfalso. lia.
  - cbn [SalesInvoice.generateSerialNo].
    change ("SI-" ++ stringOfZ (SalesInvoice.randomNum (random attempts)))%string
      with (serialCandidate random attempts).
    destruct (SalesInvoice.findOneBySerialNo coll
                (serialCandidate random attempts)) as [i|] eqn:Hf.
    + specialize (IH (S attempts)). revert IH.
      destruct (SalesInvoice.generateSerialNo coll random (S attempts) n)
        as [s|]; intros IH; cbv beta iota.
      * destruct IH as (k & Hk & Hs & Hn). exists k. split; [lia | auto].
      * intros k Hk. destruct (Nat.eq_dec k attempts) as [->|Hne].
        -- rewrite Hf. discriminate.
        -- apply IH. lia.
    + cbv beta iota. exists attempts. split; [lia | auto].
Qed.

Lemma itemsTotal_sum (items : list SalesInvoiceSchema.Item) :
  fold_left (fun sum item => sum + SalesInvoiceSchema.netAmount item)
    (map SalesInvoice.calculateItem items) 0
  == sumOf itemNet items.
Proof.
  rewrite fold_left_sum, sumOf_map.
  rewrite (sumOf_ext (fun x => SalesInvoiceSchema.netAmount
                                 (SalesInvoice.calculateItem x)) itemNet).
  - lra.
  - intros item _. unfold SalesInvoice.calculateItem, itemNet. simpl.
    destruct (isPositive (SalesInvoiceSchema.discountPercent item));
      [field | reflexivity].
Qed.

(** X22. The pre-save hook of a sales invoice fails exactly when the
    invoice has no serial number and all ten drawn candidates are
    already in use; otherwise a missing serial number is replaced by a
    drawn candidate that no invoice uses and a given one is kept.
    netTotal becomes the sum over the items of quantity * rate minus
    discount, minus additionalDiscount plus carriageFreight; the status
    is pending exactly when amountReceived is 0, paid (with balance 0)
    only when amountReceived >= netTotal, never cancelled, and the
    balance is netTotal - amountReceived unless paid. *)
Theorem salesInvoice_preSave (coll : list SalesInvoiceSchema.t)
    (random : nat -> Q) (this : SalesInvoiceSchema.t) :
  let out := SalesInvoice.preSave coll random this in
  (out = None
   <-> (lacksSerialNo this
        /\ forall k, (k < 10)%nat ->
             SalesInvoice.findOneBySerialNo coll (serialCandidate random k)
             <> None))
  /\ (forall doc, out = Some doc ->
        (lacksSerialNo this ->
         exists k, (k < 10)%nat
                   /\ SalesInvoiceSchema.serialNo doc
                      = Some (serialCandidate random k)
                   /\ SalesInvoice.findOneBySerialNo coll
                        (serialCandidate random k) = None)
        /\ (~ lacksSerialNo this ->
            SalesInvoiceSchema.serialNo doc = SalesInvoiceSchema.serialNo this)
        /\ SalesInvoiceSchema.status doc <> SalesInvoiceSchema.cancelled
        /\ SalesInvoiceSchema.amountReceived doc
           = SalesInvoiceSchema.amountReceived this
        /\ SalesInvoiceSchema.netTotal doc
           == sumOf itemNet (SalesInvoiceSchema.items this)
              - SalesInvoiceSchema.additionalDiscount this
              + SalesInvoiceSchema.carriageFreight this
        /\ (SalesInvoiceSchema.status doc = SalesInvoiceSchema.pending
            <-> SalesInvoiceSchema.amountReceived this == 0)
        /\ (SalesInvoiceSchema.status doc = SalesInvoiceSchema.paid ->
            SalesInvoiceSchema.balance doc = 0
            /\ SalesInvoiceSchema.netTotal doc
               <= SalesInvoiceSchema.amountReceived this)
        /\ (SalesInvoiceSchema.status doc <> SalesInvoiceSchema.paid ->
            SalesInvoiceSchema.balance doc
            == SalesInvoiceSchema.netTotal doc
               - SalesInvoiceSchema.amountReceived this)).
Proof.
  cbv zeta. unfold SalesInvoice.preSave, lacksSerialNo.
  pose proof (generateSerialNo_spec coll random SalesInvoice.maxAttempts 0)
    as Hg.
  change (0 + SalesInvoice.maxAttempts)%nat with 10%nat in Hg.
  assert (Hgen :
    forall serial,
      (match SalesInvoiceSchema.serialNo this with
       | None | Some EmptyString =>
           SalesInvoice.generateSerialNo coll random 0 SalesInvoice.maxAttempts
       | Some s => Some s
       end) = serial ->
      match serial with
      | None =>
          (SalesInvoiceSchema.serialNo this = None
           \/ SalesInvoiceSchema.serialNo this = Some EmptyString)
          /\ forall k, (k < 10)%nat ->
               SalesInvoice.findOneBySerialNo coll (serialCandidate random k)
               <> None
      | Some s =>
          ((SalesInvoiceSchema.serialNo this = None
            \/ SalesInvoiceSchema.serialNo this = Some EmptyString) ->
           exists k, (k < 10)%nat /\ s = serialCandidate random k
                     /\ SalesInvoice.findOneBySerialNo coll
                          (serialCandidate random k) = None)
          /\ (~ (SalesInvoiceSchema.serialNo this = None
                 \/ SalesInvoiceSchema.serialNo this = Some EmptyString) ->
              Some s = SalesInvoiceSchema.serialNo this)
      end).
  { intros serial <-.
    destruct (SalesInvoiceSchema.serialNo this) as [[|c s]|] eqn:Hs.
    - destruct (SalesInvoice.generateSerialNo coll random 0 _) as [s|].
      + destruct Hg as (k & Hk & -> & Hn). split.
        * intros _. exists k. split; [lia | auto].
        * intros H. elim H. auto.
      + split; [auto |]. intros k Hk. apply Hg. lia.
    - split; [intros [H|H]; discriminate | reflexivity].
    - destruct (SalesInvoice.generateSerialNo coll random 0 _) as [s|].
      + destruct Hg as (k & Hk & -> & Hn). split.
        * intros _. exists k. split; [lia | auto].
        * intros H. elim H. auto.
      + split; [auto |]. intros k Hk. apply Hg. lia. }
  destruct (match SalesInvoiceSchema.serialNo this with
            | None | Some EmptyString =>
                SalesInvoice.generateSerialNo coll random 0
                  SalesInvoice.maxAttempts
            | Some s => Some s
            end) as [serial|] eqn:Hserial;
    specialize (Hgen _ eq_refl); simpl in Hgen.
  - split.
    + split; [discriminate |]. intros [Hl Hall].
      destruct Hgen as [Hgen _]. destruct (Hgen Hl) as (k & Hk & _ & Hn).
      elim (Hall k Hk). exact Hn.
    + intros doc H. injection H as <-. simpl.
      destruct Hgen as [Hg1 Hg2].
      split.
      { intros Hl. destruct (Hg1 Hl) as (k & Hk & -> & Hn). eauto. }
      split; [exact Hg2 |].
      pose proof (itemsTotal_sum (SalesInvoiceSchema.items this)) as Hsum.
      destruct (isZero (SalesInvoiceSchema.amountReceived this)) eqn:Hz;
        simpl.
      * apply isZero_spec in Hz.
        split; [discriminate |]. split; [reflexivity |].
        split; [rewrite Hsum; reflexivity |].
        split; [tauto |]. split; [discriminate |]. intros _. reflexivity.
      * assert (Hnz : ~ SalesInvoiceSchema.amountReceived this == 0).
        { intros H. apply isZero_spec in H. congruence. }
        destruct (Qle_bool _ (SalesInvoiceSchema.amountReceived this))
          eqn:Hle; simpl.
        -- apply Qle_bool_iff in Hle.
           split; [discriminate |]. split; [reflexivity |].
           split; [rewrite Hsum; reflexivity |].
           split; [split; [discriminate | intros H; contradiction] |].
           split; [intros _; split; [reflexivity | exact Hle] |].
           intros H. elim H. reflexivity.
        -- split; [discriminate |]. split; [reflexivity |].
           split; [rewrite Hsum; reflexivity |].
           split; [split; [discriminate | intros H; contradiction] |].
           split; [discriminate |]. intros _. reflexivity.
  - split; [| discriminate]. split; [intros _; exact Hgen | reflexivity].
Qed.

(** ** The inventory report *)

(** X29. getInventoryReport reports one line per active item, totalItems
    and totalStockValue (the sum of currentStock * purchasePrice) over
    the active items, and counts equal to the lengths of its alert
    lists. A line is 'Low Stock' exactly when currentStock <=
    minStockLevel and 'Out of Stock' exactly when currentStock is 0 and
    minStockLevel is negative, so with non-negative minimum stock levels
    outOfStockCount is always 0. *)
Theorem getInventoryReport_summary (coll : list ItemSchema.t) :
  let report := AccountingService.getInventoryReport coll in
  InventoryReport.totalItems report
  = List.length (filter ItemSchema.isActive coll)
  /\ InventoryReport.totalStockValue report
     == sumOf (fun i => ItemSchema.currentStock i * ItemSchema.purchasePrice i)
          (filter ItemSchema.isActive coll)
  /\ Permutation (InventoryReport.items report)
       (map InventoryReport.lineOf (filter ItemSchema.isActive coll))
  /\ InventoryReport.lowStockCount report
     = List.length (InventoryReport.lowStock report)
  /\ InventoryReport.outOfStockCount report
     = List.length (InventoryReport.outOfStock report)
  /\ (forall line, In line (InventoryReport.items report) ->
        (InventoryReport.stockStatus line = InventoryReport.LowStock
         <-> InventoryReport.currentStock line
             <= InventoryReport.minStockLevel line)
        /\ (InventoryReport.stockStatus line = InventoryReport.OutOfStock
            <-> (InventoryReport.currentStock line == 0
                 /\ InventoryReport.minStockLevel line < 0)))
  /\ (forall line, In line (InventoryReport.outOfStock report) ->
        InventoryReport.minStockLevel line < 0)
  /\ (Forall (fun i => 0 <= ItemSchema.minStockLevel i) coll ->
      InventoryReport.outOfStockCount report = 0%nat).
Proof.
  cbv zeta. unfold AccountingService.getInventoryReport. simpl.
  set (items := GeneralLedger.sortBy InventoryReport.byCategoryThenCode
                  (filter ItemSchema.isActive coll)).
  assert (Hperm : Permutation items (filter ItemSchema.isActive coll))
    by apply sortBy_Permutation.
  assert (Hline : forall line, In line (map InventoryReport.lineOf items) ->
            (InventoryReport.stockStatus line = InventoryReport.LowStock
             <-> InventoryReport.currentStock line
                 <= InventoryReport.minStockLevel line)
            /\ (InventoryReport.stockStatus line = InventoryReport.OutOfStock
                <-> (InventoryReport.currentStock line == 0
                     /\ InventoryReport.minStockLevel line < 0))).
  { intros line Hin. apply in_map_iff in Hin. destruct Hin as (i & <- & _).
    unfold InventoryReport.lineOf. simpl.
    destruct (Qle_bool (ItemSchema.currentStock i) (ItemSchema.minStockLevel i))
      eqn:Hle.
    - apply Qle_bool_iff in Hle. split; [tauto |].
      split; [discriminate | intros [H0 H1]; lra].
    - assert (Hgt : ~ ItemSchema.currentStock i <= ItemSchema.minStockLevel i).
      { intros Hc. apply Qle_bool_iff in Hc. congruence. }
      destruct (isZero (ItemSchema.currentStock i)) eqn:Hz.
      + apply isZero_spec in Hz.
        split; [split; [discriminate | intros Hc; contradiction] |].
        split; [intros _; split; [exact Hz | lra] | reflexivity].
      + assert (Hnz : ~ ItemSchema.currentStock i == 0).
        { intros Hc. apply isZero_spec in Hc. congruence. }
        split; [split; [discriminate | intros Hc; contradiction] |].
        split; [discriminate | intros [Hc _]; contradiction]. }
  assert (Hout : forall line,
            In line (filter (fun item =>
                               InventoryReport.StockStatus_eqb
                                 (InventoryReport.stockStatus item)
                                 InventoryReport.OutOfStock)
                       (map InventoryReport.lineOf items)) ->
            InventoryReport.minStockLevel line < 0).
  { intros line Hin. apply filter_In in Hin. destruct Hin as [Hin Hs].
    destruct (Hline line Hin) as [_ Ho].
    destruct (InventoryReport.stockStatus line); try discriminate.
    apply Ho. reflexivity. }
  split.
  { rewrite length_map. apply Permutation_length. exact Hperm. }
  split.
  { rewrite fold_left_sum, sumOf_map. simpl. unfold items.
    rewrite sumOf_sortBy. lra. }
  split; [apply Permutation_map; exact Hperm |].
  split; [reflexivity |]. split; [reflexivity |].
  split; [exact Hline |]. split; [exact Hout |].
  intros Hmin.
  destruct (filter _ (map InventoryReport.lineOf items)) as [|line rest] eqn:E;
    [reflexivity |].
  exfalso.
  assert (Hin : In line (filter (fun item =>
                                   InventoryReport.StockStatus_eqb
                                     (InventoryReport.stockStatus item)
                                     InventoryReport.OutOfStock)
                           (map InventoryReport.lineOf items)))
    by (rewrite E; left; reflexivity).
  pose proof (Hout line (or_introl eq_refl)) as Hneg.
  apply filter_In in Hin. destruct Hin as [Hin _].
  apply in_map_iff in Hin. destruct Hin as (i & <- & Hi).
  apply (Permutation_in _ Hperm) in Hi. apply filter_In in Hi.
  rewrite Forall_forall in Hmin. specialize (Hmin i (proj1 Hi)).
  simpl in Hneg. lra.
Qed.

(** ** Balance recalculation *)

Lemma setBalance_same (r : GeneralLedgerSchema.t) :
  RecalculateBalances.setBalance (GeneralLedgerSchema.balance r) r = r.
Proof. destruct r; reflexivity. Qed.

Lemma sameButBalance_refl (r : GeneralLedgerSchema.t) : sameButBalance r r.
Proof. unfold sameButBalance. symmetry. apply setBalance_same. Qed.

Lemma sameButBalance_set (b : Q) (r : GeneralLedgerSchema.t) :
  sameButBalance r (RecalculateBalances.setBalance b r).
Proof. unfold sameButBalance. reflexivity. Qed.

Lemma sameButBalance_trans (a b c : GeneralLedgerSchema.t) :
  sameButBalance a b -> sameButBalance b c -> sameButBalance a c.
Proof.
  unfold sameButBalance. intros H1 H2. rewrite H2, H1 at 1. reflexivity.
Qed.

Lemma recalculated_same (type : AccountType)
    (entries : list GeneralLedgerSchema.t) (running : Q)
    (r : GeneralLedgerSchema.t) :
  sameButBalance r (recalculated type running entries r).
Proof.
  revert running r. induction entries as [|e entries IH]; intros running r;
    simpl; [apply sameButBalance_refl |].
  destruct (negb _ && Nat.eqb _ _).
  - eapply sameButBalance_trans; [apply sameButBalance_set | apply IH].
  - apply IH.
Qed.

Lemma sameButBalance_fields (a b : GeneralLedgerSchema.t) :
  sameButBalance a b ->
  GeneralLedgerSchema._id b = GeneralLedgerSchema._id a
  /\ GeneralLedgerSchema.accountCode b = GeneralLedgerSchema.accountCode a
  /\ GeneralLedgerSchema.accountType b = GeneralLedgerSchema.accountType a
  /\ GeneralLedgerSchema.status b = GeneralLedgerSchema.status a
  /\ GeneralLedgerSchema.date b = GeneralLedgerSchema.date a
  /\ GeneralLedgerSchema.createdAt b = GeneralLedgerSchema.createdAt a
  /\ GeneralLedgerSchema.debit b = GeneralLedgerSchema.debit a
  /\ GeneralLedgerSchema.credit b = GeneralLedgerSchema.credit a.
Proof. unfold sameButBalance. intros ->. simpl. auto 10. Qed.

(** With unique ids, [updateOne] is a map. *)
Lemma updateOne_map (coll : list GeneralLedgerSchema.t) (i : ObjectId)
    (b : Q) :
  NoDup (map GeneralLedgerSchema._id coll) ->
  RecalculateBalances.updateOne coll i b
  = map (fun r => if Nat.eqb (GeneralLedgerSchema._id r) i
                  then RecalculateBalances.setBalance b r else r) coll.
Proof.
  induction coll as [|r coll IH]; simpl; intros H; [reflexivity |].
  inversion H as [|? ? Hn Hd]; subst.
  destruct (Nat.eqb (GeneralLedgerSchema._id r) i) eqn:E.
  - f_equal. apply Nat.eqb_eq in E. subst i.
    clear IH H Hd. induction coll as [|x coll IH]; simpl; [reflexivity |].
    destruct (Nat.eqb (GeneralLedgerSchema._id x) (GeneralLedgerSchema._id r))
      eqn:Ex.
    + apply Nat.eqb_eq in Ex. elim Hn. left. exact Ex.
    + f_equal. apply IH. intros Hin. apply Hn. right. exact Hin.
  - f_equal. apply IH. exact Hd.
Qed.

Lemma map_ids {f : GeneralLedgerSchema.t -> GeneralLedgerSchema.t}
    (coll : list GeneralLedgerSchema.t) :
  (forall r, GeneralLedgerSchema._id (f r) = GeneralLedgerSchema._id r) ->
  map GeneralLedgerSchema._id (map f coll) = map GeneralLedgerSchema._id coll.
Proof.
  intros H. rewrite map_map. apply map_ext. exact H.
Qed.

Lemma recalculateEntries_map (type : AccountType)
    (entries : list GeneralLedgerSchema.t) (running : Q)
    (coll : list GeneralLedgerSchema.t) :
  NoDup (map GeneralLedgerSchema._id coll) ->
  RecalculateBalances.recalculateEntries type running entries coll
  = map (recalculated type running entries) coll.
Proof.
  revert running coll.
  induction entries as [|e entries IH]; intros running coll Hnd; simpl.
  - symmetry. apply map_id.
  - destruct (negb (Qeq_bool (GeneralLedgerSchema.balance e)
                      (running + RecalculateBalances.increase type e))); simpl.
    + rewrite updateOne_map by exact Hnd. rewrite IH.
      * rewrite map_map. reflexivity.
      * rewrite map_ids; [exact Hnd |].
        intros r. destruct (Nat.eqb _ _); reflexivity.
    + apply IH. exact Hnd.
Qed.

Lemma recalculated_other (type : AccountType)
    (entries : list GeneralLedgerSchema.t) (running : Q)
    (r : GeneralLedgerSchema.t) :
  ~ In (GeneralLedgerSchema._id r) (map GeneralLedgerSchema._id entries) ->
  recalculated type running entries r = r.
Proof.
  revert running. induction entries as [|e entries IH]; intros running Hn;
    simpl; [reflexivity |].
  destruct (Nat.eqb (GeneralLedgerSchema._id r) (GeneralLedgerSchema._id e))
    eqn:E.
  - apply Nat.eqb_eq in E. elim Hn. left. symmetry. exact E.
  - rewrite andb_false_r. apply IH. intros H. apply Hn. right. exact H.
Qed.

(** After the loop over the entries of an account, each of them carries
    its running balance. *)
Lemma recalculated_running (type : AccountType)
    (entries : list GeneralLedgerSchema.t) (running : Q) :
  NoDup (map GeneralLedgerSchema._id entries) ->
  Forall2 (fun e b =>
             GeneralLedgerSchema.balance (recalculated type running entries e)
             == b)
    entries (runningBalances type running entries).
Proof.
  revert running. induction entries as [|e entries IH]; intros running Hnd;
    simpl; [constructor |].
  inversion Hnd as [|? ? Hn Hd]; subst.
  constructor.
  - rewrite Nat.eqb_refl, andb_true_r.
    destruct (Qeq_bool (GeneralLedgerSchema.balance e)
                (running + RecalculateBalances.increase type e)) eqn:Hq; simpl.
    + rewrite recalculated_other by exact Hn. apply Qeq_bool_iff. exact Hq.
    + rewrite recalculated_other by exact Hn. simpl. reflexivity.
  - specialize (IH (running + RecalculateBalances.increase type e) Hd).
    assert (Hstep : forall x, In x entries ->
              (if negb (Qeq_bool (GeneralLedgerSchema.balance e)
                          (running + RecalculateBalances.increase type e))
                  && Nat.eqb (GeneralLedgerSchema._id x)
                       (GeneralLedgerSchema._id e)
               then RecalculateBalances.setBalance
                      (running + RecalculateBalances.increase type e) x
               else x) = x).
    { intros x Hx.
      destruct (Nat.eqb (GeneralLedgerSchema._id x) (GeneralLedgerSchema._id e))
        eqn:E.
      - apply Nat.eqb_eq in E. elim Hn. rewrite <- E. apply in_map. exact Hx.
      - rewrite andb_false_r. reflexivity. }
    clear Hnd Hn Hd.
    revert IH Hstep.
    generalize (runningBalances type
                  (running + RecalculateBalances.increase type e) entries).
    generalize (recalculated type
                  (running + RecalculateBalances.increase type e) entries).
    intros g bs. revert bs.
    induction entries as [|x entries IHe]; intros bs H Hstep;
      inversion H; subst; constructor.
    + rewrite Hstep by (left; reflexivity). assumption.
    + apply IHe; [assumption |]. intros z Hz. apply Hstep. right. exact Hz.
Qed.

Section BalanceBlind.
Context (f : GeneralLedgerSchema.t -> GeneralLedgerSchema.t).
Hypothesis f_same : forall r, sameButBalance r (f r).

Lemma filter_active_map (code : string) (coll : list GeneralLedgerSchema.t) :
  filter (fun r => String.eqb (GeneralLedgerSchema.accountCode r) code
                   && LedgerStatus_eqb (GeneralLedgerSchema.status r) Active)
    (map f coll)
  = map f (filter (fun r =>
                     String.eqb (GeneralLedgerSchema.accountCode r) code
                     && LedgerStatus_eqb (GeneralLedgerSchema.status r) Active)
             coll).
Proof.
  induction coll as [|r coll IH]; simpl; [reflexivity |].
  destruct (sameButBalance_fields _ _ (f_same r)) as (_ & -> & _ & -> & _).
  destruct (String.eqb _ code && LedgerStatus_eqb _ Active); simpl;
    rewrite IH; reflexivity.
Qed.

Lemma byDateThenCreation_map (a b : GeneralLedgerSchema.t) :
  GeneralLedger.byDateThenCreation (f a) (f b)
  = GeneralLedger.byDateThenCreation a b.
Proof.
  unfold GeneralLedger.byDateThenCreation, GeneralLedger.after.
  destruct (sameButBalance_fields _ _ (f_same a)) as (_ & _ & _ & _ & -> & -> & _).
  destruct (sameButBalance_fields _ _ (f_same b)) as (_ & _ & _ & _ & -> & -> & _).
  reflexivity.
Qed.

Lemma insertSorted_map (x : GeneralLedgerSchema.t)
    (l : list GeneralLedgerSchema.t) :
  GeneralLedger.insertSorted GeneralLedger.byDateThenCreation (f x) (map f l)
  = map f (GeneralLedger.insertSorted GeneralLedger.byDateThenCreation x l).
Proof.
  induction l as [|y l IH]; simpl; [reflexivity |].
  rewrite byDateThenCreation_map.
  destruct (GeneralLedger.byDateThenCreation x y); simpl;
    [reflexivity | rewrite IH; reflexivity].
Qed.

Lemma sortBy_map (l : list GeneralLedgerSchema.t) :
  GeneralLedger.sortBy GeneralLedger.byDateThenCreation (map f l)
  = map f (GeneralLedger.sortBy GeneralLedger.byDateThenCreation l).
Proof.
  induction l as [|x l IH]; simpl; [reflexivity |].
  rewrite IH. apply insertSorted_map.
Qed.

Lemma findActive_map (coll : list GeneralLedgerSchema.t) (code : string) :
  RecalculateBalances.findActive (map f coll) code
  = map f (RecalculateBalances.findActive coll code).
Proof.
  unfold RecalculateBalances.findActive.
  rewrite filter_active_map. apply sortBy_map.
Qed.

End BalanceBlind.

Lemma findActive_In (coll : list GeneralLedgerSchema.t) (code : string)
    (r : GeneralLedgerSchema.t) :
  In r (RecalculateBalances.findActive coll code)
  <-> (In r coll /\ GeneralLedgerSchema.accountCode r = code
       /\ GeneralLedgerSchema.status r = Active).
Proof.
  unfold RecalculateBalances.findActive.
  rewrite In_sortBy, filter_In, andb_true_iff, String.eqb_eq,
    LedgerStatus_eqb_eq. tauto.
Qed.

Lemma findActive_NoDup (coll : list GeneralLedgerSchema.t) (code : string) :
  NoDup (map GeneralLedgerSchema._id coll) ->
  NoDup (map GeneralLedgerSchema._id
           (RecalculateBalances.findActive coll code)).
Proof.
  intros H. unfold RecalculateBalances.findActive.
  eapply Permutation_NoDup.
  { apply Permutation_map. symmetry. apply sortBy_Permutation. }
  apply NoDup_map_filter. exact H.
Qed.

Lemma runningBalances_map (f : GeneralLedgerSchema.t -> GeneralLedgerSchema.t)
    (type : AccountType) (entries : list GeneralLedgerSchema.t) (running : Q) :
  (forall r, sameButBalance r (f r)) ->
  runningBalances type running (map f entries)
  = runningBalances type running entries.
Proof.
  intros Hf. revert running.
  induction entries as [|e entries IH]; intros running; simpl; [reflexivity |].
  assert (Hi : RecalculateBalances.increase type (f e)
               = RecalculateBalances.increase type e).
  { unfold RecalculateBalances.increase.
    destruct (sameButBalance_fields _ _ (Hf e))
      as (_ & _ & _ & _ & _ & _ & -> & ->).
    reflexivity. }
  rewrite Hi, IH. reflexivity.
Qed.

Lemma carries_of_map (g : GeneralLedgerSchema.t -> GeneralLedgerSchema.t)
    (first : GeneralLedgerSchema.t) (rest : list GeneralLedgerSchema.t) :
  (forall r, sameButBalance r (g r)) ->
  Forall2 (fun e b => GeneralLedgerSchema.balance (g e) == b) (first :: rest)
    (runningBalances (GeneralLedgerSchema.accountType first) 0
       (first :: rest)) ->
  match map g (first :: rest) with
  | [] => True
  | first' :: rest' =>
      Forall2 (fun entry b => GeneralLedgerSchema.balance entry == b)
        (first' :: rest')
        (runningBalances (GeneralLedgerSchema.accountType first') 0
           (first' :: rest'))
  end.
Proof.
  intros Hg H. cbn [map].
  destruct (sameButBalance_fields _ _ (Hg first)) as (_ & _ & Hty & _).
  rewrite Hty.
  change (g first :: map g rest) with (map g (first :: rest)).
  rewrite (runningBalances_map g _ (first :: rest) 0 Hg).
  revert H.
  generalize (runningBalances (GeneralLedgerSchema.accountType first) 0
                (first :: rest)).
  generalize (first :: rest).
  intros l bs H. induction H; simpl; constructor; assumption.
Qed.

(** One account: what [recalculateAccount] does. *)
Lemma recalculateAccount_spec (coll : list GeneralLedgerSchema.t)
    (code : string) :
  NoDup (map GeneralLedgerSchema._id coll) ->
  exists f,
    RecalculateBalances.recalculateAccount coll code = map f coll
    /\ (forall r, sameButBalance r (f r))
    /\ (forall r, In r coll -> GeneralLedgerSchema.accountCode r <> code ->
                  f r = r)
    /\ carriesRunningBalance (map f coll) code.
Proof.
  intros Hnd. unfold RecalculateBalances.recalculateAccount.
  destruct (RecalculateBalances.findActive coll code) as [|first rest] eqn:E.
  - exists (fun r => r). split; [symmetry; apply map_id |].
    split; [apply sameButBalance_refl |]. split; [reflexivity |].
    unfold carriesRunningBalance. rewrite map_id, E. exact I.
  - set (entries := first :: rest) in *.
    set (type := GeneralLedgerSchema.accountType first).
    exists (recalculated type 0 entries).
    split; [apply recalculateEntries_map; exact Hnd |].
    split; [intros r; apply recalculated_same |].
    assert (Hids : NoDup (map GeneralLedgerSchema._id entries)).
    { rewrite <- E. apply findActive_NoDup. exact Hnd. }
    split.
    + intros r Hin Hcode. apply recalculated_other.
      intros Hid. apply in_map_iff in Hid. destruct Hid as (e & Hide & He).
      rewrite <- E in He. apply findActive_In in He.
      destruct He as (Hine & Hce & _).
      assert (e = r).
      { clear - Hnd Hin Hine Hide.
        induction coll as [|x coll IH]; [contradiction |].
        simpl in Hnd. inversion Hnd as [|? ? Hn Hd]; subst.
        destruct Hin as [->|Hin], Hine as [->|Hine]; auto.
        - elim Hn. rewrite <- Hide. apply in_map. exact Hine.
        - elim Hn. rewrite Hide. apply in_map. exact Hin. }
      subst e. contradiction.
    + unfold carriesRunningBalance.
      rewrite (findActive_map _ (recalculated_same type entries 0)), E.
      apply carries_of_map; [apply recalculated_same |].
      apply recalculated_running. exact Hids.
Qed.

Lemma filter_unchanged (f : GeneralLedgerSchema.t -> GeneralLedgerSchema.t)
    (code : string) (coll : list GeneralLedgerSchema.t) :
  (forall r, sameButBalance r (f r)) ->
  (forall r, In r coll -> GeneralLedgerSchema.accountCode r = code -> f r = r) ->
  RecalculateBalances.findActive (map f coll) code
  = RecalculateBalances.findActive coll code.
Proof.
  intros Hf Hsame. rewrite (findActive_map f Hf).
  rewrite <- (map_id (RecalculateBalances.findActive coll code)) at 2.
  apply map_ext_in. intros r Hr. apply findActive_In in Hr.
  apply Hsame; tauto.
Qed.

(** The loop over the account codes. *)
Lemma recalculate_fold (codes : list string)
    (coll : list GeneralLedgerSchema.t) (done : list string) :
  NoDup (map GeneralLedgerSchema._id coll) ->
  NoDup codes ->
  (forall c, In c done -> ~ In c codes) ->
  (forall c, In c done -> carriesRunningBalance coll c) ->
  let coll' := fold_left RecalculateBalances.recalculateAccount codes coll in
  Forall2 sameButBalance coll coll'
  /\ forall c, In c done \/ In c codes -> carriesRunningBalance coll' c.
Proof.
  revert coll done.
  induction codes as [|code codes IH]; intros coll done Hnd Hcodes Hdis Hdone;
    simpl.
  - split.
    + clear. induction coll; constructor; auto. apply sameButBalance_refl.
    + intros c [Hc|[]]. apply Hdone. exact Hc.
  - inversion Hcodes as [|? ? Hn Hd]; subst.
    destruct (recalculateAccount_spec coll code Hnd)
      as (f & Heq & Hsame & Hother & Hcarry).
    rewrite Heq.
    destruct (IH (map f coll) (code :: done)) as [H1 H2].
    + rewrite map_ids; [exact Hnd |].
      intros r. destruct (sameButBalance_fields _ _ (Hsame r)) as (-> & _).
      reflexivity.
    + exact Hd.
    + intros c [<-|Hc]; [exact Hn |].
      intros Hin. apply (Hdis c Hc). right. exact Hin.
    + intros c [<-|Hc]; [exact Hcarry |].
      unfold carriesRunningBalance.
      rewrite (filter_unchanged f c coll Hsame).
      * apply Hdone. exact Hc.
      * intros r Hin Hcode. apply Hother; [exact Hin |].
        intros Heqc. apply (Hdis c Hc). left. congruence.
    + cbv zeta in H1, H2. split.
      * clear - H1 Hsame.
        revert H1.
        generalize (fold_left RecalculateBalances.recalculateAccount codes
                      (map f coll)).
        induction coll as [|r coll IHc]; intros l H; inversion H; subst;
          constructor.
        -- eapply sameButBalance_trans; [apply Hsame | eassumption].
        -- apply IHc. assumption.
      * intros c [Hc|[<-|Hc]]; apply H2; simpl; auto.
Qed.

Lemma findActive_absent (coll : list GeneralLedgerSchema.t) (code : string) :
  ~ In code (map GeneralLedgerSchema.accountCode coll) ->
  RecalculateBalances.findActive coll code = [].
Proof.
  intros H.
  destruct (RecalculateBalances.findActive coll code) as [|r l] eqn:E;
    [reflexivity |].
  exfalso. assert (Hin : In r (RecalculateBalances.findActive coll code))
    by (rewrite E; left; reflexivity).
  apply findActive_In in Hin. destruct Hin as (Hin & Hc & _).
  apply H. rewrite <- Hc. apply in_map. exact Hin.
Qed.

(** X30. On a ledger whose rows have distinct ids, recalculateBalances
    changes nothing but the balance field of rows. Afterwards the Active
    rows of every account, in date-then-creation order, carry the
    running balance computed from 0 with the sign rule of the account
    type of the account's first row. *)
Theorem recalculateBalances_restores (coll : list GeneralLedgerSchema.t) :
  NoDup (map GeneralLedgerSchema._id coll) ->
  let coll' := RecalculateBalances.recalculateBalances coll in
  Forall2 sameButBalance coll coll'
  /\ forall code, carriesRunningBalance coll' code.
Proof.
  intros Hnd. cbv zeta. unfold RecalculateBalances.recalculateBalances.
  destruct (recalculate_fold (RecalculateBalances.distinct coll) coll [] Hnd)
    as [H1 H2].
  - apply NoDup_nodup.
  - intros c [].
  - intros c [].
  - cbv zeta in H1, H2. split; [exact H1 |].
    intros code.
    destruct (in_dec string_dec code
                (map GeneralLedgerSchema.accountCode coll)) as [Hin|Hout].
    + apply H2. right. unfold RecalculateBalances.distinct.
      apply nodup_In. exact Hin.
    + unfold carriesRunningBalance.
      rewrite findActive_absent; [exact I |].
      intros Hc. apply Hout.
      clear - H1 Hc. revert H1 Hc.
      generalize (fold_left RecalculateBalances.recalculateAccount
                    (RecalculateBalances.distinct coll) coll).
      induction coll as [|r coll IH]; intros l H Hc; inversion H; subst;
        simpl in *; [contradiction |].
      destruct Hc as [Hc|Hc].
      * left. match goal with
              | Hs : sameButBalance r _ |- _ =>
                  destruct (sameButBalance_fields _ _ Hs) as (_ & He & _)
              end. congruence.
      * right. eapply IH; eassumption.
Qed.

Lemma recalculateBalances_restores_witness :
  NoDup (map GeneralLedgerSchema._id (generalLedger Scenario.afterSale))
  /\ forall code,
       carriesRunningBalance
         (RecalculateBalances.recalculateBalances
            (generalLedger Scenario.afterSale)) code.
Proof.
  assert (H : NoDup (map GeneralLedgerSchema._id
                       (generalLedger Scenario.afterSale))).
  { assert (E : map GeneralLedgerSchema._id (generalLedger Scenario.afterSale)
                = [1%nat; 2%nat]) by (vm_compute; reflexivity).
    rewrite E. constructor; [simpl; intros [H|[]]; discriminate |].
    constructor; [simpl; tauto | constructor]. }
  split; [exact H |].
  exact (proj2 (recalculateBalances_restores _ H)).
Defined.

(** ** Entries of the business documents *)

Lemma account_run (code name : string) (type : AccountType) (db : Db) :
  AccountingService.account code name type db
  = (db, match resolved (chartOfAccounts db) code with
         | Some account => inr account
         | None => inl ValidationError
         end).
Proof. apply getOrCreateAccount_resolved. Qed.

(** Running an adapter that begins with an account lookup. *)
Lemma andThen_account {B : Type} (code name : string) (type : AccountType)
    (k : ChartOfAccountSchema.t -> Action B) (db : Db) :
  andThen (AccountingService.account code name type) k db
  = match resolved (chartOfAccounts db) code with
    | Some account => k account db
    | None => (db, inl ValidationError)
    end.
Proof.
  unfold andThen. rewrite account_run.
  destruct (resolved _ _); reflexivity.
Qed.

Ltac run_adapter :=
  repeat (rewrite andThen_account;
          match goal with
          | |- context [match resolved ?chart ?code with _ => _ end] =>
              destruct (resolved chart code); [| reflexivity]
          end);
  cbv beta zeta;
  try (apply createJournalEntry_without_tenant; reflexivity).

Lemma createSalesJournalEntry_run (db : Db) (now : Date) (ledgerUp : bool)
    (salesInvoice : SalesInvoiceSchema.t) (userId : ObjectId) :
  AccountingService.createSalesJournalEntry db now ledgerUp salesInvoice userId
  = (db,
     inl match resolved (chartOfAccounts db) "4000",
               resolved (chartOfAccounts db) "1200",
               resolved (chartOfAccounts db) "1000" with
         | Some revenueAccount, Some receivableAccount, Some cashAccount =>
             rejection (AccountingService.salesLines salesInvoice
                          revenueAccount receivableAccount cashAccount)
         | _, _, _ => ValidationError
         end).
Proof. unfold AccountingService.createSalesJournalEntry. run_adapter. Qed.

Lemma createPurchaseJournalEntry_run (db : Db) (now : Date) (ledgerUp : bool)
    (purchase : PurchaseSchema.t) (userId : ObjectId) :
  AccountingService.createPurchaseJournalEntry db now ledgerUp purchase userId
  = (db,
     inl match resolved (chartOfAccounts db) "1300",
               resolved (chartOfAccounts db) "2000" with
         | Some inventoryAccount, Some payableAccount =>
             rejection (AccountingService.purchaseLines purchase
                          inventoryAccount payableAccount)
         | _, _ => ValidationError
         end).
Proof. unfold AccountingService.createPurchaseJournalEntry. run_adapter. Qed.

Lemma createPlotBookingJournalEntry_run (db : Db) (now : Date)
    (ledgerUp : bool) (plot : PlotSchema.t) (userId : ObjectId) :
  AccountingService.createPlotBookingJournalEntry db now ledgerUp plot userId
  = (db,
     inl match resolved (chartOfAccounts db) "4001",
               resolved (chartOfAccounts db) "1200",
               resolved (chartOfAccounts db) "1000" with
         | Some revenueAccount, Some receivableAccount, Some cashAccount =>
             rejection (AccountingService.plotBookingLines plot
                          revenueAccount receivableAccount cashAccount)
         | _, _, _ => ValidationError
         end).
Proof.
  unfold AccountingService.createPlotBookingJournalEntry. run_adapter.
Qed.

Lemma createPlotSalesInvoiceJournalEntry_run (db : Db) (now : Date)
    (ledgerUp : bool) (salesInvoice : SalesInvoiceSchema.t)
    (userId : ObjectId) :
  AccountingService.createPlotSalesInvoiceJournalEntry db now ledgerUp
    salesInvoice userId
  = (db,
     inl match resolved (chartOfAccounts db) "4001",
               resolved (chartOfAccounts db) "1003",
               resolved (chartOfAccounts db) "1001" with
         | Some revenueAccount, Some receivableAccount, Some cashAccount =>
             rejection (AccountingService.plotInvoiceLines salesInvoice
                          revenueAccount receivableAccount cashAccount)
         | _, _, _ => ValidationError
         end).
Proof.
  unfold AccountingService.createPlotSalesInvoiceJournalEntry. run_adapter.
Qed.

Lemma rejection_balance (lines : list LineObject.t) (debit credit : Q) :
  AccountingService.rawDebit lines == debit ->
  AccountingService.rawCredit lines == credit ->
  ((exists totalDebit totalCredit,
      rejection lines = NotBalanced totalDebit totalCredit)
   <-> 1 # 100 < Qabs (debit - credit))
  /\ (rejection lines = ValidationError <-> Qabs (debit - credit) <= 1 # 100).
Proof.
  intros Hd Hc. unfold rejection.
  assert (Hq : Qabs (AccountingService.rawDebit lines
                     - AccountingService.rawCredit lines)
               == Qabs (debit - credit))
    by (rewrite Hd, Hc; reflexivity).
  destruct (JournalEntry.exceeds _ _) eqn:Hx.
  - apply exceeds_iff in Hx. unfold JournalEntry.tolerance in Hx.
    rewrite Hq in Hx. split.
    + split; [intros _; exact Hx | intros _; eauto].
    + split; [discriminate | intros H; lra].
  - apply exceeds_false_iff in Hx. unfold JournalEntry.tolerance in Hx.
    rewrite Hq in Hx. split.
    + split; [intros (td & tc & H); discriminate | intros H; lra].
    + split; [intros _; exact Hx | reflexivity].
Qed.

Lemma salesLines_totals (salesInvoice : SalesInvoiceSchema.t)
    (revenueAccount receivableAccount cashAccount : ChartOfAccountSchema.t) :
  let lines := AccountingService.salesLines salesInvoice revenueAccount
                 receivableAccount cashAccount in
  AccountingService.rawDebit lines
  == positivePart (SalesInvoiceSchema.amountReceived salesInvoice)
     + positivePart (SalesInvoiceSchema.balance salesInvoice)
  /\ AccountingService.rawCredit lines
     == SalesInvoiceSchema.netTotal salesInvoice.
Proof.
  cbv zeta. unfold AccountingService.salesLines, positivePart,
    AccountingService.rawDebit, AccountingService.rawCredit.
  destruct (isPositive (SalesInvoiceSchema.amountReceived salesInvoice));
    destruct (isPositive (SalesInvoiceSchema.balance salesInvoice));
    simpl; split; ring.
Qed.

Lemma purchaseLines_totals (purchase : PurchaseSchema.t)
    (inventoryAccount payableAccount : ChartOfAccountSchema.t) :
  let lines := AccountingService.purchaseLines purchase inventoryAccount
                 payableAccount in
  AccountingService.rawDebit lines == PurchaseSchema.netAmount purchase
  /\ AccountingService.rawCredit lines == PurchaseSchema.netAmount purchase.
Proof.
  cbv zeta. unfold AccountingService.purchaseLines,
    AccountingService.rawDebit, AccountingService.rawCredit.
  simpl; split; ring.
Qed.

Lemma plotBookingLines_totals (plot : PlotSchema.t)
    (revenueAccount receivableAccount cashAccount : ChartOfAccountSchema.t) :
  let lines := AccountingService.plotBookingLines plot revenueAccount
                 receivableAccount cashAccount in
  AccountingService.rawDebit lines
  == positivePart (AccountingService.plotBookingReceived plot)
     + positivePart (AccountingService.plotTotalAmount plot
                     - AccountingService.plotBookingReceived plot)
  /\ AccountingService.rawCredit lines
     == AccountingService.plotTotalAmount plot.
Proof.
  cbv zeta. unfold AccountingService.plotBookingLines, positivePart,
    AccountingService.rawDebit, AccountingService.rawCredit.
  destruct (isPositive (AccountingService.plotBookingReceived plot));
    destruct (isPositive (AccountingService.plotTotalAmount plot
                          - AccountingService.plotBookingReceived plot));
    simpl; split; ring.
Qed.

Lemma plotInvoiceLines_totals (salesInvoice : SalesInvoiceSchema.t)
    (revenueAccount receivableAccount cashAccount : ChartOfAccountSchema.t) :
  let lines := AccountingService.plotInvoiceLines salesInvoice revenueAccount
                 receivableAccount cashAccount in
  AccountingService.rawDebit lines
  == SalesInvoiceSchema.netTotal salesInvoice
     + positivePart (SalesInvoiceSchema.amountReceived salesInvoice)
  /\ AccountingService.rawCredit lines
     == SalesInvoiceSchema.netTotal salesInvoice
        + SalesInvoiceSchema.amountReceived salesInvoice.
Proof.
  cbv zeta. unfold AccountingService.plotInvoiceLines, positivePart,
    AccountingService.rawDebit, AccountingService.rawCredit.
  destruct (isPositive (SalesInvoiceSchema.amountReceived salesInvoice));
    simpl; split; ring.
Qed.

(** X16. createSalesJournalEntry never posts an entry and never changes
    the database. When the accounts 4000, 1200 and 1000 resolve it fails
    with the 'not balanced' error if the positive parts of
    amountReceived and balance differ from netTotal by more than 0.01,
    and with the validation error otherwise, the entry data it builds
    having no tenantId; when one of the accounts does not resolve it
    fails with the validation error of the account creation. *)
Theorem createSalesJournalEntry_outcome (db : Db) (now : Date)
    (ledgerUp : bool) (salesInvoice : SalesInvoiceSchema.t)
    (userId : ObjectId) :
  let out := AccountingService.createSalesJournalEntry db now ledgerUp
               salesInvoice userId in
  let resolve := resolved (chartOfAccounts db) in
  let gap :=
    Qabs (positivePart (SalesInvoiceSchema.amountReceived salesInvoice)
          + positivePart (SalesInvoiceSchema.balance salesInvoice)
          - SalesInvoiceSchema.netTotal salesInvoice) in
  fst out = db
  /\ (forall journalEntry, snd out <> inr journalEntry)
  /\ ((exists totalDebit totalCredit,
         snd out = inl (NotBalanced totalDebit totalCredit))
      <-> resolve "4000" <> None /\ resolve "1200" <> None
          /\ resolve "1000" <> None /\ 1 # 100 < gap)
  /\ (snd out = inl ValidationError
      <-> resolve "4000" = None \/ resolve "1200" = None
          \/ resolve "1000" = None \/ gap <= 1 # 100).
Proof.
  cbv zeta. rewrite createSalesJournalEntry_run. simpl.
  split; [reflexivity |]. split; [discriminate |].
  destruct (resolved (chartOfAccounts db) "4000") as [a1|];
    [| split; [split; [intros (? & ? & H); discriminate | tauto]
              | split; auto]].
  destruct (resolved (chartOfAccounts db) "1200") as [a2|];
    [| split; [split; [intros (? & ? & H); discriminate | tauto]
              | split; auto]].
  destruct (resolved (chartOfAccounts db) "1000") as [a3|];
    [| split; [split; [intros (? & ? & H); discriminate | tauto]
              | split; auto 6]].
  destruct (salesLines_totals salesInvoice a1 a2 a3) as [Hd Hc].
  destruct (rejection_balance _ _ _ Hd Hc) as [Hn Hv].
  split.
  - split.
    + intros (td & tc & H). injection H as H.
      repeat (split; [discriminate |]). apply Hn. eauto.
    + intros (_ & _ & _ & H). apply Hn in H. destruct H as (td & tc & H).
      exists td, tc. rewrite H. reflexivity.
  - split.
    + intros H. injection H as H. apply Hv in H. auto 6.
    + intros [H|[H|[H|H]]]; try discriminate H.
      apply Hv in H. rewrite H. reflexivity.
Qed.

(** X17. createPurchaseJournalEntry never posts an entry and never
    changes the database: it always fails with the validation error, of
    the account creation when account 1300 or 2000 does not resolve and
    of the entry otherwise, whose two lines, debiting and crediting
    netAmount, balance but whose data have no tenantId. *)
Theorem createPurchaseJournalEntry_outcome (db : Db) (now : Date)
    (ledgerUp : bool) (purchase : PurchaseSchema.t) (userId : ObjectId) :
  AccountingService.createPurchaseJournalEntry db now ledgerUp purchase userId
  = (db, inl ValidationError)
  /\ forall inventoryAccount payableAccount,
       let lines := AccountingService.purchaseLines purchase inventoryAccount
                      payableAccount in
       AccountingService.rawDebit lines == PurchaseSchema.netAmount purchase
       /\ AccountingService.rawCredit lines
          == PurchaseSchema.netAmount purchase
       /\ rejection lines = ValidationError.
Proof.
  assert (H : forall a b,
             rejection (AccountingService.purchaseLines purchase a b)
             = ValidationError).
  { intros a b. destruct (purchaseLines_totals purchase a b) as [Hd Hc].
    apply (rejection_balance _ _ _ Hd Hc).
    setoid_replace (PurchaseSchema.netAmount purchase
                    - PurchaseSchema.netAmount purchase) with 0 by ring.
    discriminate. }
  split.
  - rewrite createPurchaseJournalEntry_run.
    destruct (resolved _ "1300"); [| reflexivity].
    destruct (resolved _ "2000"); [| reflexivity].
    rewrite H. reflexivity.
  - intros a b. cbv zeta.
    destruct (purchaseLines_totals purchase a b) as [Hd Hc]. auto.
Qed.

(** X19. createPlotBookingJournalEntry never posts an entry and never
    changes the database. When the accounts 4001, 1200 and 1000 resolve
    it fails with the 'not balanced' error if the positive parts of the
    amount received and of the balance due differ from the plot total by
    more than 0.01, and with the validation error otherwise; when one of
    the accounts does not resolve it fails with the validation error. *)
Theorem createPlotBookingJournalEntry_outcome (db : Db) (now : Date)
    (ledgerUp : bool) (plot : PlotSchema.t) (userId : ObjectId) :
  let out := AccountingService.createPlotBookingJournalEntry db now ledgerUp
               plot userId in
  let resolve := resolved (chartOfAccounts db) in
  let total := AccountingService.plotTotalAmount plot in
  let received := AccountingService.plotBookingReceived plot in
  let gap :=
    Qabs (positivePart received + positivePart (total - received) - total) in
  fst out = db
  /\ (forall journalEntry, snd out <> inr journalEntry)
  /\ ((exists totalDebit totalCredit,
         snd out = inl (NotBalanced totalDebit totalCredit))
      <-> resolve "4001" <> None /\ resolve "1200" <> None
          /\ resolve "1000" <> None /\ 1 # 100 < gap)
  /\ (snd out = inl ValidationError
      <-> resolve "4001" = None \/ resolve "1200" = None
          \/ resolve "1000" = None \/ gap <= 1 # 100).
Proof.
  cbv zeta. rewrite createPlotBookingJournalEntry_run. simpl.
  split; [reflexivity |]. split; [discriminate |].
  destruct (resolved (chartOfAccounts db) "4001") as [a1|];
    [| split; [split; [intros (? & ? & H); discriminate | tauto]
              | split; auto]].
  destruct (resolved (chartOfAccounts db) "1200") as [a2|];
    [| split; [split; [intros (? & ? & H); discriminate | tauto]
              | split; auto]].
  destruct (resolved (chartOfAccounts db) "1000") as [a3|];
    [| split; [split; [intros (? & ? & H); discriminate | tauto]
              | split; auto 6]].
  destruct (plotBookingLines_totals plot a1 a2 a3) as [Hd Hc].
  destruct (rejection_balance _ _ _ Hd Hc) as [Hn Hv].
  split.
  - split.
    + intros (td & tc & H). injection H as H.
      repeat (split; [discriminate |]). apply Hn. eauto.
    + intros (_ & _ & _ & H). apply Hn in H. destruct H as (td & tc & H).
      exists td, tc. rewrite H. reflexivity.
  - split.
    + intros H. injection H as H. apply Hv in H. auto 6.
    + intros [H|[H|[H|H]]]; try discriminate H.
      apply Hv in H. rewrite H. reflexivity.
Qed.

(** X21. createPlotSalesInvoiceJournalEntry never posts an entry and
    never changes the database. Its lines debit netTotal plus the
    positive part of amountReceived and credit netTotal plus
    amountReceived, so for a non-negative amountReceived they balance
    and the call fails with the validation error, whether the accounts
    4001, 1003 and 1001 resolve or not. *)
Theorem createPlotSalesInvoiceJournalEntry_outcome (db : Db) (now : Date)
    (ledgerUp : bool) (salesInvoice : SalesInvoiceSchema.t)
    (userId : ObjectId) :
  let out := AccountingService.createPlotSalesInvoiceJournalEntry db now
               ledgerUp salesInvoice userId in
  fst out = db
  /\ (forall journalEntry, snd out <> inr journalEntry)
  /\ (forall revenueAccount receivableAccount cashAccount,
        let lines := AccountingService.plotInvoiceLines salesInvoice
                       revenueAccount receivableAccount cashAccount in
        AccountingService.rawDebit lines
        == SalesInvoiceSchema.netTotal salesInvoice
           + positivePart (SalesInvoiceSchema.amountReceived salesInvoice)
        /\ AccountingService.rawCredit lines
           == SalesInvoiceSchema.netTotal salesInvoice
              + SalesInvoiceSchema.amountReceived salesInvoice)
  /\ (0 <= SalesInvoiceSchema.amountReceived salesInvoice ->
      snd out = inl ValidationError).
Proof.
  cbv zeta. rewrite createPlotSalesInvoiceJournalEntry_run. simpl.
  split; [reflexivity |]. split; [discriminate |].
  split; [intros a b c; apply plotInvoiceLines_totals |].
  intros Hr.
  destruct (resolved _ "4001") as [a1|]; [| reflexivity].
  destruct (resolved _ "1003") as [a2|]; [| reflexivity].
  destruct (resolved _ "1001") as [a3|]; [| reflexivity].
  destruct (plotInvoiceLines_totals salesInvoice a1 a2 a3) as [Hd Hc].
  destruct (rejection_balance _ _ _ Hd Hc) as [_ Hv].
  rewrite (proj2 Hv); [reflexivity |].
  unfold positivePart.
  destruct (isPositive (SalesInvoiceSchema.amountReceived salesInvoice))
    eqn:Hp.
  - setoid_replace (SalesInvoiceSchema.netTotal salesInvoice
                    + SalesInvoiceSchema.amountReceived salesInvoice
                    - (SalesInvoiceSchema.netTotal salesInvoice
                       + SalesInvoiceSchema.amountReceived salesInvoice))
      with 0 by ring.
    discriminate.
  - apply isPositive_false_iff in Hp.
    assert (E : SalesInvoiceSchema.amountReceived salesInvoice == 0) by lra.
    setoid_replace (SalesInvoiceSchema.netTotal salesInvoice + 0
                    - (SalesInvoiceSchema.netTotal salesInvoice
                       + SalesInvoiceSchema.amountReceived salesInvoice))
      with 0 by (rewrite E; ring).
    discriminate.
Qed.

(** ** Payment entries *)

Lemma expenseAccountOf_run (paymentLine : PaymentLineSchema.t) (db : Db) :
  AccountingService.expenseAccountOf paymentLine db
  = (db, match resolved (chartOfAccounts db)
                 (PaymentLineSchema.accountCode paymentLine) with
         | Some expenseAccount => inr expenseAccount
         | None => inl ValidationError
         end).
Proof.
  unfold AccountingService.expenseAccountOf. cbv zeta.
  rewrite getOrCreateAccount_resolved. unfold resolved.
  destruct (ChartOfAccount.findOneByCode _ _) as [a|] eqn:Hmain;
    [reflexivity |].
  destruct (ChartOfAccount.findOneByNestedCode _ _) as [p|] eqn:Hnested;
    [reflexivity |].
  rewrite getOrCreateAccount_resolved. unfold resolved.
  rewrite Hmain, Hnested. reflexivity.
Qed.

(** The loop over the payment lines: it changes nothing, fails exactly
    when a line names an account that does not resolve, and otherwise
    yields lines that debit the amounts of the payment lines. *)
Lemma expenseLines_run (paymentLines : list PaymentLineSchema.t) (db : Db) :
  exists result,
    AccountingService.expenseLines paymentLines db = (db, result)
    /\ match result with
       | inl error =>
           error = ValidationError
           /\ ~ allResolved (chartOfAccounts db) paymentLines
       | inr lines =>
           allResolved (chartOfAccounts db) paymentLines
           /\ sumOf (fun l => orZero (LineObject.debit l)) lines
              == paymentLinesTotal paymentLines
           /\ sumOf (fun l => orZero (LineObject.credit l)) lines == 0
       end.
Proof.
  unfold allResolved, paymentLinesTotal.
  induction paymentLines as [|paymentLine rest IH].
  - eexists. split; [reflexivity |]. simpl.
    split; [constructor | split; reflexivity].
  - cbn [AccountingService.expenseLines]. unfold andThen at 1.
    rewrite expenseAccountOf_run.
    destruct (resolved _ _) as [a|] eqn:Hr.
    + destruct IH as (r & Hrun & Hres). unfold andThen. rewrite Hrun.
      destruct r as [e|lines].
      * eexists. split; [reflexivity |]. destruct Hres as [He Hn].
        split; [exact He |]. intros H. inversion H; subst. auto.
      * eexists. split; [reflexivity |]. destruct Hres as (Hall & Hd & Hc).
        split; [constructor; [congruence | exact Hall] |].
        unfold sumOf in *. simpl. rewrite Hd, Hc. split; ring.
    + eexists. split; [reflexivity |]. split; [reflexivity |].
      intros H. inversion H; subst. auto.
Qed.

Lemma payment_rejection (first : LineObject.t) (rest : list LineObject.t)
    (totalAmount linesTotal : Q) :
  orZero (LineObject.debit first) == 0 ->
  orZero (LineObject.credit first) == totalAmount ->
  sumOf (fun l => orZero (LineObject.debit l)) rest == linesTotal ->
  sumOf (fun l => orZero (LineObject.credit l)) rest == 0 ->
  ((exists totalDebit totalCredit,
      rejection (first :: rest) = NotBalanced totalDebit totalCredit)
   <-> 1 # 100 < Qabs (linesTotal - totalAmount))
  /\ (rejection (first :: rest) = ValidationError
      <-> Qabs (linesTotal - totalAmount) <= 1 # 100).
Proof.
  intros Hd Hc Hrd Hrc. apply rejection_balance.
  - unfold AccountingService.rawDebit. rewrite fold_left_sum.
    unfold sumOf in *. simpl. rewrite Hd, Hrd. ring.
  - unfold AccountingService.rawCredit. rewrite fold_left_sum.
    unfold sumOf in *. simpl. rewrite Hc, Hrc. ring.
Qed.

Lemma createBankPaymentJournalEntry_run (db : Db) (now : Date)
    (ledgerUp : bool) (bankPayment : BankPaymentSchema.t) (userId : ObjectId) :
  let gap :=
    Qabs (paymentLinesTotal (BankPaymentSchema.paymentLines bankPayment)
          - BankPaymentSchema.totalAmount bankPayment) in
  exists error,
    AccountingService.createBankPaymentJournalEntry db now ledgerUp
      bankPayment userId = (db, inl error)
    /\ ((exists totalDebit totalCredit,
           error = NotBalanced totalDebit totalCredit)
        <-> resolved (chartOfAccounts db) "1100" <> None
            /\ allResolved (chartOfAccounts db)
                 (BankPaymentSchema.paymentLines bankPayment)
            /\ 1 # 100 < gap)
    /\ (error = ValidationError
        <-> resolved (chartOfAccounts db) "1100" = None
            \/ ~ allResolved (chartOfAccounts db)
                   (BankPaymentSchema.paymentLines bankPayment)
            \/ gap <= 1 # 100).
Proof.
  cbv zeta. unfold AccountingService.createBankPaymentJournalEntry.
  cbv zeta. rewrite andThen_account.
  destruct (resolved (chartOfAccounts db) "1100") as [a|].
  2:{ eexists. split; [reflexivity |]. split.
      - split; [intros (? & ? & H); discriminate | tauto].
      - split; auto. }
  unfold andThen.
  destruct (expenseLines_run (BankPaymentSchema.paymentLines bankPayment) db)
    as (r & -> & Hres).
  destruct r as [e|lines].
  - destruct Hres as [-> Hn]. eexists. split; [reflexivity |]. split.
    + split; [intros (? & ? & H); discriminate | tauto].
    + split; auto.
  - destruct Hres as (Hall & Hd & Hc).
    rewrite createJournalEntry_without_tenant by reflexivity.
    eexists. split; [reflexivity |].
    cbn [AccountingService.entryDataOf EntryObject.lines].
    match goal with
    | |- context [rejection (?f :: lines)] =>
        destruct (payment_rejection f lines
                    (BankPaymentSchema.totalAmount bankPayment)
                    (paymentLinesTotal
                       (BankPaymentSchema.paymentLines bankPayment)))
          as [Hn Hv]; [reflexivity | reflexivity | exact Hd | exact Hc |]
    end.
    split.
    + rewrite Hn. split; [intros H; repeat split; auto; discriminate | tauto].
    + rewrite Hv. split; [auto |].
      intros [H|[H|H]]; [discriminate H | elim (H Hall) | exact H].
Qed.

Lemma createCashPaymentJournalEntry_run (db : Db) (now : Date)
    (ledgerUp : bool) (cashPayment : CashPaymentSchema.t) (userId : ObjectId) :
  let gap :=
    Qabs (paymentLinesTotal (CashPaymentSchema.paymentLines cashPayment)
          - CashPaymentSchema.totalAmount cashPayment) in
  exists error,
    AccountingService.createCashPaymentJournalEntry db now ledgerUp
      cashPayment userId = (db, inl error)
    /\ ((exists totalDebit totalCredit,
           error = NotBalanced totalDebit totalCredit)
        <-> resolved (chartOfAccounts db) "1000" <> None
            /\ allResolved (chartOfAccounts db)
                 (CashPaymentSchema.paymentLines cashPayment)
            /\ 1 # 100 < gap)
    /\ (error = ValidationError
        <-> resolved (chartOfAccounts db) "1000" = None
            \/ ~ allResolved (chartOfAccounts db)
                   (CashPaymentSchema.paymentLines cashPayment)
            \/ gap <= 1 # 100).
Proof.
  cbv zeta. unfold AccountingService.createCashPaymentJournalEntry.
  rewrite andThen_account.
  destruct (resolved (chartOfAccounts db) "1000") as [a|].
  2:{ eexists. split; [reflexivity |]. split.
      - split; [intros (? & ? & H); discriminate | tauto].
      - split; auto. }
  unfold andThen.
  destruct (expenseLines_run (CashPaymentSchema.paymentLines cashPayment) db)
    as (r & -> & Hres).
  destruct r as [e|lines].
  - destruct Hres as [-> Hn]. eexists. split; [reflexivity |]. split.
    + split; [intros (? & ? & H); discriminate | tauto].
    + split; auto.
  - destruct Hres as (Hall & Hd & Hc).
    rewrite createJournalEntry_without_tenant by reflexivity.
    eexists. split; [reflexivity |].
    cbn [AccountingService.entryDataOf EntryObject.lines].
    match goal with
    | |- context [rejection (?f :: lines)] =>
        destruct (payment_rejection f lines
                    (CashPaymentSchema.totalAmount cashPayment)
                    (paymentLinesTotal
                       (CashPaymentSchema.paymentLines cashPayment)))
          as [Hn Hv]; [reflexivity | reflexivity | exact Hd | exact Hc |]
    end.
    split.
    + rewrite Hn. split; [intros H; repeat split; auto; discriminate | tauto].
    + rewrite Hv. split; [auto |].
      intros [H|[H|H]]; [discriminate H | elim (H Hall) | exact H].
Qed.

(** X18. createBankPaymentJournalEntry and createCashPaymentJournalEntry
    never post an entry and never change the database. They fail with
    the 'not balanced' error exactly when the bank or cash account (1100
    or 1000) and the account of every payment line resolve and the
    payment lines differ from totalAmount by more than 0.01; in every
    other case they fail with the validation error. *)
Theorem payment_entries_outcome (db : Db) (now : Date) (ledgerUp : bool)
    (userId : ObjectId) :
  (forall bankPayment,
     let gap :=
       Qabs (paymentLinesTotal (BankPaymentSchema.paymentLines bankPayment)
             - BankPaymentSchema.totalAmount bankPayment) in
     exists error,
       AccountingService.createBankPaymentJournalEntry db now ledgerUp
         bankPayment userId = (db, inl error)
       /\ ((exists totalDebit totalCredit,
              error = NotBalanced totalDebit totalCredit)
           <-> resolved (chartOfAccounts db) "1100" <> None
               /\ allResolved (chartOfAccounts db)
                    (BankPaymentSchema.paymentLines bankPayment)
               /\ 1 # 100 < gap)
       /\ (error = ValidationError
           <-> resolved (chartOfAccounts db) "1100" = None
               \/ ~ allResolved (chartOfAccounts db)
                      (BankPaymentSchema.paymentLines bankPayment)
               \/ gap <= 1 # 100))
  /\ (forall cashPayment,
        let gap :=
          Qabs (paymentLinesTotal (CashPaymentSchema.paymentLines cashPayment)
                - CashPaymentSchema.totalAmount cashPayment) in
        exists error,
          AccountingService.createCashPaymentJournalEntry db now ledgerUp
            cashPayment userId = (db, inl error)
          /\ ((exists totalDebit totalCredit,
                 error = NotBalanced totalDebit totalCredit)
              <-> resolved (chartOfAccounts db) "1000" <> None
                  /\ allResolved (chartOfAccounts db)
                       (CashPaymentSchema.paymentLines cashPayment)
                  /\ 1 # 100 < gap)
          /\ (error = ValidationError
              <-> resolved (chartOfAccounts db) "1000" = None
                  \/ ~ allResolved (chartOfAccounts db)
                         (CashPaymentSchema.paymentLines cashPayment)
                  \/ gap <= 1 # 100)).
Proof.
  split.
  - intros bankPayment. apply createBankPaymentJournalEntry_run.
  - intros cashPayment. apply createCashPaymentJournalEntry_run.
Qed.

(** ** Acceptance by JournalEntry.create *)




(** ** Plot sale entries *)

Lemma createPlotSaleJournalEntry_run (db : Db) (now : Date) (ledgerUp : bool)
    (plot : PlotSchema.t) (userId : ObjectId) :
  AccountingService.createPlotSaleJournalEntry db now ledgerUp plot userId
  = (db,
     match resolved (chartOfAccounts db) "1200",
           resolved (chartOfAccounts db) "1000" with
     | Some _, Some _ =>
         if isPositive (orNumber (PlotSchema.amountReceived plot) 0)
         then inl ValidationError
         else inr None
     | _, _ => inl ValidationError
     end).
Proof.
  unfold AccountingService.createPlotSaleJournalEntry.
  rewrite andThen_account.
  destruct (resolved (chartOfAccounts db) "1200") as [a1|]; [| reflexivity].
  rewrite andThen_account.
  destruct (resolved (chartOfAccounts db) "1000") as [a2|]; [| reflexivity].
  cbv zeta.
  destruct (isPositive (orNumber (PlotSchema.amountReceived plot) 0));
    [| reflexivity].
  rewrite createJournalEntry_without_tenant by reflexivity.
  cbn [AccountingService.entryDataOf EntryObject.lines].
  match goal with
  | |- context [rejection ?ls] =>
      destruct (rejection_balance ls
                  (orNumber (PlotSchema.amountReceived plot) 0)
                  (orNumber (PlotSchema.amountReceived plot) 0))
        as [_ Hv]
  end.
  - unfold AccountingService.rawDebit. simpl. ring.
  - unfold AccountingService.rawCredit. simpl. ring.
  - rewrite (proj2 Hv); [reflexivity |].
    setoid_replace (orNumber (PlotSchema.amountReceived plot) 0
                    - orNumber (PlotSchema.amountReceived plot) 0)
      with 0 by ring.
    discriminate.
Qed.

(** X20. createPlotSaleJournalEntry never creates an entry and never
    changes the database. It returns null exactly when the accounts 1200
    and 1000 resolve and amountReceived is missing, zero or negative; in
    every other case it fails with the validation error. *)
Theorem createPlotSaleJournalEntry_outcome (db : Db) (now : Date)
    (ledgerUp : bool) (plot : PlotSchema.t) (userId : ObjectId) :
  let out := AccountingService.createPlotSaleJournalEntry db now ledgerUp
               plot userId in
  fst out = db
  /\ (forall journalEntry, snd out <> inr (Some journalEntry))
  /\ (snd out = inr None
      <-> resolved (chartOfAccounts db) "1200" <> None
          /\ resolved (chartOfAccounts db) "1000" <> None
          /\ orNumber (PlotSchema.amountReceived plot) 0 <= 0)
  /\ (snd out = inr None \/ snd out = inl ValidationError).
Proof.
  cbv zeta. rewrite createPlotSaleJournalEntry_run. simpl.
  split; [reflexivity |].
  destruct (resolved (chartOfAccounts db) "1200") as [a1|];
    [| split; [discriminate |]; split; [| auto];
       split; [discriminate | tauto]].
  destruct (resolved (chartOfAccounts db) "1000") as [a2|];
    [| split; [discriminate |]; split; [| auto];
       split; [discriminate | tauto]].
  destruct (isPositive (orNumber (PlotSchema.amountReceived plot) 0)) eqn:Hp.
  - apply isPositive_iff in Hp.
    split; [discriminate |]. split; [| auto].
    split; [discriminate | intros (_ & _ & H); lra].
  - apply isPositive_false_iff in Hp.
    split; [discriminate |]. split; [| auto].
    split; [intros _; repeat split; [discriminate | discriminate | exact Hp]
           | reflexivity].
Qed.

(** ** Hooks of the business documents *)

(** X23. The post-save hooks of sales invoices and purchases never
    change journal, ledger or chart of accounts: whatever the document,
    the entry they ask the accounting service for is rejected and the
    error dropped. *)
Theorem invoice_and_purchase_hooks_post_nothing (db : Db) (now : Date)
    (ledgerUp wasNew : bool) (createdBy admin : option ObjectId) :
  (forall doc,
     SalesInvoice.postSave db now ledgerUp wasNew createdBy admin doc = db)
  /\ (forall doc, Purchase.postSave db now ledgerUp wasNew admin doc = db).
Proof.
  split; intros doc.
  - unfold SalesInvoice.postSave.
    destruct (wasNew && _); [| reflexivity].
    destruct (match createdBy with Some u => Some u | None => admin end);
      [| reflexivity].
    destruct (existsb _ _).
    + rewrite createPlotSalesInvoiceJournalEntry_run. reflexivity.
    + rewrite createSalesJournalEntry_run. reflexivity.
  - unfold Purchase.postSave.
    destruct (wasNew && _); [| reflexivity].
    destruct (match PurchaseSchema.createdBy doc with
              | Some u => Some u
              | None => admin
              end); [| reflexivity].
    rewrite createPurchaseJournalEntry_run. reflexivity.
Qed.

(** X24. The pre-save hook of a purchase sets grossAmount to quantity *
    rate when it is 0, netAmount to grossAmount minus discount, and
    paymentStatus to unpaid when amountPaid is 0, to paid when
    amountPaid reaches netAmount and to partial otherwise; it changes no
    other field. *)
Theorem purchase_preSave_amounts (this : PurchaseSchema.t) :
  let saved := Purchase.preSave this in
  (PurchaseSchema.grossAmount this == 0 ->
   PurchaseSchema.grossAmount saved
   = PurchaseSchema.quantity this * PurchaseSchema.rate this)
  /\ (~ PurchaseSchema.grossAmount this == 0 ->
      PurchaseSchema.grossAmount saved = PurchaseSchema.grossAmount this)
  /\ PurchaseSchema.netAmount saved
     = PurchaseSchema.grossAmount saved - PurchaseSchema.discount this
  /\ (PurchaseSchema.paymentStatus saved = PurchaseSchema.unpaid
      <-> PurchaseSchema.amountPaid this == 0)
  /\ (PurchaseSchema.paymentStatus saved = PurchaseSchema.paid
      <-> ~ PurchaseSchema.amountPaid this == 0
          /\ PurchaseSchema.netAmount saved <= PurchaseSchema.amountPaid this)
  /\ (PurchaseSchema.paymentStatus saved = PurchaseSchema.partial
      <-> ~ PurchaseSchema.amountPaid this == 0
          /\ PurchaseSchema.amountPaid this < PurchaseSchema.netAmount saved)
  /\ PurchaseSchema._id saved = PurchaseSchema._id this
  /\ PurchaseSchema.date saved = PurchaseSchema.date this
  /\ PurchaseSchema.quantity saved = PurchaseSchema.quantity this
  /\ PurchaseSchema.rate saved = PurchaseSchema.rate this
  /\ PurchaseSchema.discount saved = PurchaseSchema.discount this
  /\ PurchaseSchema.amountPaid saved = PurchaseSchema.amountPaid this
  /\ PurchaseSchema.status saved = PurchaseSchema.status this
  /\ PurchaseSchema.createdBy saved = PurchaseSchema.createdBy this.
Proof.
  cbv zeta. unfold Purchase.preSave. simpl.
  split; [intros H; apply isZero_spec in H; rewrite H; reflexivity |].
  split.
  { intros H. destruct (isZero (PurchaseSchema.grossAmount this)) eqn:E;
      [apply isZero_spec in E; elim (H E) | reflexivity]. }
  split; [reflexivity |].
  destruct (isZero (PurchaseSchema.amountPaid this)) eqn:Hz.
  - apply isZero_spec in Hz.
    split; [tauto |].
    split; [split; [discriminate | tauto] |].
    split; [split; [discriminate | tauto] |]. auto 10.
  - assert (Hnz : ~ PurchaseSchema.amountPaid this == 0).
    { intros H. apply isZero_spec in H. congruence. }
    match goal with
    | |- context [Qle_bool ?a ?b] => destruct (Qle_bool a b) eqn:Hle
    end.
    + apply Qle_bool_iff in Hle.
      split; [split; [discriminate | tauto] |].
      split; [tauto |].
      split; [split; [discriminate | intros [_ H]; lra] |]. auto 10.
    + assert (Hlt : PurchaseSchema.amountPaid this
                    < (if isZero (PurchaseSchema.grossAmount this)
                       then PurchaseSchema.quantity this
                            * PurchaseSchema.rate this
                       else PurchaseSchema.grossAmount this)
                      - PurchaseSchema.discount this).
      { apply Qnot_le_lt. intros H. apply Qle_bool_iff in H. congruence. }
      split; [split; [discriminate | tauto] |].
      split; [split; [discriminate | intros [_ H]; lra] |].
      split; [tauto |]. auto 10.
Qed.

(** X25. The post-save hooks of bank payments and cash payments never
    change journal, ledger or chart of accounts. *)
Theorem payment_hooks_post_nothing (db : Db) (now : Date)
    (ledgerUp wasNew : bool) :
  (forall doc, BankPayment.postSave db now ledgerUp wasNew doc = db)
  /\ (forall doc, CashPayment.postSave db now ledgerUp wasNew doc = db).
Proof.
  split; intros doc.
  - unfold BankPayment.postSave.
    destruct (wasNew && _); [| reflexivity].
    destruct (BankPaymentSchema.createdBy doc) as [userId|]; [| reflexivity].
    destruct (createBankPaymentJournalEntry_run db now ledgerUp doc userId)
      as (e & -> & _). reflexivity.
  - unfold CashPayment.postSave.
    destruct (wasNew && _); [| reflexivity].
    destruct (CashPaymentSchema.createdBy doc) as [userId|]; [| reflexivity].
    destruct (createCashPaymentJournalEntry_run db now ledgerUp doc userId)
      as (e & -> & _). reflexivity.
Qed.

(** ** Plot hooks *)

Lemma plot_postSave_db (db : Db) (customers : list CustomerSchema.t)
    (now : Date) (ledgerUp : bool) (doc : PlotSchema.t) :
  fst (Plot.postSave db customers now ledgerUp doc) = db.
Proof.
  unfold Plot.postSave.
  destruct (negb _); [reflexivity |].
  destruct (Plot.Status_eqb _ PlotSchema.Booked && _ && _).
  - destruct (Plot.findEntryOf _ _ _); [reflexivity |].
    destruct (PlotSchema.createdBy doc) as [userId|]; [| reflexivity].
    rewrite createPlotBookingJournalEntry_run. reflexivity.
  - destruct (Plot.Status_eqb _ PlotSchema.Sold && _ && _); [| reflexivity].
    destruct (Plot.findEntryOf _ _ _); [reflexivity |].
    destruct (PlotSchema.createdBy doc) as [userId|]; [| reflexivity].
    rewrite createPlotSaleJournalEntry_run.
    destruct (resolved _ "1200"); [| reflexivity].
    destruct (resolved _ "1000"); [| reflexivity].
    destruct (isPositive _); [reflexivity |].
    destruct (PlotSchema.customer doc) as [c|]; [| reflexivity].
    destruct (Customer.findById customers c); reflexivity.
Qed.

(** X26. The post-save hook of a plot never changes journal, ledger or
    chart of accounts. For a Booked plot it changes nothing at all: the
    booking entry is rejected, so the customer's totalPurchase and
    balance are not increased. *)
Theorem plot_booking_never_recorded (db : Db)
    (customers : list CustomerSchema.t) (now : Date) (ledgerUp : bool)
    (doc : PlotSchema.t) :
  fst (Plot.postSave db customers now ledgerUp doc) = db
  /\ (PlotSchema.status doc = PlotSchema.Booked ->
      Plot.postSave db customers now ledgerUp doc = (db, customers)).
Proof.
  split; [apply plot_postSave_db |].
  intros Hst. unfold Plot.postSave. rewrite Hst.
  destruct (negb _); [reflexivity |].
  cbn [Plot.Status_eqb andb].
  destruct (isSome (PlotSchema.customer doc)
            && isSome (PlotSchema.bookingDate doc)); [| reflexivity].
  destruct (Plot.findEntryOf _ _ _); [reflexivity |].
  destruct (PlotSchema.createdBy doc) as [userId|]; [| reflexivity].
  rewrite createPlotBookingJournalEntry_run. reflexivity.
Qed.

Lemma findByIdAndInc_found (coll : list CustomerSchema.t) (c : ObjectId)
    (a b : Q) (cust : CustomerSchema.t) :
  Customer.findById coll c = Some cust ->
  Customer.findById (Customer.findByIdAndInc coll c a b) c
  = Some (CustomerSchema.mk (CustomerSchema._id cust)
            (CustomerSchema.totalPurchase cust + a)
            (CustomerSchema.balance cust + b)).
Proof.
  unfold Customer.findById.
  induction coll as [|x coll IH]; simpl; [discriminate |].
  destruct (Nat.eqb (CustomerSchema._id x) c) eqn:E; simpl.
  - intros H. injection H as <-. rewrite E. reflexivity.
  - rewrite E. exact IH.
Qed.

(** One run of the hook on a Sold plot for which nothing was received
    and no Sale entry exists, the accounts of the adapter resolving:
    nothing is posted and the customer is updated. *)
Lemma plot_sale_step (db : Db) (customers : list CustomerSchema.t)
    (now : Date) (ledgerUp : bool) (doc : PlotSchema.t)
    (c userId : ObjectId) (cust : CustomerSchema.t) :
  PlotSchema.isActive doc = true ->
  PlotSchema.status doc = PlotSchema.Sold ->
  Plot.truthy (PlotSchema.finalPrice doc) = true ->
  PlotSchema.saleDate doc <> None ->
  PlotSchema.createdBy doc = Some userId ->
  PlotSchema.customer doc = Some c ->
  orNumber (PlotSchema.amountReceived doc) 0 <= 0 ->
  resolved (chartOfAccounts db) "1200" <> None ->
  resolved (chartOfAccounts db) "1000" <> None ->
  Plot.findEntryOf (journalEntries db) doc Sale = None ->
  Customer.findById customers c = Some cust ->
  Plot.postSave db customers now ledgerUp doc
  = (db, Plot.updateCustomer customers doc c).
Proof.
  intros Hact Hst Hfp Hsd Hcb Hc Hrec H1 H2 Hf Hcust.
  unfold Plot.postSave.
  rewrite Hact, Hst, Hfp, Hf, Hcb, Hc. cbn [negb Plot.Status_eqb andb].
  destruct (PlotSchema.saleDate doc) as [d|] eqn:Hd; [| elim Hsd; reflexivity].
  cbn [isSome]. rewrite createPlotSaleJournalEntry_run.
  destruct (resolved _ "1200"); [| elim H1; reflexivity].
  destruct (resolved _ "1000"); [| elim H2; reflexivity].
  apply isPositive_false_iff in Hrec. rewrite Hrec, Hcust. reflexivity.
Qed.

(** X27. For an active Sold plot with a final price, a sale date, a
    creator and an existing customer but nothing received, in a database
    whose chart resolves the accounts 1200 and 1000, every run of the
    post-save hook leaves the database unchanged and adds the plot total
    to the customer's totalPurchase and balance again: after n saves
    they have grown by n times the plot total and n times the balance
    due. *)
Theorem plot_sale_recounts_customer (n : nat) (db : Db)
    (customers : list CustomerSchema.t) (now : Date) (ledgerUp : bool)
    (doc : PlotSchema.t) (c userId : ObjectId) (cust : CustomerSchema.t) :
  PlotSchema.isActive doc = true ->
  PlotSchema.status doc = PlotSchema.Sold ->
  Plot.truthy (PlotSchema.finalPrice doc) = true ->
  PlotSchema.saleDate doc <> None ->
  PlotSchema.createdBy doc = Some userId ->
  PlotSchema.customer doc = Some c ->
  orNumber (PlotSchema.amountReceived doc) 0 <= 0 ->
  resolved (chartOfAccounts db) "1200" <> None ->
  resolved (chartOfAccounts db) "1000" <> None ->
  Plot.findEntryOf (journalEntries db) doc Sale = None ->
  Customer.findById customers c = Some cust ->
  let out := plotSaves n db customers now ledgerUp doc in
  let total := AccountingService.plotTotalAmount doc in
  let due := total - orNumber (PlotSchema.amountReceived doc) 0 in
  fst out = db
  /\ exists after,
       Customer.findById (snd out) c = Some after
       /\ CustomerSchema.totalPurchase after
          == CustomerSchema.totalPurchase cust
             + inject_Z (Z.of_nat n) * total
       /\ CustomerSchema.balance after
          == CustomerSchema.balance cust + inject_Z (Z.of_nat n) * due.
Proof.
  intros Hact Hst Hfp Hsd Hcb Hc Hrec H1 H2 Hf Hcust. cbv zeta.
  induction n as [|n IH].
  - simpl. split; [reflexivity |].
    exists cust. split; [exact Hcust |].
    change (inject_Z 0) with 0. split; lra.
  - destruct IH as (Hdb & after & Hafter & Htp & Hbal).
    cbn [plotSaves]. rewrite Hdb.
    rewrite (plot_sale_step db _ now ledgerUp doc c userId after Hact Hst Hfp
               Hsd Hcb Hc Hrec H1 H2 Hf Hafter).
    split; [reflexivity |]. cbn [snd]. unfold Plot.updateCustomer.
    eexists. split; [apply findByIdAndInc_found; exact Hafter |].
    cbn [CustomerSchema.totalPurchase CustomerSchema.balance].
    rewrite Htp, Hbal, Nat2Z.inj_succ. unfold Z.succ.
    rewrite inject_Z_plus. change (inject_Z 1) with 1. split; lra.
Qed.

(** X27, instance: the sold plot saved twice. *)
Lemma plot_sale_recounts_customer_witness :
  exists after,
    fst (plotSaves 2 Scenario.withAccounts [Example.customer] Scenario.jun30
           true Example.soldPlot) = Scenario.withAccounts
    /\ Customer.findById
         (snd (plotSaves 2 Scenario.withAccounts [Example.customer]
                 Scenario.jun30 true Example.soldPlot)) 301%nat
       = Some after
    /\ CustomerSchema.totalPurchase after == 2000.
Proof.
  destruct (plot_sale_recounts_customer 2 Scenario.withAccounts
              [Example.customer] Scenario.jun30 true Example.soldPlot
              301%nat Scenario.user Example.customer)
    as (Hdb & after & Hf & Htp & _);
    try reflexivity; try discriminate.
  exists after. split; [exact Hdb |]. split; [exact Hf |].
  rewrite Htp. vm_compute. reflexivity.
Defined.

(** ** Balance sheet and profit and loss together *)

(** X13. For a ledger whose Active rows up to the date have total debits
    equal to total credits, and in which liability, equity and revenue
    accounts have no debit balance and expense accounts no credit
    balance, the balance sheet's assets minus liabilities-and-equity
    equals the net profit of the profit and loss statement up to the
    same date. So the balance sheet reports isBalanced exactly when that
    net profit is below 0.01 in absolute value: the profit of the period
    is not carried into equity. *)
Theorem balance_sheet_gap_is_net_profit (db : Db) (asOfDate : Date) :
  net (filter (asOfActive asOfDate) (generalLedger db)) == 0 ->
  creditNormal (asOfActive asOfDate) Liability (generalLedger db) ->
  creditNormal (asOfActive asOfDate) Equity (generalLedger db) ->
  creditNormal (asOfActive asOfDate) Revenue (generalLedger db) ->
  debitNormal (asOfActive asOfDate) Expense (generalLedger db) ->
  let bs := AccountingService.getBalanceSheet db asOfDate in
  let pl := AccountingService.getProfitAndLoss db None (Some asOfDate) in
  GeneralLedger.total (GeneralLedger.assets bs)
  - GeneralLedger.totalLiabilitiesAndEquity bs
  == GeneralLedger.netProfit pl
  /\ (GeneralLedger.bsIsBalanced bs = true
      <-> Qabs (GeneralLedger.netProfit pl) < 1 # 100).
Proof.
  intros Hz HL HEq HR HEx. cbv zeta.
  unfold AccountingService.getBalanceSheet, AccountingService.getProfitAndLoss.
  destruct (getBalanceSheet_equation_cases (generalLedger db) asOfDate HL HEq)
    as (_ & _ & _ & Hgap & Hbal).
  cbv zeta in Hgap, Hbal.
  assert (HR' : creditNormal (inPeriod None (Some asOfDate)) Revenue
                  (generalLedger db)).
  { intros code. unfold typedNet.
    rewrite (typedRows_ext _ (asOfActive asOfDate)) by apply inPeriod_asOf.
    apply HR. }
  assert (HEx' : debitNormal (inPeriod None (Some asOfDate)) Expense
                   (generalLedger db)).
  { intros code. unfold typedNet.
    rewrite (typedRows_ext _ (asOfActive asOfDate)) by apply inPeriod_asOf.
    apply HEx. }
  destruct (getProfitAndLoss_net_profit_cases (generalLedger db) None
              (Some asOfDate) HR' HEx') as (_ & _ & Hnp & _).
  cbv zeta in Hnp.
  assert (Hsame : filter (fun r => inPeriod None (Some asOfDate) r
                                   && profitAndLossTypes r) (generalLedger db)
                  = filter (fun r => asOfActive asOfDate r
                                     && profitAndLossTypes r)
                           (generalLedger db)).
  { apply filter_ext. intros r. rewrite inPeriod_asOf. reflexivity. }
  rewrite Hsame in Hnp.
  rewrite (typed_partition (asOfActive asOfDate)) in Hz.
  assert (Heq : GeneralLedger.total
                  (GeneralLedger.assets
                     (GeneralLedger.getBalanceSheet (generalLedger db)
                        asOfDate))
                - GeneralLedger.totalLiabilitiesAndEquity
                    (GeneralLedger.getBalanceSheet (generalLedger db) asOfDate)
                == GeneralLedger.netProfit
                     (GeneralLedger.getProfitAndLoss (generalLedger db) None
                        (Some asOfDate))).
  { rewrite Hgap, Hnp. lra. }
  split; [exact Heq |].
  rewrite Hbal, <- Hgap, Heq. reflexivity.
Qed.

(** X13, instance: the ledger of a cash sale and a purchase on credit. *)
Lemma balance_sheet_gap_is_net_profit_witness :
  net (filter (asOfActive Scenario.jun30)
         (generalLedger Example.afterSaleAndPurchase)) == 0
  /\ GeneralLedger.total
       (GeneralLedger.assets
          (AccountingService.getBalanceSheet Example.afterSaleAndPurchase
             Scenario.jun30))
     - GeneralLedger.totalLiabilitiesAndEquity
         (AccountingService.getBalanceSheet Example.afterSaleAndPurchase
            Scenario.jun30)
     == GeneralLedger.netProfit
          (AccountingService.getProfitAndLoss Example.afterSaleAndPurchase
             None (Some Scenario.jun30)).
Proof.
  assert (Hz : net (filter (asOfActive Scenario.jun30)
                      (generalLedger Example.afterSaleAndPurchase)) == 0)
    by (vm_compute; reflexivity).
  split; [exact Hz |].
  refine (proj1 (balance_sheet_gap_is_net_profit Example.afterSaleAndPurchase
                   Scenario.jun30 Hz _ _ _ _)).
  - intros code. unfold typedNet.
    assert (E : exists r,
               typedRows (asOfActive Scenario.jun30) Liability
                 (generalLedger Example.afterSaleAndPurchase) = [r]
               /\ movement r == - (500)).
    { eexists. split; vm_compute; reflexivity. }
    destruct E as (r & -> & Hr). simpl.
    destruct (String.eqb _ code); unfold net; simpl; lra.
  - intros code. unfold typedNet.
    assert (E : typedRows (asOfActive Scenario.jun30) Equity
                  (generalLedger Example.afterSaleAndPurchase) = [])
      by (vm_compute; reflexivity).
    rewrite E. unfold net; simpl. lra.
  - intros code. unfold typedNet.
    assert (E : exists r,
               typedRows (asOfActive Scenario.jun30) Revenue
                 (generalLedger Example.afterSaleAndPurchase) = [r]
               /\ movement r == - (100)).
    { eexists. split; vm_compute; reflexivity. }
    destruct E as (r & -> & Hr). simpl.
    destruct (String.eqb _ code); unfold net; simpl; lra.
  - intros code. unfold typedNet.
    assert (E : typedRows (asOfActive Scenario.jun30) Expense
                  (generalLedger Example.afterSaleAndPurchase) = [])
      by (vm_compute; reflexivity).
    rewrite E. unfold net; simpl. lra.
Defined.

(** ** The controller *)

Lemma findOne_not_draft (db : Db) (id : option ObjectId) (tenantId : string)
    (entry : JournalEntrySchema.t) :
  neverDraft db ->
  JournalEntryController.findOne (journalEntries db) id tenantId
  = inr (Some entry) ->
  negb (EntryStatus_eqb (JournalEntrySchema.status entry) Draft) = true.
Proof.
  unfold neverDraft, JournalEntryController.findOne. intros H Hf.
  destruct id as [i|]; [| discriminate]. injection Hf as Hf.
  apply find_some in Hf. destruct Hf as [Hin _].
  rewrite Forall_forall in H. specialize (H _ Hin).
  destruct (JournalEntrySchema.status entry); try reflexivity.
  elim H. reflexivity.
Qed.

(** X28. If no stored journal entry is a Draft, createJournalEntry and
    reverseJournalEntry keep it so, and the controller's
    updateJournalEntry, deleteJournalEntry and postJournalEntry never
    succeed and never change the database: they answer 404 or 400, and a
    request whose id is not an object id is answered 400 by
    updateJournalEntry and postJournalEntry and 500 by
    deleteJournalEntry. *)
Theorem service_entries_are_final (db : Db) (now : Date) (ledgerUp : bool) :
  neverDraft db ->
  (forall entryData userId,
     neverDraft (fst (AccountingService.createJournalEntry db now ledgerUp
                        entryData userId)))
  /\ (forall entryId userId reason,
        neverDraft (fst (AccountingService.reverseJournalEntry db now ledgerUp
                           entryId userId reason)))
  /\ (forall id tenantId body,
        let out := JournalEntryController.updateJournalEntry db now id tenantId
                     body in
        fst out = db
        /\ JournalEntryController.success (snd out) = false
        /\ (JournalEntryController.statusCode (snd out) = 404%nat
            \/ JournalEntryController.statusCode (snd out) = 400%nat)
        /\ (id = None ->
            JournalEntryController.statusCode (snd out) = 400%nat))
  /\ (forall id tenantId,
        let out := JournalEntryController.deleteJournalEntry db id tenantId in
        fst out = db
        /\ JournalEntryController.success (snd out) = false
        /\ (JournalEntryController.statusCode (snd out) = 404%nat
            \/ JournalEntryController.statusCode (snd out) = 400%nat
            \/ JournalEntryController.statusCode (snd out) = 500%nat)
        /\ (JournalEntryController.statusCode (snd out) = 500%nat
            <-> id = None))
  /\ (forall id tenantId,
        let out := JournalEntryController.postJournalEntry db now ledgerUp id
                     tenantId in
        fst out = db
        /\ JournalEntryController.success (snd out) = false
        /\ (JournalEntryController.statusCode (snd out) = 404%nat
            \/ JournalEntryController.statusCode (snd out) = 400%nat)
        /\ (id = None ->
            JournalEntryController.statusCode (snd out) = 400%nat)).
Proof.
  intros H.
  split.
  { intros entryData userId.
    destruct (createJournalEntry_fails db now ledgerUp entryData userId)
      as (e & -> & _). exact H. }
  split.
  { intros entryId userId reason. rewrite reverseJournalEntry_fails. exact H. }
  split; [| split].
  - intros id tenantId body. cbv zeta.
    unfold JournalEntryController.updateJournalEntry.
    destruct (JournalEntryController.findOne _ id tenantId)
      as [e|[entry|]] eqn:Hf.
    + simpl. auto.
    + rewrite (findOne_not_draft _ _ _ _ H Hf). simpl.
      repeat split; auto.
    + simpl. repeat split; auto. intros ->. discriminate Hf.
  - intros id tenantId. cbv zeta.
    unfold JournalEntryController.deleteJournalEntry.
    destruct (JournalEntryController.findOne _ id tenantId)
      as [e|[entry|]] eqn:Hf.
    + simpl. repeat split; auto.
      destruct id; [discriminate Hf | reflexivity].
    + rewrite (findOne_not_draft _ _ _ _ H Hf). simpl.
      repeat split; auto; try discriminate. intros ->. discriminate Hf.
    + simpl. repeat split; auto; try discriminate. intros ->. discriminate Hf.
  - intros id tenantId. cbv zeta.
    unfold JournalEntryController.postJournalEntry.
    destruct (JournalEntryController.findOne _ id tenantId)
      as [e|[entry|]] eqn:Hf.
    + simpl. auto.
    + rewrite (findOne_not_draft _ _ _ _ H Hf). simpl.
      repeat split; auto.
    + simpl. repeat split; auto. intros ->. discriminate Hf.
Qed.

(** X28, instance: the database that holds the Posted cash sale. *)
Lemma service_entries_are_final_witness :
  neverDraft Scenario.afterSale
  /\ JournalEntryController.deleteJournalEntry Scenario.afterSale (Some 0%nat)
       Scenario.tenant
     = (Scenario.afterSale, JournalEntryController.mkResponse 400 false None)
  /\ JournalEntryController.statusCode
       (snd (JournalEntryController.deleteJournalEntry Scenario.afterSale None
               Scenario.tenant)) = 500%nat.
Proof.
  assert (H : neverDraft Scenario.afterSale).
  { constructor; [discriminate | constructor]. }
  split; [exact H |]. split; [reflexivity |].
  exact (proj2 (proj2 (proj2 (proj2
           (proj1 (proj2 (proj2 (proj2
              (service_entries_are_final Scenario.afterSale Scenario.jan15
                 true H)))) None Scenario.tenant))))
         eq_refl).
Defined.

Lemma save_inr (db db1 : Db) (now : Date) (d saved : JournalEntrySchema.t) :
  JournalEntry.save db now d = inr (db1, saved) ->
  JournalEntry.validate d = true
  /\ JournalEntry.preSave (journalEntries db) now d = inr saved
  /\ db1 = mkDb (map (fun e => if Nat.eqb (JournalEntrySchema._id e)
                                    (JournalEntrySchema._id saved)
                               then saved else e)
                     (journalEntries db))
             (generalLedger db) (chartOfAccounts db) (nextId db).
Proof.
  unfold JournalEntry.save.
  destruct (JournalEntry.validate d); [| discriminate].
  unfold bind.
  destruct (JournalEntry.preSave _ _ _) as [e|d0]; [discriminate |].
  intros H. injection H as <- <-. auto.
Qed.

(** X6. When postJournalEntry finds a Draft entry and the save of the
    entry as Posted succeeds, the request is answered 400 without
    success: the entry is stored as Posted and marked as posted, but the
    posting to the ledger is rejected, so no ledger row is written for
    it. *)
Theorem postJournalEntry_of_draft (db db1 : Db) (now : Date) (ledgerUp : bool)
    (id : ObjectId) (tenantId : string) (entry saved : JournalEntrySchema.t) :
  JournalEntryController.findOne (journalEntries db) (Some id) tenantId
  = inr (Some entry) ->
  JournalEntrySchema.status entry = Draft ->
  JournalEntry.save db now (JournalEntryController.posted now entry)
  = inr (db1, saved) ->
  JournalEntryController.postJournalEntry db now ledgerUp (Some id) tenantId
  = (db1, JournalEntryController.mkResponse 400 false None)
  /\ JournalEntrySchema.status saved = Posted
  /\ JournalEntrySchema.isPosted saved = true
  /\ JournalEntrySchema._id saved = id
  /\ In saved (journalEntries db1)
  /\ generalLedger db1 = generalLedger db.
Proof.
  intros Hf Hst Hs.
  pose proof (save_inr _ _ _ _ _ Hs) as (Hv & Hp & Hdb).
  pose proof (preSave_fields _ _ _ _ Hp) as (Hid & _ & Hl & Hip & Hstat).
  simpl in Hid, Hl, Hip, Hstat.
  assert (Hfound : In entry (journalEntries db)
                   /\ JournalEntrySchema._id entry = id).
  { unfold JournalEntryController.findOne in Hf. injection Hf as Hf.
    apply find_some in Hf. destruct Hf as [Hin Hc].
    apply andb_true_iff in Hc. destruct Hc as [Hc _].
    apply Nat.eqb_eq in Hc. auto. }
  destruct Hfound as [Hin Hentry].
  split.
  { unfold JournalEntryController.postJournalEntry. rewrite Hf, Hst. simpl.
    rewrite Hs. rewrite postToGeneralLedger_rejected; [reflexivity |].
    apply JournalEntry_validate_spec in Hv. destruct Hv as (_ & Hlen & _).
    simpl in Hlen. rewrite Hl.
    destruct (JournalEntrySchema.lines entry); [simpl in Hlen; lia |].
    discriminate. }
  split; [exact Hstat |]. split; [exact Hip |].
  split; [congruence |].
  subst db1. simpl. split; [| reflexivity].
  apply in_map_iff. exists entry. split; [| exact Hin].
  rewrite Hid, Nat.eqb_refl. reflexivity.
Qed.

(** X6, instance: the cash sale stored as a Draft. *)
Lemma postJournalEntry_of_draft_witness :
  exists db1 saved,
    JournalEntry.save Scenario.withDraft Scenario.jun30
      (JournalEntryController.posted Scenario.jun30 Scenario.draftSale)
    = inr (db1, saved)
    /\ JournalEntryController.postJournalEntry Scenario.withDraft
         Scenario.jun30 true (Some 0%nat) Scenario.tenant
       = (db1, JournalEntryController.mkResponse 400 false None)
    /\ JournalEntrySchema.status saved = Posted.
Proof.
  eexists. eexists. split; [vm_compute; reflexivity |].
  refine ((fun H => conj (proj1 H) (proj1 (proj2 H)))
            (postJournalEntry_of_draft Scenario.withDraft _ Scenario.jun30
               true 0%nat Scenario.tenant Scenario.draftSale _ _ _ _)).
  - reflexivity.
  - reflexivity.
  - vm_compute. reflexivity.
Defined.
